(** * Post generator: few-shot corpus, annotation normalizer, dataset registry

    A shallow embedding of the data layer of the post generator:
    - [few_shot.py]          (class [FewShotPosts]: load, filter, merge),
    - [dataset_processor.py] (class [DatasetProcessor]: normalize, process),
    - [dataset_manager.py]   (class [DatasetManager]: raw/processed test),
    followed by the properties of these functions.

    Python values are dynamically typed, so every function works on one
    type [value] of JSON-like values, and a Python exception is an explicit
    [Raise] in the [result] type.  A [try: ... except Exception] block is
    [try_except]. *)

From Stdlib Require Import ZArith List String Ascii Bool Lia.
From Stdlib Require Import PrimFloat FloatOps SpecFloat.
Import ListNotations.
Set Warnings "-register-all".
Local Open Scope string_scope.
Local Open Scope Z_scope.

(* ===================================================================== *)
(** * Python values, exceptions and the built-ins the code uses *)
(* ===================================================================== *)

Module Py.

(** What [json.load] can return, which is also what a pandas cell or an
    untyped classifier answer can hold.  A Python [int] is unbounded, a
    Python [float] is an IEEE binary64 number, a [str] is kept as its
    UTF-8 bytes (the newline character is the single byte 10 there). *)
Inductive value : Type :=
| VNone
| VBool (b : bool)
| VInt (z : Z)
| VFloat (f : float)
| VStr (s : string)
| VList (l : list value)
| VDict (d : list (string * value)).

(** A Python [dict] with string keys, in insertion order.  Only the first
    binding of a key is visible. *)
Definition dict : Type := list (string * value).

Inductive exn : Type :=
| FileNotFoundError
| OSError
| UnicodeDecodeError
| JSONDecodeError
| OutputParserException
| ServiceError
| KeyError (key : string)
| AttributeError
| TypeError
| IndexError
| NotImplementedError.

Inductive result (A : Type) : Type :=
| Ok (a : A)
| Raise (e : exn).
Arguments Ok {A} a.
Arguments Raise {A} e.

Definition bind {A B} (r : result A) (k : A -> result B) : result B :=
  match r with
  | Ok a => k a
  | Raise e => Raise e
  end.

(** [try: body  except Exception as e: handler e] *)
Definition try_except {A} (body : result A) (handler : exn -> result A)
  : result A :=
  match body with
  | Ok a => Ok a
  | Raise e => handler e
  end.

Fixpoint mapM {A B} (f : A -> result B) (l : list A) : result (list B) :=
  match l with
  | [] => Ok []
  | x :: l' => bind (f x) (fun y => bind (mapM f l') (fun ys => Ok (y :: ys)))
  end.

Definition nan : value := VFloat PrimFloat.nan.

(** ** Dictionaries *)

Fixpoint dict_get (k : string) (d : dict) : option value :=
  match d with
  | [] => None
  | (k', v) :: d' => if String.eqb k k' then Some v else dict_get k d'
  end.

Definition dict_has (k : string) (d : dict) : bool :=
  match dict_get k d with Some _ => true | None => false end.

(** [d[k] = v]: an existing key keeps its place. *)
Fixpoint dict_set (k : string) (v : value) (d : dict) : dict :=
  match d with
  | [] => [(k, v)]
  | (k', v') :: d' =>
      if String.eqb k k' then (k, v) :: d' else (k', v') :: dict_set k v d'
  end.

(** [d.items()]: every key once, with its visible binding. *)
Fixpoint dict_items (d : dict) : dict :=
  match d with
  | [] => []
  | (k, v) :: d' =>
      (k, v) :: filter (fun kv => negb (String.eqb (fst kv) k)) (dict_items d')
  end.

Definition dict_keys (d : dict) : list string := map fst (dict_items d).

(** [{**d1, **d2}] *)
Definition dict_update (d1 d2 : dict) : dict :=
  fold_left (fun acc kv => dict_set (fst kv) (snd kv) acc) (dict_items d2) d1.

(** Python's [==] on dictionaries does not look at the order of keys. *)
Definition dict_equiv (d1 d2 : dict) : Prop :=
  forall k, dict_get k d1 = dict_get k d2.

(** ** Numbers *)

(** Exact comparison of a float with an integer, as Python does it;
    [None] for a NaN, which is unordered. *)
Definition float_compare_Z (f : float) (n : Z) : option comparison :=
  match Prim2SF f with
  | S754_nan => None
  | S754_infinity s => Some (if s then Lt else Gt)
  | S754_zero _ => Some (0 ?= n)
  | S754_finite s m e =>
      let mz := if s then Z.neg m else Z.pos m in
      if 0 <=? e then Some (mz * 2 ^ e ?= n)
      else Some (mz ?= n * 2 ^ (- e))
  end.

(** [v < n] for an integer literal [n]. *)
Definition lt_int (v : value) (n : Z) : result bool :=
  match v with
  | VInt z => Ok (z <? n)
  | VBool b => Ok (Z.b2z b <? n)
  | VFloat f =>
      Ok (match float_compare_Z f n with Some Lt => true | _ => false end)
  | _ => Raise TypeError
  end.

(** [v <= n] and [n <= v] for an integer literal [n]. *)
Definition le_int (v : value) (n : Z) : result bool :=
  match v with
  | VInt z => Ok (z <=? n)
  | VBool b => Ok (Z.b2z b <=? n)
  | VFloat f =>
      Ok (match float_compare_Z f n with
          | Some Lt | Some Eq => true
          | _ => false
          end)
  | _ => Raise TypeError
  end.

Definition int_le (n : Z) (v : value) : result bool :=
  match v with
  | VInt z => Ok (n <=? z)
  | VBool b => Ok (n <=? Z.b2z b)
  | VFloat f =>
      Ok (match float_compare_Z f n with
          | Some Gt | Some Eq => true
          | _ => false
          end)
  | _ => Raise TypeError
  end.

(** ** Truth value: [bool(v)] *)
Definition truthy (v : value) : bool :=
  match v with
  | VNone => false
  | VBool b => b
  | VInt z => negb (z =? 0)
  | VFloat f => negb (PrimFloat.eqb f PrimFloat.zero)
  | VStr s => negb (String.eqb s EmptyString)
  | VList l => match l with [] => false | _ => true end
  | VDict d => match d with [] => false | _ => true end
  end.

(** ** Strings *)

Definition newline : ascii := Ascii.ascii_of_nat 10.

(** [s.split('\n')]: the segments between newlines, at least one. *)
Fixpoint split_newline (s : string) : list string :=
  match s with
  | EmptyString => [EmptyString]
  | String c s' =>
      if Ascii.eqb c newline then EmptyString :: split_newline s'
      else match split_newline s' with
           | seg :: rest => String c seg :: rest
           | [] => [String c EmptyString]
           end
  end.

(** [len(text.split('\n'))]; only a [str] has [split]. *)
Definition len_split_newline (text : value) : result Z :=
  match text with
  | VStr s => Ok (Z.of_nat (List.length (split_newline s)))
  | _ => Raise AttributeError
  end.

Fixpoint str_prefix (p s : string) : bool :=
  match p, s with
  | EmptyString, _ => true
  | String a p', String b s' => Ascii.eqb a b && str_prefix p' s'
  | String _ _, EmptyString => false
  end.

(** [needle in hay] for two strings. *)
Fixpoint str_contains (needle hay : string) : bool :=
  str_prefix needle hay ||
  match hay with
  | EmptyString => false
  | String _ hay' => str_contains needle hay'
  end.

(** [s.startswith(p)] is [str_prefix p s]; [s.endswith(suffix)]: some
    tail of [s] is the suffix. *)
Fixpoint endswith (s suffix : string) : bool :=
  String.eqb s suffix ||
  match s with
  | EmptyString => false
  | String _ s' => endswith s' suffix
  end.

(** [s.replace(old, new)] for a non-empty [old]: the occurrences are
    taken from left to right and do not overlap; [skip] counts the
    characters of the occurrence just replaced that are still to pass. *)
Fixpoint replace_from (old new : string) (skip : nat) (s : string) : string :=
  match s with
  | EmptyString => EmptyString
  | String c s' =>
      match skip with
      | S k => replace_from old new k s'
      | O =>
          if str_prefix old s
          then new ++ replace_from old new (String.length old - 1) s'
          else String c (replace_from old new O s')
      end
  end.

(** With an empty [old], Python puts [new] around every character. *)
Fixpoint intersperse (new s : string) : string :=
  match s with
  | EmptyString => EmptyString
  | String c s' => String c (new ++ intersperse new s')
  end.

Definition replace (s old new : string) : string :=
  match old with
  | EmptyString => new ++ intersperse new s
  | _ => replace_from old new O s
  end.

(** ** Comparison with a string, membership, subscripts *)

(** [v == s] for a string [s]: exact and case-sensitive, false for every
    value that is not a [str]. *)
Definition eq_str (v : value) (s : string) : bool :=
  match v with
  | VStr s' => String.eqb s' s
  | _ => false
  end.

(** [s in l] for a string [s] and a list [l]. *)
Definition str_in_list (s : string) (l : list value) : bool :=
  existsb (fun v => eq_str v s) l.

(** [v in [s1, ..., sn]] for a list of string literals. *)
Definition in_strs (v : value) (lits : list string) : bool :=
  existsb (eq_str v) lits.

(** [s in container] *)
Definition contains (container : value) (s : string) : result bool :=
  match container with
  | VDict d => Ok (dict_has s d)
  | VStr hay => Ok (str_contains s hay)
  | VList l => Ok (str_in_list s l)
  | _ => Raise TypeError
  end.

(** [container[s]] for a string subscript. *)
Definition getitem (container : value) (s : string) : result value :=
  match container with
  | VDict d =>
      match dict_get s d with
      | Some v => Ok v
      | None => Raise (KeyError s)
      end
  | _ => Raise TypeError
  end.

(** [obj.get(s, default)]; only a [dict] has [get]. *)
Definition get (obj : value) (s : string) (default : value) : result value :=
  match obj with
  | VDict d =>
      match dict_get s d with
      | Some v => Ok v
      | None => Ok default
      end
  | _ => Raise AttributeError
  end.

(** [container[s] = v] for a string subscript. *)
Definition setitem (container : value) (s : string) (v : value)
  : result value :=
  match container with
  | VDict d => Ok (VDict (dict_set s v d))
  | _ => Raise TypeError
  end.

Definition is_list (v : value) : bool :=
  match v with VList _ => true | _ => false end.

(** [container[0]] *)
Definition getitem0 (container : value) : result value :=
  match container with
  | VList (x :: _) => Ok x
  | VList [] => Raise IndexError
  | VStr (String c _) => Ok (VStr (String c EmptyString))
  | VStr EmptyString => Raise IndexError
  | VDict _ => Raise (KeyError "0")
  | _ => Raise TypeError
  end.

(** [len(v)].  The code takes the length of lists only; for a [str] the
    model counts the bytes of its UTF-8 form. *)
Definition len (v : value) : result Z :=
  match v with
  | VList l => Ok (Z.of_nat (List.length l))
  | VDict d => Ok (Z.of_nat (List.length (dict_items d)))
  | VStr s => Ok (Z.of_nat (String.length s))
  | _ => Raise TypeError
  end.

(** ** Hashing: what [set(...)] and pandas' duplicate detection compare *)

Inductive hkey : Type :=
| KNone
| KNaN
| KInf (negative : bool)
| KNum (m e : Z)       (* m * 2^e with m odd, or 0 0 *)
| KStr (s : string).

Fixpoint strip_twos (p : positive) : positive * Z :=
  match p with
  | xO q => let '(r, k) := strip_twos q in (r, k + 1)
  | _ => (p, 0)
  end.

Definition dyadic (m e : Z) : hkey :=
  match m with
  | Z0 => KNum 0 0
  | Zpos p => let '(r, k) := strip_twos p in KNum (Zpos r) (e + k)
  | Zneg p => let '(r, k) := strip_twos p in KNum (Zneg r) (e + k)
  end.

Definition float_key (f : float) : hkey :=
  match Prim2SF f with
  | S754_nan => KNaN
  | S754_infinity s => KInf s
  | S754_zero _ => KNum 0 0
  | S754_finite s m e => dyadic (if s then Z.neg m else Z.pos m) e
  end.

(** Equal keys are exactly the values that are [==] with equal hashes:
    [1 == 1.0 == True]; lists and dicts cannot be hashed. *)
Definition hash_key (v : value) : result hkey :=
  match v with
  | VNone => Ok KNone
  | VBool b => Ok (dyadic (Z.b2z b) 0)
  | VInt z => Ok (dyadic z 0)
  | VFloat f => Ok (float_key f)
  | VStr s => Ok (KStr s)
  | VList _ | VDict _ => Raise TypeError
  end.

Definition hkey_eqb (a b : hkey) : bool :=
  match a, b with
  | KNone, KNone => true
  | KNaN, KNaN => true
  | KInf s, KInf t => Bool.eqb s t
  | KNum m e, KNum m' e' => (m =? m') && (e =? e')
  | KStr s, KStr t => String.eqb s t
  | _, _ => false
  end.

(** The rows to keep when only the first row of every key is kept:
    [seen] holds the keys met so far. *)
Fixpoint first_seen {A} (seen : list hkey) (l : list (hkey * A)) : list A :=
  match l with
  | [] => []
  | (k, x) :: l' =>
      if existsb (hkey_eqb k) seen then first_seen seen l'
      else x :: first_seen (k :: seen) l'
  end.

(** [list(set(l))].  Python leaves the order of a set unspecified; the
    model lists the elements in order of first occurrence. *)
Definition list_set (l : list value) : result (list value) :=
  bind (mapM hash_key l) (fun ks => Ok (first_seen [] (combine ks l))).

End Py.

Export Py.

Declare Scope py_scope.
Notation "'let*' x ':=' e 'in' k" := (bind e (fun x => k))
  (at level 10, x name, e at level 100, k at level 200) : py_scope.
Local Open Scope py_scope.

(* ===================================================================== *)
(** * dataset_processor.py *)
(* ===================================================================== *)

Module dataset_processor.

(** [DatasetProcessor.normalize_metadata(metadata, text)] *)
Definition normalize_metadata (metadata text : value) : result dict :=
  (* Calculate line count from actual text *)
  let* line_count := len_split_newline text in
  (* Normalize length category based on actual line count *)
  let length :=
    if line_count <=? 5 then "Short"
    else if line_count <=? 10 then "Medium"
    else "Long" in
  (* Ensure tags is a list *)
  let* tags := get metadata "tags" (VList []) in
  let tags :=
    match tags with
    | VStr _ => [tags]
    | VList l => l
    | _ => []
    end in
  (* Validate language *)
  let* language := get metadata "language" (VStr "English") in
  let language :=
    if negb (in_strs language ["English"; "Hinglish"])
    then VStr "English" else language in
  (* Validate tone *)
  let valid_tones :=
    ["Professional"; "Casual"; "Humorous"; "Inspirational"; "Educational"] in
  let* tone := get metadata "tone" (VStr "Professional") in
  let tone :=
    if negb (in_strs tone valid_tones) then VStr "Professional" else tone in
  (* Validate target audience *)
  let valid_audiences :=
    ["Students"; "Professionals"; "Job Seekers"; "Entrepreneurs"; "General"] in
  let* target_audience := get metadata "target_audience" (VStr "General") in
  let target_audience :=
    if negb (in_strs target_audience valid_audiences)
    then VStr "General" else target_audience in
  Ok [ ("line_count", VInt line_count);
       ("language", language);
       ("tags", VList (firstn 4 tags));
       ("length", VStr length);
       ("tone", tone);
       ("target_audience", target_audience) ].

(** [DatasetProcessor.get_default_metadata(text)] *)
Definition get_default_metadata (text : value) : result dict :=
  let* line_count := len_split_newline text in
  let length :=
    if line_count <=? 5 then "Short"
    else if line_count <=? 10 then "Medium"
    else "Long" in
  Ok [ ("line_count", VInt line_count);
       ("language", VStr "English");
       ("tags", VList [VStr "General"]);
       ("length", VStr length);
       ("tone", VStr "Professional");
       ("target_audience", VStr "General") ].

Section Classifier.

(** The classifier is an external service: [llm i text] is what the call
    made for the item at position [i] of a batch gives for the prompt
    built from [text], after [JsonOutputParser]: a parsed JSON value, or
    the exception of the call or of the parser.  It is not assumed to
    answer the same text twice in the same way. *)
Variable llm : nat -> value -> result value.

(** [DatasetProcessor.extract_post_metadata(text)] *)
Definition extract_post_metadata (i : nat) (text : value) : result dict :=
  try_except
    (let* metadata := llm i text in
     (* Validate and normalize the extracted data *)
     normalize_metadata metadata text)
    (fun _ =>
       (* Return default metadata if AI extraction fails *)
       get_default_metadata text).

(** [DatasetProcessor.process_single_post(post)]; [None] is Python's. *)
Definition process_single_post (i : nat) (post : value)
  : result (option dict) :=
  try_except
    ((* Ensure we have text content *)
     let* has_text := contains post "text" in
     let* no_text :=
       if negb has_text then Ok true
       else let* text := getitem post "text" in Ok (negb (truthy text)) in
     if no_text then Ok None
     else
       let* text := getitem post "text" in
       (* Extract metadata using AI *)
       let* metadata := extract_post_metadata i text in
       (* Combine original post with extracted metadata *)
       let* engagement := get post "engagement" (VInt 0) in
       Ok (Some (dict_update [("text", text); ("engagement", engagement)]
                             metadata)))
    (fun _ => Ok None).

(** The loop of [process_existing_raw_dataset] and of
    [process_uploaded_dataset] over the raw list, from position [i] on:
    [for post in raw_data: ... if processed_post: append]. *)
Fixpoint process_posts (i : nat) (raw_data : list value)
  : result (list dict) :=
  match raw_data with
  | [] => Ok []
  | post :: raw_data' =>
      let* processed_post := process_single_post i post in
      let* processed_posts := process_posts (S i) raw_data' in
      match processed_post with
      | Some d => Ok (if truthy (VDict d) then d :: processed_posts
                      else processed_posts)
      | None => Ok processed_posts
      end
  end.

End Classifier.

(** The two paths that [DatasetProcessor.process_uploaded_dataset(
    uploaded_file, dataset_name)] writes: the raw copy and the processed
    dataset. *)
Definition raw_filename (dataset_name : string) : string :=
  if negb (str_prefix "raw_" dataset_name)
  then "data/raw_" ++ dataset_name ++ ".json"
  else "data/" ++ dataset_name ++ ".json".

Definition processed_filename (dataset_name : string) : string :=
  if str_prefix "raw_" dataset_name
  then
    (* raw_tech_students -> processed_raw_tech_students *)
    "data/processed_" ++ dataset_name ++ ".json"
  else
    (* custom_dataset -> processed_raw_custom_dataset *)
    "data/processed_raw_" ++ dataset_name ++ ".json".

(** The path of the side file that [save_processed_dataset] writes. *)
Definition metadata_filename (filename : string) : string :=
  replace filename ".json" "_metadata.json".

End dataset_processor.

(* ===================================================================== *)
(** * The part of pandas that few_shot.py uses *)
(* ===================================================================== *)

Module pd.

(** A frame is its column labels and its rows.  A row is read only through
    the labels: a label without a binding in a row is a missing cell, which
    pandas shows as NaN.  The cells are kept as they were parsed; the
    storage type that pandas picks for a column (under which a [None]
    among numbers is stored as NaN, and the integers of a column with a
    float or a missing cell as floats) is not modelled.  The properties
    that speak of the cells of a record that went through a frame state
    them up to this storage, with the relation [stored]. *)
Record DataFrame : Type := {
  columns : list string;
  rows : list dict
}.

(** [pd.DataFrame()] and [pd.DataFrame(columns=cols)] *)
Definition DataFrame_empty : DataFrame := {| columns := []; rows := [] |}.
Definition DataFrame_columns (cols : list string) : DataFrame :=
  {| columns := cols; rows := [] |}.

(** [c in df.columns] *)
Definition has_column (df : DataFrame) (c : string) : bool :=
  existsb (String.eqb c) (columns df).

Definition cell (c : string) (r : dict) : value :=
  match dict_get c r with
  | Some v => v
  | None => nan
  end.

(** [df.empty]: one of the two axes has length 0. *)
Definition empty (df : DataFrame) : bool :=
  match columns df, rows df with
  | [], _ => true
  | _, [] => true
  | _, _ => false
  end.

(** [df[c]], the cells of a column from top to bottom. *)
Definition getitem (df : DataFrame) (c : string) : result (list value) :=
  if has_column df c then Ok (map (cell c) (rows df))
  else Raise (KeyError c).

(** [df[c] = series], with one value for every row. *)
Definition setitem (df : DataFrame) (c : string) (series : list value)
  : DataFrame :=
  {| columns := if has_column df c then columns df else columns df ++ [c];
     rows := map (fun rv => dict_set c (snd rv) (fst rv))
                 (combine (rows df) series) |}.

(** [df[c] = v] for one scalar [v]. *)
Definition setitem_scalar (df : DataFrame) (c : string) (v : value)
  : DataFrame :=
  {| columns := if has_column df c then columns df else columns df ++ [c];
     rows := map (dict_set c v) (rows df) |}.

(** One row as [to_dict] shows it: every column, NaN where it is missing. *)
Definition record_of (cols : list string) (r : dict) : dict :=
  map (fun c => (c, cell c r)) cols.

(** [df.to_dict(orient='records')] *)
Definition to_dict_records (df : DataFrame) : list dict :=
  map (record_of (columns df)) (rows df).

(** [df[mask]] for a boolean series. *)
Definition select (df : DataFrame) (mask : list bool) : DataFrame :=
  {| columns := columns df;
     rows := map fst (filter snd (combine (rows df) mask)) |}.

Definition add_label (cols : list string) (c : string) : list string :=
  if existsb (String.eqb c) cols then cols else cols ++ [c].

(** [pd.concat([a, b], ignore_index=True)]: the rows of [a], then the rows
    of [b], under the union of the columns.  The cells stay as they are:
    the common type that pandas gives to a column is not modelled. *)
Definition concat (a b : DataFrame) : DataFrame :=
  {| columns := fold_left add_label (columns b) (columns a);
     rows := to_dict_records a ++ to_dict_records b |}.

(** pandas holds [None] and NaN for the same missing value. *)
Definition na_key (v : value) : result hkey :=
  match v with
  | VNone => Ok KNaN
  | _ => hash_key v
  end.

(** [df.drop_duplicates(subset=[c], keep='first')].  An empty frame is
    returned as it is, before the column is looked up.  The cells are
    compared through their keys, which fits the cells that can be
    hashed; the properties use it on columns of strings only. *)
Definition drop_duplicates (df : DataFrame) (c : string) : result DataFrame :=
  if empty df then Ok df
  else
    let* col := getitem df c in
    let* keys := mapM na_key col in
    Ok {| columns := columns df;
          rows := first_seen [] (combine keys (rows df)) |}.

(** ** [pd.json_normalize] *)

Definition is_dict (v : value) : bool :=
  match v with VDict _ => true | _ => false end.

(** [key_string + "." + key], without the leading separator. *)
Definition new_key (key_string key : string) : string :=
  if String.eqb key_string EmptyString then key else key_string ++ "." ++ key.

(** Nested objects are flattened into dotted labels; [seen] skips the
    bindings of a key that an earlier binding hides. *)
Fixpoint normalise_json (data : value) (key_string : string)
    (normalized_dict : dict) : dict :=
  match data with
  | VDict d =>
      (fix items (d : dict) (seen : list string) (acc : dict) : dict :=
         match d with
         | [] => acc
         | (key, v) :: d' =>
             if existsb (String.eqb key) seen then items d' seen acc
             else items d' (key :: seen)
                        (normalise_json v (new_key key_string key) acc)
         end) d [] normalized_dict
  | _ => dict_set key_string data normalized_dict
  end.

Definition normalise_json_ordered (data : dict) : dict :=
  let top_dict :=
    filter (fun kv => negb (is_dict (snd kv))) (dict_items data) in
  let nested_dict :=
    normalise_json
      (VDict (filter (fun kv => is_dict (snd kv)) (dict_items data)))
      EmptyString [] in
  dict_update top_dict nested_dict.

(** The rows that [json_normalize] hands to the frame constructor: an
    object is flattened, a scalar gives an empty record, an array stays an
    array. *)
Definition simple_json_normalize (row : value) : value :=
  match row with
  | VDict d => VDict (normalise_json_ordered d)
  | VList l => VList l
  | _ => VDict []
  end.

(** [pd.DataFrame(data)] for the list built above.  The labels are the
    keys of the records in order of first appearance.  When the first row
    is an array, pandas labels the columns by position, so no string names
    a column; an array after a first record has no [keys]. *)
Definition DataFrame_of_list (data : list value) : result DataFrame :=
  match data with
  | VList _ :: _ => Ok {| columns := []; rows := map (fun _ => []) data |}
  | _ =>
      let* records :=
        mapM (fun x => match x with
                       | VDict d => Ok d
                       | _ => Raise AttributeError
                       end) data in
      Ok {| columns :=
              fold_left (fun cols r => fold_left add_label (dict_keys r) cols)
                        records [];
            rows := records |}
  end.

(** [pd.json_normalize(data)] *)
Definition json_normalize (data : value) : result DataFrame :=
  match data with
  | VList [] => Ok DataFrame_empty
  | VDict d => DataFrame_of_list (map simple_json_normalize [VDict d])
  | VList l => DataFrame_of_list (map simple_json_normalize l)
  | _ => Raise NotImplementedError
  end.

End pd.

(* ===================================================================== *)
(** * few_shot.py *)
(* ===================================================================== *)

Module few_shot.

(** The two attributes of a [FewShotPosts] object that the methods
    below read and write. *)
Record FewShotPosts : Type := {
  df : pd.DataFrame;
  unique_tags : list value
}.

(** [FewShotPosts.ensure_list(tags)] *)
Definition ensure_list (tags : value) : value :=
  match tags with
  | VStr _ => VList [tags]
  | VList _ => tags
  | _ => VList []
  end.

(** [FewShotPosts.categorize_length(line_count)] *)
Definition categorize_length (line_count : value) : result string :=
  let* short := lt_int line_count 5 in
  if short then Ok "Short"
  else
    let* ge5 := int_le 5 line_count in
    let* medium := if ge5 then le_int line_count 10 else Ok false in
    if medium then Ok "Medium" else Ok "Long".

(** The lists of a column of tags, end to end. *)
Definition all_tags_of (series : list value) : list value :=
  flat_map (fun tags_list =>
              match tags_list with
              | VList l => l
              | _ => []
              end) series.

(** [FewShotPosts.load_posts(file_path)].  [file] is what
    [json.load(open(file_path))] gives: the parsed document, or the
    exception of [open] or of the parser. *)
Definition load_posts (file : result value) : result FewShotPosts :=
  try_except
    (let* posts := file in
     let* df := pd.json_normalize posts in
     (* Ensure required columns exist *)
     let* df :=
       if negb (pd.has_column df "line_count") then
         let* text := pd.getitem df "text" in
         let* line_count :=
           mapM (fun x => let* n := len_split_newline x in Ok (VInt n)) text in
         Ok (pd.setitem df "line_count" line_count)
       else Ok df in
     let* df :=
       if negb (pd.has_column df "length") then
         let* line_count := pd.getitem df "line_count" in
         let* length :=
           mapM (fun x => let* s := categorize_length x in Ok (VStr s))
                line_count in
         Ok (pd.setitem df "length" length)
       else Ok df in
     let df :=
       if negb (pd.has_column df "engagement")
       then pd.setitem_scalar df "engagement" (VInt 0) else df in
     (* Process tags *)
     if pd.has_column df "tags" then
       let* tags := pd.getitem df "tags" in
       let df := pd.setitem df "tags" (map ensure_list tags) in
       let* tags := pd.getitem df "tags" in
       let* unique := list_set (all_tags_of tags) in
       Ok {| df := df; unique_tags := unique |}
     else
       Ok {| df := df; unique_tags := [] |})
    (fun e =>
       match e with
       | FileNotFoundError =>
           Ok {| df := pd.DataFrame_columns
                         ["text"; "engagement"; "line_count"; "language";
                          "tags"; "length"];
                 unique_tags := [] |}
       | _ => Ok {| df := pd.DataFrame_empty; unique_tags := [] |}
       end).

(** [FewShotPosts.get_tags()] *)
Definition get_tags (self : FewShotPosts) : list value :=
  if truthy (VList (unique_tags self)) then unique_tags self else [].

(** [FewShotPosts.get_filtered_posts(length, language, tag)]: first the
    body of the [try], then the method. *)
Definition get_filtered_posts_body (self : FewShotPosts)
    (length language tag : string) : result (list dict) :=
  if pd.empty (df self) then Ok []
  else
    let* tags := pd.getitem (df self) "tags" in
    let has_tag :=
      map (fun tags => match tags with
                       | VList l => str_in_list tag l
                       | _ => false
                       end) tags in
    let* languages := pd.getitem (df self) "language" in
    let same_language := map (fun v => eq_str v language) languages in
    let* lengths := pd.getitem (df self) "length" in
    let same_length := map (fun v => eq_str v length) lengths in
    let mask :=
      map (fun abc => fst (fst abc) && snd (fst abc) && snd abc)
          (combine (combine has_tag same_language) same_length) in
    Ok (pd.to_dict_records (pd.select (df self) mask)).

Definition get_filtered_posts (self : FewShotPosts)
    (length language tag : string) : result (list dict) :=
  try_except (get_filtered_posts_body self length language tag)
             (fun _ => Ok []).

(** The body of the loop of [add_posts]: the post with its missing
    fields filled in. *)
Definition fill_post (post : value) : result value :=
  (* Ensure required fields *)
  let* has_line_count := contains post "line_count" in
  let* post :=
    if negb has_line_count then
      let* text := get post "text" (VStr EmptyString) in
      let* n := len_split_newline text in
      setitem post "line_count" (VInt n)
    else Ok post in
  let* has_length := contains post "length" in
  let* post :=
    if negb has_length then
      let* line_count := getitem post "line_count" in
      let* length := categorize_length line_count in
      setitem post "length" (VStr length)
    else Ok post in
  let* has_engagement := contains post "engagement" in
  let* post :=
    if negb has_engagement then setitem post "engagement" (VInt 0)
    else Ok post in
  let* has_tags := contains post "tags" in
  if negb has_tags then setitem post "tags" (VList []) else Ok post.

(** [series.apply(lambda x: x if isinstance(x, list) else []).sum()]
    followed by [set(...)]: the sum of an empty series is the number 0,
    which [set] refuses. *)
Definition tags_of_series (series : list value) : result (list value) :=
  match series with
  | [] => Raise TypeError
  | _ => list_set (all_tags_of series)
  end.

(** [FewShotPosts.add_posts(new_posts)]: the object after the call and
    the value returned.  The posts are updated in place in Python; the
    model keeps the updated posts for the new frame only. *)
Definition add_posts (self : FewShotPosts) (new_posts : list value)
  : FewShotPosts * bool :=
  match (let* posts := mapM fill_post new_posts in
         (* Add to DataFrame *)
         pd.json_normalize (VList posts)) with
  | Raise _ => (self, false)
  | Ok new_df =>
      let self :=
        {| df := pd.concat (df self) new_df;
           unique_tags := unique_tags self |} in
      (* Update tags *)
      match (let* tags := pd.getitem (df self) "tags" in
             tags_of_series tags) with
      | Raise _ => (self, false)
      | Ok unique => ({| df := df self; unique_tags := unique |}, true)
      end
  end.

(** [FewShotPosts.merge_datasets(other_file_path)]: the object after the
    call and the value returned.  An exception leaves the assignments made
    before it in place. *)
Definition merge_datasets (self : FewShotPosts) (other_file : result value)
  : FewShotPosts * bool :=
  match load_posts other_file with
  | Raise _ => (self, false)
  | Ok other_fs =>
      if negb (pd.empty (df other_fs)) then
        (* Combine DataFrames *)
        let self :=
          {| df := pd.concat (df self) (df other_fs);
             unique_tags := unique_tags self |} in
        (* Remove duplicates based on text content *)
        match pd.drop_duplicates (df self) "text" with
        | Raise _ => (self, false)
        | Ok deduplicated =>
            let self :=
              {| df := deduplicated; unique_tags := unique_tags self |} in
            (* Update tags *)
            match (let* tags := pd.getitem (df self) "tags" in
                   list_set (all_tags_of tags)) with
            | Raise _ => (self, false)
            | Ok unique => ({| df := df self; unique_tags := unique |}, true)
            end
        end
      else (self, false)
  end.

End few_shot.

(* ===================================================================== *)
(** * dataset_manager.py *)
(* ===================================================================== *)

Module dataset_manager.

(** [for field in required_fields: if field not in sample_post: return
    False]; the answer is whether the loop returned. *)
Fixpoint missing_field (sample_post : value) (required_fields : list string)
  : result bool :=
  match required_fields with
  | [] => Ok false
  | field :: fields =>
      let* present := contains sample_post field in
      if negb present then Ok true else missing_field sample_post fields
  end.

(** [DatasetManager._is_processed_dataset(dataset_path)].  [file] is what
    [json.load(open(dataset_path))] gives. *)
Definition _is_processed_dataset (file : result value) : result bool :=
  try_except
    (let* data := file in
     if negb (truthy data) || negb (is_list data) then Ok false
     else
       (* Check if the first post has required fields *)
       let* sample_post := getitem0 data in
       let* missing := missing_field sample_post ["text"; "tags"] in
       if missing then Ok false
       else
         (* Check if tags is a list and not empty *)
         let* tags := get sample_post "tags" VNone in
         let* no_tags :=
           if negb (is_list tags) then Ok true
           else
             let* tags := get sample_post "tags" (VList []) in
             let* n := len tags in
             Ok (n =? 0) in
         if no_tags then Ok false else Ok true)
    (fun _ => Ok false).

(** The outcome of reading a path, as above; the path does not exist
    exactly when opening it raises [FileNotFoundError].
    [DatasetManager.dataset_exists(dataset_path)] *)
Definition dataset_exists (file : result value) : bool :=
  match file with
  | Raise FileNotFoundError => false
  | _ => true
  end.

Section Messages.

(** [str(e)], the text of an exception. *)
Variable str_exn : exn -> string.

(** [DatasetManager.validate_dataset(dataset_path)] *)
Definition validate_dataset (file : result value) : bool * string :=
  if negb (dataset_exists file) then (false, "Dataset file not found")
  else
    match
      (let* data := file in
       if negb (is_list data) then
         Ok (false, "Dataset must be a list of posts")
       else if negb (truthy data) then Ok (false, "Dataset is empty")
       else
         (* Check if posts have required fields *)
         let* sample_post := getitem0 data in
         let* present := contains sample_post "text" in
         if negb present
         then Ok (false, "Posts missing required field: " ++ "text")
         else Ok (true, "Dataset is valid"))
    with
    | Ok answer => answer
    | Raise JSONDecodeError => (false, "Invalid JSON format")
    | Raise e => (false, "Error validating dataset: " ++ str_exn e)
    end.

End Messages.

Section Listing.

(** [str.title()], Python's title case. *)
Variable title : string -> string.

(** [DatasetManager._create_display_name(filename, is_raw)] *)
Definition _create_display_name (filename : string) (is_raw : bool)
  : string :=
  (* Remove .json extension *)
  let name := replace filename ".json" EmptyString in
  (* Handle different naming patterns *)
  if str_prefix "raw_" name then
    let base_name :=
      title (replace (replace name "raw_" EmptyString) "_" " ") in
    if is_raw then base_name ++ " (Raw)" else base_name
  else if str_prefix "processed_raw_" name then
    title (replace (replace name "processed_raw_" EmptyString) "_" " ")
  else if str_prefix "processed_" name then
    title (replace (replace name "processed_" EmptyString) "_" " ")
  else
    (* Handle legacy names *)
    let clean_name := title (replace name "_" " ") in
    (* Special cases for known datasets *)
    if String.eqb clean_name "College Student Posts"
    then "College Student Journey"
    else if String.eqb clean_name "Processed Posts"
    then "Professional Posts"
    else if String.eqb clean_name "Sample Raw Dataset"
    then (if is_raw then "Sample Dataset (Raw)" else "Sample Dataset")
    else clean_name.

(** System files to exclude *)
Definition system_files : list string :=
  [ "dataset_mappings.json"; "prompt_templates.json";
    "generated_posts_history.json"; "analytics_report.json" ].

(** The test on a file name that both listings make. *)
Definition is_dataset_file (file : string) : bool :=
  endswith file ".json"
  && negb (endswith file "_metadata.json")
  && negb (endswith file "_history.json")
  && negb (existsb (String.eqb file) system_files).

(** [os.path.join(self.data_dir, file)], with the separator of POSIX. *)
Definition file_path (file : string) : string := "data" ++ "/" ++ file.

(** The data directory: [None] when it does not exist, else the names
    that [os.listdir] gives, in its order, each with the outcome of
    reading it. *)
Definition directory : Type := option (list (string * result value)).

(** [DatasetManager.get_available_datasets()]: display name to path. *)
Definition get_available_datasets (data_dir : directory) : dict :=
  match data_dir with
  | None => []
  | Some files =>
      fold_left
        (fun datasets entry =>
           let file := fst entry in
           if is_dataset_file file then
             match _is_processed_dataset (snd entry) with
             | Ok true =>
                 dict_set (_create_display_name file false)
                          (VStr (file_path file)) datasets
             | _ => datasets
             end
           else datasets)
        files []
  end.

(** [DatasetManager.get_raw_datasets()] *)
Definition get_raw_datasets (data_dir : directory) : dict :=
  match data_dir with
  | None => []
  | Some files =>
      fold_left
        (fun raw_datasets entry =>
           let file := fst entry in
           if is_dataset_file file then
             match _is_processed_dataset (snd entry) with
             | Ok true => raw_datasets
             | _ =>
                 dict_set (_create_display_name file true)
                          (VStr (file_path file)) raw_datasets
             end
           else raw_datasets)
        files []
  end.

(** [st.session_state]: the two entries that the manager uses. *)
Record session_state : Type := {
  current_dataset : option string;
  dataset_changed : option Z
}.

(** [list(available.values())[0]], or the fixed default path. *)
Definition first_available (data_dir : directory) : string :=
  match dict_items (get_available_datasets data_dir) with
  | (_, VStr path) :: _ => path
  | _ => "data/processed_posts.json"
  end.

(** [DatasetManager.get_current_dataset()]: the path and the session
    state after the call.  [streamlit_available] is the module flag
    [STREAMLIT_AVAILABLE]. *)
Definition get_current_dataset (streamlit_available : bool)
    (st : session_state) (data_dir : directory) : string * session_state :=
  if streamlit_available then
    match current_dataset st with
    | Some path => (path, st)
    | None =>
        (* Set default dataset *)
        let path := first_available data_dir in
        (path, {| current_dataset := Some path;
                  dataset_changed := dataset_changed st |})
    end
  else
    (* Fallback when streamlit is not available *)
    (first_available data_dir, st).

(** [DatasetManager.set_current_dataset(dataset_path)] *)
Definition set_current_dataset (streamlit_available : bool)
    (dataset_path : string) (st : session_state) : session_state :=
  if streamlit_available then
    {| current_dataset := Some dataset_path;
       (* Force refresh of dependent components *)
       dataset_changed :=
         Some (match dataset_changed st with
               | Some n => n + 1
               | None => 0 + 1
               end) |}
  else st.

End Listing.

End dataset_manager.

(* ===================================================================== *)
(** * post_generator.py and the part of config.py that it reads *)
(* ===================================================================== *)

From Stdlib Require DecimalString.

Module post_generator.

Import few_shot.

(** [config.LENGTH_DEFINITIONS] *)
Definition LENGTH_DEFINITIONS : list (string * list (string * string)) :=
  [ ("Short", [ ("lines", "1 to 5 lines");
                ("words", "10-50 words");
                ("description", "Quick, punchy content") ]);
    ("Medium", [ ("lines", "6 to 10 lines");
                 ("words", "51-150 words");
                 ("description", "Balanced, engaging content") ]);
    ("Long", [ ("lines", "11 to 15 lines");
               ("words", "151-300 words");
               ("description", "Detailed, comprehensive content") ]) ].

(** [d.get(k, default)] on a dictionary of the configuration. *)
Fixpoint config_get {A : Type} (k : string) (d : list (string * A))
    (default : A) : A :=
  match d with
  | [] => default
  | (k', v) :: d' => if String.eqb k k' then v else config_get k d' default
  end.

(** [get_length_str(length)] *)
Definition get_length_str (length : string) : string :=
  let length_config := config_get length LENGTH_DEFINITIONS [] in
  config_get "lines" length_config "1 to 5 lines".

(** [str(b)] for a boolean, and [str(n)] for a natural number. *)
Definition str_bool (b : bool) : string := if b then "True" else "False".

Definition str_nat (n : nat) : string :=
  DecimalString.NilEmpty.string_of_uint (Nat.to_uint n).

Definition nl : string := String newline EmptyString.
Definition dq : string := String (Ascii.ascii_of_nat 34) EmptyString.

(** The lines of a text, each one closed by a newline. *)
Definition text_lines (lines : list string) : string :=
  fold_right (fun line rest => line ++ nl ++ rest) EmptyString lines.

(** The f-string with which [get_prompt] starts. *)
Definition prompt_head (length_str language tag tone : string)
    (include_hashtags include_emojis add_cta professional : bool) : string :=
  nl ++
  text_lines
    [ "    Generate a LinkedIn post using the below information. No preamble.";
      EmptyString;
      "    1) Topic: " ++ tag;
      "    2) Length: " ++ length_str;
      "    3) Language: " ++ language;
      "    4) Tone: " ++ tone;
      "    5) Include Hashtags: " ++ str_bool include_hashtags;
      "    6) Include Emojis: " ++ str_bool include_emojis;
      "    7) Add Call-to-Action: " ++ str_bool add_cta;
      "    8) Professional Format: " ++ str_bool professional;
      "    ";
      "    If Language is Hinglish then it means it is a mix of Hindi and English. ";
      "    The script for the generated post should always be English.";
      "    ";
      "    Additional Guidelines:";
      "    - If tone is " ++ dq ++ "Humorous" ++ dq
        ++ ", include light jokes or witty observations";
      "    - If tone is " ++ dq ++ "Inspirational" ++ dq
        ++ ", focus on motivation and positive messaging";
      "    - If tone is " ++ dq ++ "Educational" ++ dq
        ++ ", provide valuable insights or tips";
      "    - If tone is " ++ dq ++ "Casual" ++ dq
        ++ ", use conversational language and personal anecdotes";
      "    - If include_hashtags is True, add 3-5 relevant hashtags at the end";
      "    - If include_emojis is True, use appropriate emojis throughout the post";
      "    - If add_cta is True, include a call-to-action like " ++ dq
        ++ "What's your experience?" ++ dq ++ " or " ++ dq
        ++ "Share your thoughts" ++ dq;
      "    - If professional is True, maintain formal business language" ]
  ++ "    ".

Section Format.

(** [str(v)] for a value that is no string: what an f-string shows. *)
Variable str_value : value -> string.

Definition format_value (v : value) : string :=
  match v with
  | VStr s => s
  | _ => str_value v
  end.

(** [for i, post in enumerate(examples): ...] from index [i] on. *)
Fixpoint examples_loop (i : nat) (examples : list dict) (prompt : string)
  : result string :=
  match examples with
  | [] => Ok prompt
  | post :: examples' =>
      let* post_text := getitem (VDict post) "text" in
      let prompt :=
        prompt ++ (nl ++ nl ++ " Example " ++ str_nat (i + 1) ++ ": "
                   ++ nl ++ nl ++ " " ++ format_value post_text) in
      (* Use max two samples *)
      if Nat.eqb i 1 then Ok prompt
      else examples_loop (S i) examples' prompt
  end.

(** [get_prompt(length, language, tag, tone, include_hashtags,
    include_emojis, add_cta, professional, fs)] for a corpus [fs] that
    is given. *)
Definition get_prompt (length language tag tone : string)
    (include_hashtags include_emojis add_cta professional : bool)
    (fs : FewShotPosts) : result string :=
  let length_str := get_length_str length in
  let prompt :=
    prompt_head length_str language tag tone include_hashtags
                include_emojis add_cta professional in
  let* examples := get_filtered_posts fs length language tag in
  let prompt :=
    if 0 <? Z.of_nat (List.length examples) then
      prompt ++ (nl ++ nl
                 ++ "9) Use the writing style as per the following examples:")
    else prompt in
  examples_loop O examples prompt.

End Format.

End post_generator.

(* ===================================================================== *)
(** * Properties *)
(* ===================================================================== *)

Import dataset_processor.

(** ** Vocabulary of the specification *)

(** *** Texts, buckets and bundles *)

(** The number of newline characters of a text. *)
Fixpoint count_newlines (s : string) : nat :=
  match s with
  | EmptyString => O
  | String c s' =>
      if Ascii.eqb c newline then S (count_newlines s') else count_newlines s'
  end.

(** The line count of a post: its newline-separated segments. *)
Definition line_count_of (T : string) : Z := Z.of_nat (S (count_newlines T)).

(** The annotation rule for the length bucket. *)
Inductive normalizer_bucket (n : Z) : string -> Prop :=
| bucket_short : n <= 5 -> normalizer_bucket n "Short"
| bucket_medium : 6 <= n <= 10 -> normalizer_bucket n "Medium"
| bucket_long : 10 < n -> normalizer_bucket n "Long".

Definition languages : list string := ["English"; "Hinglish"].
Definition tones : list string :=
  ["Professional"; "Casual"; "Humorous"; "Inspirational"; "Educational"].
Definition audiences : list string :=
  ["Students"; "Professionals"; "Job Seekers"; "Entrepreneurs"; "General"].

(** The six fields of a metadata bundle. *)
Definition bundle_fields : list string :=
  ["line_count"; "language"; "tags"; "length"; "tone"; "target_audience"].

(** A field holds one of the strings of an enumeration. *)
Definition in_enum (enum : list string) (field : option value) : Prop :=
  exists s, field = Some (VStr s) /\ In s enum.

(** An external [tags] value read as a sequence. *)
Definition tags_sequence (external : option value) : list value :=
  match external with
  | Some (VStr s) => [VStr s]
  | Some (VList l) => l
  | _ => []
  end.

(** A metadata bundle that is valid for the text [T]: it has no field
    but the six, the line count is that of [T], the length is its bucket,
    the tags are a sequence of at most 4 entries and the three enumerated
    fields hold a value of their enumeration. *)
Record valid_bundle (T : string) (M : dict) : Prop := {
  vb_fields : forall k, dict_get k M <> None -> In k bundle_fields;
  vb_line_count : dict_get "line_count" M = Some (VInt (line_count_of T));
  vb_length :
    exists b, dict_get "length" M = Some (VStr b) /\
              normalizer_bucket (line_count_of T) b;
  vb_tags :
    exists l, dict_get "tags" M = Some (VList l) /\ (List.length l <= 4)%nat;
  vb_language : in_enum languages (dict_get "language" M);
  vb_tone : in_enum tones (dict_get "tone" M);
  vb_audience : in_enum audiences (dict_get "target_audience" M)
}.

(** The value that the validation of an enumerated field keeps. *)
Definition checked (enum : list string) (default : string)
    (field : option value) : value :=
  match field with
  | Some (VStr s) =>
      if existsb (String.eqb s) enum then VStr s else VStr default
  | _ => VStr default
  end.

(** The bucket that the annotation rule names. *)
Definition bucket_name (n : Z) : string :=
  if n <=? 5 then "Short" else if n <=? 10 then "Medium" else "Long".

(** Lines joined by newline characters. *)
Fixpoint join_lines (lines : list string) : string :=
  match lines with
  | [] => EmptyString
  | [l] => l
  | l :: rest => l ++ String newline (join_lines rest)
  end.

(** *** Raw items and post records *)

(** A raw item has a non-empty text. *)
Definition text_of_item (post : value) : option string :=
  match post with
  | VDict d =>
      match dict_get "text" d with
      | Some (VStr s) => if String.eqb s EmptyString then None else Some s
      | _ => None
      end
  | _ => None
  end.

(** The texts of the items of a raw list that have one, in order. *)
Definition texts_of (raw_data : list value) : list string :=
  flat_map (fun post => match text_of_item post with
                        | Some s => [s]
                        | None => []
                        end) raw_data.

(** A post record: the text and engagement of the item with a bundle. *)
Definition post_record (s : string) (engagement language : value)
    (tags : list value) (tone target_audience : value) : dict :=
  [ ("text", VStr s);
    ("engagement", engagement);
    ("line_count", VInt (line_count_of s));
    ("language", language);
    ("tags", VList tags);
    ("length", VStr (bucket_name (line_count_of s)));
    ("tone", tone);
    ("target_audience", target_audience) ].

(** The record built from the fixed fallback bundle. *)
Definition fallback_record (s : string) (engagement : value) : dict :=
  post_record s engagement (VStr "English") [VStr "General"]
              (VStr "Professional") (VStr "General").

(** [post.get('engagement', 0)] of an item. *)
Definition engagement_of (post : value) : value :=
  match post with
  | VDict d =>
      match dict_get "engagement" d with
      | Some v => v
      | None => VInt 0
      end
  | _ => VInt 0
  end.

(** *** Corpora, queries and documents *)

(** The records of a corpus in its internal order, as [to_dict] shows
    them. *)
Definition records (self : few_shot.FewShotPosts) : list dict :=
  pd.to_dict_records (few_shot.df self).

(** A record matches a query: the tag is an entry of its [tags] sequence,
    and its language and length are the strings asked for. *)
Definition record_matches (length language tag : string) (r : dict) : Prop :=
  (exists l, dict_get "tags" r = Some (VList l) /\ In (VStr tag) l) /\
  dict_get "language" r = Some (VStr language) /\
  dict_get "length" r = Some (VStr length).

(** The same test as a boolean. *)
Definition matchesb (length language tag : string) (r : dict) : bool :=
  match dict_get "tags" r with
  | Some (VList l) => str_in_list tag l
  | _ => false
  end
  && match dict_get "language" r with
     | Some v => eq_str v language
     | None => false
     end
  && match dict_get "length" r with
     | Some v => eq_str v length
     | None => false
     end.

(** A JSON value that is neither an array nor an object. *)
Definition json_scalar (v : value) : Prop :=
  match v with
  | VList _ | VDict _ => False
  | _ => True
  end.

Definition json_object (v : value) : Prop :=
  match v with
  | VDict _ => True
  | _ => False
  end.

(** A document whose content is present but is not a JSON array of
    objects: its text is malformed, or it parses to something else. *)
Definition not_array_of_objects (file : result value) : Prop :=
  file = Raise JSONDecodeError \/
  exists v, file = Ok v /\
            ~ (exists l, v = VList l /\ Forall json_object l).

(** *** Duplicates *)

(** A record has a text, as the data model asks. *)
Definition has_text (r : dict) : Prop :=
  exists s, dict_get "text" r = Some (VStr s).

(** Two records have exactly the same text. *)
Definition same_text (r r' : dict) : bool :=
  match dict_get "text" r, dict_get "text" r' with
  | Some (VStr s), Some (VStr s') => String.eqb s s'
  | _, _ => false
  end.

(** Duplicates removed, the first occurrence kept: the head stays and
    its later duplicates leave the rest. *)
Fixpoint nub_by {A} (same : A -> A -> bool) (l : list A) : list A :=
  match l with
  | [] => []
  | x :: l' => x :: filter (fun y => negb (same x y)) (nub_by same l')
  end.

Definition dedup_by_text (l : list dict) : list dict := nub_by same_text l.

(** Records shown under the columns of another frame. *)
Definition under (cols : list string) (rs : list dict) : list dict :=
  map (pd.record_of cols) rs.

(** [r'] has every field of [r], with the same value. *)
Definition extends (r r' : dict) : Prop :=
  forall c v, dict_get c r = Some v -> dict_get c r' = Some v.

(** The key under which the duplicate test files a text. *)
Definition text_hkey (r : dict) : hkey :=
  match pd.cell "text" r with
  | VStr s => KStr s
  | _ => KNone
  end.

(** The text cell of a row can be hashed, to [text_hkey]. *)
Definition na_key_text_ok (r : dict) : Prop :=
  pd.na_key (pd.cell "text" r) = Ok (text_hkey r).

(** *** Cells as pandas stores them *)

(** The double that is nearest to an integer, ties to even. *)
Definition float_of_Z (n : Z) : float :=
  SF2Prim (binary_normalize prec emax n 0 false).

(** What [to_dict] may show for a parsed value [v] once it went through
    a frame.  A frame keeps a cell in the type of its column, and a
    column of numbers with a missing cell or a float is a column of
    floats: the cell comes back as it was parsed, or as the float of
    the integer that it was, or as NaN when it was [None]. *)
Inductive stored : value -> value -> Prop :=
| stored_same (v : value) : stored v v
| stored_float (n : Z) : stored (VInt n) (VFloat (float_of_Z n))
| stored_nan : stored VNone nan.

(** [r'] shows every field of [r], as it is stored. *)
Definition shown_as (r r' : dict) : Prop :=
  forall c v, dict_get c r = Some v ->
              exists v', dict_get c r' = Some v' /\ stored v v'.

(** Two records with the same fields in the same order, the cells of
    the second being those of the first as they are stored. *)
Definition stored_record (r r' : dict) : Prop :=
  Forall2 (fun kv kv' => fst kv = fst kv' /\ stored (snd kv) (snd kv')) r r'.

(** *** What a load leaves behind *)

(** The state that [load_posts] sets up in its two handlers. *)
Definition load_failure (e : exn) : few_shot.FewShotPosts :=
  match e with
  | FileNotFoundError =>
      {| few_shot.df :=
           pd.DataFrame_columns
             ["text"; "engagement"; "line_count"; "language"; "tags";
              "length"];
         few_shot.unique_tags := [] |}
  | _ => {| few_shot.df := pd.DataFrame_empty; few_shot.unique_tags := [] |}
  end.

(** The frame after the tags of every row went through [ensure_list]. *)
Definition with_tag_lists (df : pd.DataFrame) : pd.DataFrame :=
  pd.setitem df "tags"
    (map few_shot.ensure_list (map (pd.cell "tags") (pd.rows df))).

(** The shape of a state that [load_posts] returns: one of the two
    handler states, or a frame with the three backfilled columns whose
    tags, when it has them, went through [ensure_list] and were
    collected. *)
Definition loaded_shape (r : result few_shot.FewShotPosts) : Prop :=
  (exists e, r = Ok (load_failure e)) \/
  (exists df3,
     pd.has_column df3 "line_count" = true /\
     pd.has_column df3 "length" = true /\
     pd.has_column df3 "engagement" = true /\
     ((pd.has_column df3 "tags" = false /\
       r = Ok {| few_shot.df := df3; few_shot.unique_tags := [] |}) \/
      (pd.has_column df3 "tags" = true /\
       exists unique,
         list_set (few_shot.all_tags_of
                     (map (pd.cell "tags") (pd.rows (with_tag_lists df3))))
         = Ok unique /\
         r = Ok {| few_shot.df := with_tag_lists df3;
                   few_shot.unique_tags := unique |}))).

(** An object without nested objects: [json_normalize] has nothing to
    flatten in it. *)
Definition flat (d : dict) : Prop :=
  Forall (fun kv => pd.is_dict (snd kv) = false) d.

(** Some object of a list has the field [c]. *)
Definition some_has (c : string) (ds : list dict) : bool :=
  existsb (dict_has c) ds.

(** An item of a raw dataset: a flat object with a string text and no
    annotation yet. *)
Record raw_object (d : dict) : Prop := {
  raw_flat : flat d;
  raw_text : has_text d;
  raw_no_line_count : dict_get "line_count" d = None;
  raw_no_length : dict_get "length" d = None;
  raw_no_tags : dict_get "tags" d = None
}.

(** The text of a record, empty when it has none. *)
Definition text_string (r : dict) : string :=
  match dict_get "text" r with
  | Some (VStr s) => s
  | _ => EmptyString
  end.

(** The bucket of the load-time rule. *)
Definition load_bucket (n : Z) : string :=
  if n <? 5 then "Short" else if n <=? 10 then "Medium" else "Long".

(** What a load makes of one raw object [d] of the document [ds]. *)
Record backfilled (ds : list dict) (d r : dict) : Prop := {
  bf_shown : shown_as d r;
  bf_line_count :
    dict_get "line_count" r = Some (VInt (line_count_of (text_string d)));
  bf_length :
    dict_get "length" r
    = Some (VStr (load_bucket (line_count_of (text_string d))));
  bf_engagement_default :
    some_has "engagement" ds = false ->
    dict_get "engagement" r = Some (VInt 0);
  bf_engagement_missing :
    some_has "engagement" ds = true -> dict_get "engagement" d = None ->
    dict_get "engagement" r = Some nan
}.

(** The key of a value that can be hashed. *)
Definition hkey_of (v : value) : hkey :=
  match hash_key v with
  | Ok k => k
  | Raise _ => KNone
  end.

(** *** The registry *)

(** A corpus document that the registry is to call processed. *)
Definition processed_document (file : result value) : Prop :=
  exists first rest tags,
    file = Ok (VList (VDict first :: rest)) /\
    dict_get "text" first <> None /\
    dict_get "tags" first = Some (VList tags) /\
    tags <> [].

(** Whether the registry calls the content of a file processed. *)
Definition is_processed (content : result value) : bool :=
  match dataset_manager._is_processed_dataset content with
  | Ok true => true
  | _ => false
  end.

(** A file of the data directory that a listing may show: its name
    passes the test on names and its content is processed, or is not,
    as [wanted] says. *)
Definition listed_as (files : list (string * result value))
    (wanted : bool) (file : string) : Prop :=
  exists content,
    In (file, content) files /\
    dataset_manager.is_dataset_file file = true /\
    is_processed content = wanted.

(** One pass of a listing: the chosen entries are stored under their
    keys, in order. *)
Definition store_chosen {A : Type} (chosen : A -> bool) (key : A -> string)
    (val : A -> value) (entries : list A) (datasets : dict) : dict :=
  fold_left
    (fun datasets entry =>
       if chosen entry then dict_set (key entry) (val entry) datasets
       else datasets)
    entries datasets.

(** *** The output of the processor *)

(** The record of an item with the text [s]: the bundle is the checked
    answer of the classifier when that is an object, and the fallback
    otherwise. *)
Definition annotate (answer : result value) (s : string)
    (engagement : value) : dict :=
  match answer with
  | Ok (VDict M) =>
      post_record s engagement
        (checked languages "English" (dict_get "language" M))
        (firstn 4 (tags_sequence (dict_get "tags" M)))
        (checked tones "Professional" (dict_get "tone" M))
        (checked audiences "General" (dict_get "target_audience" M))
  | _ => fallback_record s engagement
  end.

(** The records of a raw list from position [i] on: one for every item
    with a text, the classifier being asked at the position of the
    item. *)
Fixpoint annotated (llm : nat -> value -> result value) (i : nat)
    (raw_data : list value) : list dict :=
  match raw_data with
  | [] => []
  | post :: raw_data' =>
      match text_of_item post with
      | Some s =>
          annotate (llm i (VStr s)) s (engagement_of post)
          :: annotated llm (S i) raw_data'
      | None => annotated llm (S i) raw_data'
      end
  end.

(** A value that [set(...)] takes: not an array and not an object. *)
Definition hashable (v : value) : Prop :=
  match v with
  | VList _ | VDict _ => False
  | _ => True
  end.

(** The tags that the classifier answers can be hashed. *)
Definition tags_hashable (answer : result value) : Prop :=
  match answer with
  | Ok (VDict M) => Forall hashable (tags_sequence (dict_get "tags" M))
  | _ => True
  end.

(** The tags of a record, none when the field is no array. *)
Definition tags_of_record (r : dict) : list value :=
  match dict_get "tags" r with
  | Some (VList l) => l
  | _ => []
  end.

(** The engagement of a raw item is an integer, or is missing. *)
Definition integer_engagement (post : value) : Prop :=
  exists n, engagement_of post = VInt n.

(** The fields of a post record, in order. *)
Definition record_fields : list string :=
  ["text"; "engagement"; "line_count"; "language"; "tags"; "length";
   "tone"; "target_audience"].

(** A post record with an integer engagement and three strings for the
    enumerated fields. *)
Definition shaped_record (r : dict) : Prop :=
  exists s n language tags tone audience,
    r = post_record s (VInt n) (VStr language) tags (VStr tone)
                    (VStr audience).

(** A post record with an integer engagement, three strings for the
    enumerated fields and tags that can be hashed. *)
Definition annotated_record (r : dict) : Prop :=
  exists s n language tags tone audience,
    r = post_record s (VInt n) (VStr language) tags (VStr tone)
                    (VStr audience) /\
    Forall hashable tags.

(** *** The examples of a prompt *)

(** The line that announces the examples, and one numbered example. *)
Definition style_line : string :=
  post_generator.nl ++ post_generator.nl
  ++ "9) Use the writing style as per the following examples:".

Definition example_block (number text : string) : string :=
  post_generator.nl ++ post_generator.nl ++ " Example " ++ number ++ ": "
  ++ post_generator.nl ++ post_generator.nl ++ " " ++ text.

(** What a prompt shows of the texts of the matching records: nothing
    when there is none, else the first two at most. *)
Definition shown_examples (texts : list string) : string :=
  match texts with
  | [] => EmptyString
  | [s1] => style_line ++ example_block "1" s1
  | s1 :: s2 :: _ =>
      style_line ++ example_block "1" s1 ++ example_block "2" s2
  end.

(** ** Helper lemmas on the built-ins *)

Lemma extends_shown_as (r r' : dict) : extends r r' -> shown_as r r'.
Proof.
  intros H c v Hc. exists v. split; [now apply H|constructor].
Qed.

Lemma stored_record_refl (r : dict) : stored_record r r.
Proof.
  unfold stored_record. induction r as [|kv r IH]; constructor;
    [split; [reflexivity|constructor]|exact IH].
Qed.

Lemma stored_records_refl (rs : list dict) : Forall2 stored_record rs rs.
Proof.
  induction rs as [|r rs IH]; constructor;
    [apply stored_record_refl|exact IH].
Qed.

Lemma length_split_newline (s : string) :
  List.length (split_newline s) = S (count_newlines s).
Proof.
  induction s as [|c s IH]; [reflexivity|].
  cbn [split_newline count_newlines].
  destruct (Ascii.eqb c newline).
  - cbn [List.length]. now rewrite IH.
  - destruct (split_newline s) as [|seg rest]; [discriminate IH|exact IH].
Qed.

Lemma len_split_newline_str (T : string) :
  len_split_newline (VStr T) = Ok (line_count_of T).
Proof.
  unfold len_split_newline, line_count_of. now rewrite length_split_newline.
Qed.

Lemma line_count_positive (T : string) : 1 <= line_count_of T.
Proof. unfold line_count_of. lia. Qed.

(** What [get] finds, as an option. *)
Lemma get_dict (M : dict) (k : string) (default : value) :
  get (VDict M) k default =
  Ok (match dict_get k M with Some v => v | None => default end).
Proof. unfold get. now destruct (dict_get k M). Qed.

(** The normalizer in closed form. *)
Lemma normalize_metadata_dict (M : dict) (T : string) :
  normalize_metadata (VDict M) (VStr T) =
  Ok [ ("line_count", VInt (line_count_of T));
       ("language", checked languages "English" (dict_get "language" M));
       ("tags", VList (firstn 4 (tags_sequence (dict_get "tags" M))));
       ("length", VStr (bucket_name (line_count_of T)));
       ("tone", checked tones "Professional" (dict_get "tone" M));
       ("target_audience",
        checked audiences "General" (dict_get "target_audience" M)) ].
Proof.
  unfold normalize_metadata.
  rewrite len_split_newline_str. cbn [bind].
  rewrite !get_dict. cbn [bind].
  unfold bucket_name.
  f_equal. repeat f_equal.
  - destruct (dict_get "language" M) as [[]|]; try reflexivity.
    unfold checked, in_strs, eq_str, languages.
    now destruct (existsb _ _).
  - now destruct (dict_get "tags" M) as [[]|].
  - destruct (dict_get "tone" M) as [[]|]; try reflexivity.
    unfold checked, in_strs, eq_str, tones.
    now destruct (existsb _ _).
  - destruct (dict_get "target_audience" M) as [[]|]; try reflexivity.
    unfold checked, in_strs, eq_str, audiences.
    now destruct (existsb _ _).
Qed.

Lemma bucket_name_spec (n : Z) : normalizer_bucket n (bucket_name n).
Proof.
  unfold bucket_name.
  destruct (Z.leb_spec n 5); [now constructor|].
  destruct (Z.leb_spec n 10); constructor; lia.
Qed.

Lemma normalizer_bucket_fun (n : Z) (b : string) :
  normalizer_bucket n b -> b = bucket_name n.
Proof.
  unfold bucket_name. intros [H|H|H].
  - destruct (Z.leb_spec n 5); [reflexivity|lia].
  - destruct (Z.leb_spec n 5); [lia|].
    destruct (Z.leb_spec n 10); [reflexivity|lia].
  - destruct (Z.leb_spec n 5); [lia|].
    destruct (Z.leb_spec n 10); [lia|reflexivity].
Qed.

Lemma existsb_eqb_In (s : string) (enum : list string) :
  existsb (String.eqb s) enum = true <-> In s enum.
Proof.
  rewrite existsb_exists. split.
  - intros [x [Hin Heq]]. apply String.eqb_eq in Heq. now subst.
  - intros Hin. exists s. split; [assumption|apply String.eqb_refl].
Qed.

Lemma checked_in_enum enum default field :
  in_enum enum field -> Some (checked enum default field) = field.
Proof.
  intros [s [-> Hin]]. unfold checked.
  apply existsb_eqb_In in Hin. now rewrite Hin.
Qed.

Lemma checked_not_in_enum enum default field :
  ~ in_enum enum field -> checked enum default field = VStr default.
Proof.
  intros Hn. unfold checked.
  destruct field as [[]|]; try reflexivity.
  destruct (existsb (String.eqb s) enum) eqn:E; [|reflexivity].
  exfalso. apply Hn. exists s. split; [reflexivity|now apply existsb_eqb_In].
Qed.

Lemma checked_valid enum default field :
  In default enum -> in_enum enum (Some (checked enum default field)).
Proof.
  intros Hd. unfold checked.
  destruct field as [[]|]; try (now exists default).
  destruct (existsb (String.eqb s) enum) eqn:E.
  - exists s. split; [reflexivity|now apply existsb_eqb_In].
  - now exists default.
Qed.

Lemma dict_get_set_same (k : string) (v : value) (d : dict) :
  dict_get k (dict_set k v d) = Some v.
Proof.
  induction d as [|[k' v'] d IH]; cbn [dict_set dict_get].
  - now rewrite String.eqb_refl.
  - destruct (String.eqb k k') eqn:E; cbn [dict_get].
    + now rewrite String.eqb_refl.
    + now rewrite E.
Qed.

Lemma dict_get_set_other (k k0 : string) (v : value) (d : dict) :
  k <> k0 -> dict_get k (dict_set k0 v d) = dict_get k d.
Proof.
  intros Hne. induction d as [|[k' v'] d IH]; cbn [dict_set dict_get].
  - destruct (String.eqb_spec k k0); [contradiction|reflexivity].
  - destruct (String.eqb_spec k0 k'); cbn [dict_get].
    + subst k'. now destruct (String.eqb_spec k k0).
    + now rewrite IH.
Qed.

Lemma dict_get_keys (k : string) (d : dict) :
  dict_get k d <> None -> In k (map fst d).
Proof.
  induction d as [|[k' v'] d IH]; cbn [dict_get map fst]; [congruence|].
  destruct (String.eqb_spec k k'); [now left; subst|].
  intros H. right. now apply IH.
Qed.

Lemma checked_idem enum default field :
  In default enum ->
  checked enum default (Some (checked enum default field))
  = checked enum default field.
Proof.
  intros Hd. apply existsb_eqb_In in Hd. unfold checked.
  destruct field as [[]|]; try now rewrite Hd.
  destruct (existsb (String.eqb s) enum) eqn:E; [now rewrite E|now rewrite Hd].
Qed.

Lemma normalize_metadata_valid (M : dict) (T : string) (out : dict) :
  normalize_metadata (VDict M) (VStr T) = Ok out -> valid_bundle T out.
Proof.
  rewrite normalize_metadata_dict. intros [= <-].
  constructor.
  - intros k Hk. apply dict_get_keys in Hk. exact Hk.
  - reflexivity.
  - exists (bucket_name (line_count_of T)).
    split; [reflexivity|apply bucket_name_spec].
  - eexists. split; [reflexivity|]. exact (firstn_le_length 4 _).
  - apply checked_valid. cbn. tauto.
  - apply checked_valid. cbn. tauto.
  - apply checked_valid. cbn. tauto.
Qed.

(** ** The annotation normalizer *)

(** C2. For every post text [T] and every external metadata, the
    normalizer takes [line_count] from [T] alone, whatever [line_count]
    the metadata supplies, and sets [length] to Short for at most 5 lines,
    Medium for 6 to 10 and Long above 10.  The fallback bundle has the
    same two fields. *)
Theorem normalize_metadata_line_count_length (M : dict) (T : string) :
  exists out,
    normalize_metadata (VDict M) (VStr T) = Ok out /\
    dict_get "line_count" out = Some (VInt (line_count_of T)) /\
    (forall supplied,
       normalize_metadata (VDict (dict_set "line_count" supplied M)) (VStr T)
       = Ok out) /\
    (line_count_of T <= 5 -> dict_get "length" out = Some (VStr "Short")) /\
    (6 <= line_count_of T <= 10 ->
     dict_get "length" out = Some (VStr "Medium")) /\
    (10 < line_count_of T -> dict_get "length" out = Some (VStr "Long")) /\
    exists fallback,
      get_default_metadata (VStr T) = Ok fallback /\
      dict_get "line_count" fallback = dict_get "line_count" out /\
      dict_get "length" fallback = dict_get "length" out.
Proof.
  eexists. split; [apply normalize_metadata_dict|].
  split; [reflexivity|].
  split.
  { intros supplied. rewrite normalize_metadata_dict.
    rewrite !dict_get_set_other by discriminate. reflexivity. }
  cbn [dict_get String.eqb Ascii.eqb Bool.eqb]. unfold bucket_name.
  repeat split.
  - intros H. destruct (Z.leb_spec (line_count_of T) 5); [reflexivity|lia].
  - intros H. destruct (Z.leb_spec (line_count_of T) 5); [lia|].
    destruct (Z.leb_spec (line_count_of T) 10); [reflexivity|lia].
  - intros H. destruct (Z.leb_spec (line_count_of T) 5); [lia|].
    destruct (Z.leb_spec (line_count_of T) 10); [lia|reflexivity].
  - unfold get_default_metadata. rewrite len_split_newline_str. cbn [bind].
    eexists. split; [reflexivity|]. split; reflexivity.
Qed.

Lemma normalize_metadata_line_count_length_witness :
  let M := [("line_count", VInt 99); ("length", VStr "Long")] in
  let T := join_lines ["one"; "two"; "three"] in
  exists out,
    normalize_metadata (VDict M) (VStr T) = Ok out /\
    dict_get "line_count" out = Some (VInt 3) /\
    dict_get "length" out = Some (VStr "Short").
Proof.
  intros M T.
  destruct (normalize_metadata_line_count_length M T)
    as [out [Hout [Hlc [_ [Hshort _]]]]].
  exists out. split; [exact Hout|]. split; [exact Hlc|].
  apply Hshort. vm_compute. discriminate.
Defined.

(** C3. The load-time rule of the corpus store sends a line count below 5
    to Short, from 5 to 10 to Medium and above 10 to Long; at exactly 5 it
    answers Medium where the annotation normalizer answers Short. *)
Theorem categorize_length_buckets (n : Z) :
  (n < 5 -> few_shot.categorize_length (VInt n) = Ok "Short") /\
  (5 <= n <= 10 -> few_shot.categorize_length (VInt n) = Ok "Medium") /\
  (10 < n -> few_shot.categorize_length (VInt n) = Ok "Long") /\
  few_shot.categorize_length (VInt 5) = Ok "Medium" /\
  (forall M T,
     line_count_of T = 5 ->
     exists out,
       normalize_metadata (VDict M) (VStr T) = Ok out /\
       dict_get "length" out = Some (VStr "Short")).
Proof.
  unfold few_shot.categorize_length, lt_int, int_le, le_int. cbn [bind].
  repeat split.
  - intros H. destruct (Z.ltb_spec n 5); [reflexivity|lia].
  - intros H. destruct (Z.ltb_spec n 5); [lia|].
    destruct (Z.leb_spec 5 n); [|lia]. cbn [bind].
    destruct (Z.leb_spec n 10); [reflexivity|lia].
  - intros H. destruct (Z.ltb_spec n 5); [lia|].
    destruct (Z.leb_spec 5 n); [|lia]. cbn [bind].
    destruct (Z.leb_spec n 10); [lia|reflexivity].
  - intros M T H5. eexists. split; [apply normalize_metadata_dict|].
    cbn [dict_get String.eqb Ascii.eqb Bool.eqb].
    unfold bucket_name. now rewrite H5.
Qed.

Lemma categorize_length_buckets_witness :
  few_shot.categorize_length (VInt 4) = Ok "Short" /\
  few_shot.categorize_length (VInt 5) = Ok "Medium" /\
  few_shot.categorize_length (VInt 11) = Ok "Long" /\
  exists out,
    normalize_metadata (VDict []) (VStr (join_lines ["a"; "b"; "c"; "d"; "e"]))
    = Ok out /\
    dict_get "length" out = Some (VStr "Short").
Proof.
  split; [apply (categorize_length_buckets 4); lia|].
  split; [apply (categorize_length_buckets 5); lia|].
  split; [apply (categorize_length_buckets 11); lia|].
  apply (categorize_length_buckets 5). reflexivity.
Defined.

(** C7. The normalizer is a function of the content of its inputs: two
    metadata dictionaries with the same fields give the same bundle.  It
    is idempotent: a bundle that is already valid for [T] is returned
    unchanged. *)
Theorem normalize_metadata_idempotent (T : string) (M M' : dict)
    (Hsame : dict_equiv M M') :
  normalize_metadata (VDict M') (VStr T) = normalize_metadata (VDict M) (VStr T)
  /\ (exists out,
        normalize_metadata (VDict M) (VStr T) = Ok out /\
        normalize_metadata (VDict out) (VStr T) = Ok out)
  /\ (valid_bundle T M ->
      exists out,
        normalize_metadata (VDict M) (VStr T) = Ok out /\ dict_equiv out M).
Proof.
  assert (Hvalid_fix : forall B, valid_bundle T B ->
            exists out, normalize_metadata (VDict B) (VStr T) = Ok out /\
                        dict_equiv out B).
  { intros B [Hf Hlc [b [Hb Hbucket]] [l [Hl Hlen]] Hlang Htone Haud].
    eexists. split; [apply normalize_metadata_dict|].
    intros k. cbn [dict_get].
    destruct (String.eqb_spec k "line_count") as [->|N1]; [now rewrite Hlc|].
    destruct (String.eqb_spec k "language") as [->|N2];
      [now apply checked_in_enum|].
    destruct (String.eqb_spec k "tags") as [->|N3].
    { rewrite Hl. cbn [tags_sequence]. now rewrite firstn_all2. }
    destruct (String.eqb_spec k "length") as [->|N4].
    { rewrite Hb. now rewrite (normalizer_bucket_fun _ _ Hbucket). }
    destruct (String.eqb_spec k "tone") as [->|N5];
      [now apply checked_in_enum|].
    destruct (String.eqb_spec k "target_audience") as [->|N6];
      [now apply checked_in_enum|].
    destruct (dict_get k B) eqn:E; [|reflexivity].
    exfalso. assert (Hin : In k bundle_fields) by (apply Hf; congruence).
    cbn in Hin. intuition congruence. }
  split; [|split].
  - rewrite !normalize_metadata_dict. now rewrite !Hsame.
  - eexists. split; [apply normalize_metadata_dict|].
    rewrite normalize_metadata_dict.
    cbn [dict_get String.eqb Ascii.eqb Bool.eqb tags_sequence].
    rewrite !checked_idem by (cbn; tauto).
    rewrite firstn_firstn. reflexivity.
  - apply Hvalid_fix.
Qed.

Lemma normalize_metadata_idempotent_witness :
  let T := "hello" in
  let M := [ ("line_count", VInt 1); ("language", VStr "Hinglish");
             ("tags", VList [VStr "AI"; VStr "Jobs"]);
             ("length", VStr "Short"); ("tone", VStr "Casual");
             ("target_audience", VStr "Students") ] in
  let M' := [ ("target_audience", VStr "Students"); ("tone", VStr "Casual");
              ("length", VStr "Short");
              ("tags", VList [VStr "AI"; VStr "Jobs"]);
              ("language", VStr "Hinglish"); ("line_count", VInt 1) ] in
  normalize_metadata (VDict M') (VStr T) = Ok M /\
  exists out,
    normalize_metadata (VDict M) (VStr T) = Ok out /\ dict_equiv out M.
Proof.
  intros T M M'.
  assert (Hsame : dict_equiv M M').
  { intros k. unfold M, M'. cbn [dict_get].
    destruct (String.eqb_spec k "line_count") as [->|]; [reflexivity|].
    destruct (String.eqb_spec k "language") as [->|]; [reflexivity|].
    destruct (String.eqb_spec k "tags") as [->|]; [reflexivity|].
    destruct (String.eqb_spec k "length") as [->|]; [reflexivity|].
    destruct (String.eqb_spec k "tone") as [->|]; [reflexivity|].
    destruct (String.eqb_spec k "target_audience") as [->|]; reflexivity. }
  destruct (normalize_metadata_idempotent T M M' Hsame) as [H1 [_ H3]].
  split; [rewrite H1; reflexivity|].
  apply H3. constructor.
  - intros k Hk. apply dict_get_keys in Hk. exact Hk.
  - reflexivity.
  - exists "Short". split; [reflexivity|].
    constructor. vm_compute. discriminate.
  - exists [VStr "AI"; VStr "Jobs"]. split; [reflexivity|]. cbn. lia.
  - exists "Hinglish". split; [reflexivity|]. cbn. tauto.
  - exists "Casual". split; [reflexivity|]. cbn. tauto.
  - exists "Students". split; [reflexivity|]. cbn. tauto.
Defined.

(** C8. For every external metadata the normalizer reads [tags] as a
    sequence (a string is one entry, a sequence is kept, anything else is
    empty) cut to its first 4 entries, keeps a language, tone or audience
    of the enumeration and replaces any other by English, Professional or
    General; the bundle it returns is valid. *)
Theorem normalize_metadata_coerces (M : dict) (T : string) :
  exists out,
    normalize_metadata (VDict M) (VStr T) = Ok out /\
    dict_get "tags" out
    = Some (VList (firstn 4 (tags_sequence (dict_get "tags" M)))) /\
    (in_enum languages (dict_get "language" M) ->
     dict_get "language" out = dict_get "language" M) /\
    (~ in_enum languages (dict_get "language" M) ->
     dict_get "language" out = Some (VStr "English")) /\
    (in_enum tones (dict_get "tone" M) ->
     dict_get "tone" out = dict_get "tone" M) /\
    (~ in_enum tones (dict_get "tone" M) ->
     dict_get "tone" out = Some (VStr "Professional")) /\
    (in_enum audiences (dict_get "target_audience" M) ->
     dict_get "target_audience" out = dict_get "target_audience" M) /\
    (~ in_enum audiences (dict_get "target_audience" M) ->
     dict_get "target_audience" out = Some (VStr "General")) /\
    valid_bundle T out.
Proof.
  eexists. split; [apply normalize_metadata_dict|].
  cbn [dict_get String.eqb Ascii.eqb Bool.eqb].
  split; [reflexivity|].
  split; [apply checked_in_enum|].
  split; [intros H; f_equal; now apply checked_not_in_enum|].
  split; [apply checked_in_enum|].
  split; [intros H; f_equal; now apply checked_not_in_enum|].
  split; [apply checked_in_enum|].
  split; [intros H; f_equal; now apply checked_not_in_enum|].
  eapply normalize_metadata_valid, normalize_metadata_dict.
Qed.

Lemma normalize_metadata_coerces_witness :
  let M := [ ("tags", VStr "Career"); ("language", VStr "english");
             ("tone", VStr "Humorous"); ("target_audience", VInt 3) ] in
  exists out,
    normalize_metadata (VDict M) (VStr "hello") = Ok out /\
    dict_get "tags" out = Some (VList [VStr "Career"]) /\
    dict_get "language" out = Some (VStr "English") /\
    dict_get "tone" out = Some (VStr "Humorous") /\
    dict_get "target_audience" out = Some (VStr "General").
Proof.
  intros M.
  destruct (normalize_metadata_coerces M "hello")
    as [out [Hout [Htags [_ [Hlang [Htone [_ [_ [Haud _]]]]]]]]].
  exists out. split; [exact Hout|]. split; [exact Htags|].
  split; [|split].
  - apply Hlang. intros [s [[= <-] Hin]]. cbn in Hin.
    repeat (destruct Hin as [Hin|Hin]; [discriminate Hin|]). exact Hin.
  - rewrite Htone; [reflexivity|]. exists "Humorous".
    split; [reflexivity|]. cbn. tauto.
  - apply Haud. intros [s [Heq _]]. discriminate Heq.
Defined.

(** ** The dataset registry *)

Import dataset_manager.

(** Closes a case in which the answer is raw and the document is not a
    processed one. *)
Ltac answers_raw :=
  split; [now exists false|];
  split; [discriminate|];
  intros (? & ? & ? & Hdoc & Htext & Htags & Hne);
  try discriminate Hdoc; injection Hdoc as -> ->; congruence.

(** C9. A document is classified as processed exactly when it parses to a
    non-empty array whose first element is an object with a [text] field
    and a [tags] field holding a non-empty sequence; every other document,
    and every failure to read or parse, gives the answer raw. *)
Theorem is_processed_dataset_iff (file : result value) :
  (exists b, _is_processed_dataset file = Ok b) /\
  (_is_processed_dataset file = Ok true <-> processed_document file).
Proof.
  unfold _is_processed_dataset, processed_document.
  destruct file as [data|e]; cbn [bind try_except]; [|answers_raw].
  destruct data as [ |b|z|f|s|l|d];
    try (cbn [truthy is_list negb orb]; rewrite ?orb_true_r;
         cbn [try_except]; answers_raw).
  destruct l as [|sample rest]; cbn [truthy is_list negb orb getitem0 bind];
    [cbn [try_except]; answers_raw|].
  destruct sample as [ |b|z|f|s|l|d];
    try (cbn [missing_field contains bind try_except]; answers_raw).
  - (* a string: both substring tests may pass, then [get] fails *)
    cbn [missing_field contains bind negb].
    destruct (str_contains "text" s); cbn [negb bind try_except];
      [destruct (str_contains "tags" s); cbn [negb bind try_except get]|];
      answers_raw.
  - (* a list: the same with membership *)
    cbn [missing_field contains bind negb].
    destruct (str_in_list "text" l); cbn [negb bind try_except];
      [destruct (str_in_list "tags" l); cbn [negb bind try_except get]|];
      answers_raw.
  - (* an object *)
    cbn [missing_field contains bind negb]. unfold dict_has.
    destruct (dict_get "text" d) as [txt|] eqn:Etext;
      cbn [negb bind try_except]; [|answers_raw].
    rewrite !get_dict.
    destruct (dict_get "tags" d) as [tags|] eqn:Etags;
      cbn [negb bind try_except]; [|answers_raw].
    destruct tags as [ |b|z|f|s|l|d'];
      try (cbn [is_list negb bind try_except]; answers_raw).
    cbn [is_list negb bind len try_except].
    destruct l as [|t0 l]; cbn [List.length Z.of_nat Z.eqb]; [answers_raw|].
    split; [now exists true|]. split; [|reflexivity].
    intros _. exists d, rest, (t0 :: l).
    repeat split; [congruence|exact Etags|discriminate].
Qed.

Lemma is_processed_dataset_iff_witness :
  _is_processed_dataset
    (Ok (VList [VDict [("text", VStr "hi"); ("tags", VList [VStr "AI"])]]))
  = Ok true
  /\ _is_processed_dataset (Ok (VList [])) = Ok false.
Proof.
  split.
  - apply is_processed_dataset_iff.
    exists [("text", VStr "hi"); ("tags", VList [VStr "AI"])], [], [VStr "AI"].
    repeat split; discriminate.
  - destruct (is_processed_dataset_iff (Ok (VList []))) as [[[|] Hb] [Hiff _]].
    + exfalso. destruct (Hiff Hb) as (f & r & t & H & _). discriminate H.
    + exact Hb.
Defined.

(** ** The raw dataset processor *)

Section Processing.

Variable llm : nat -> value -> result value.

Lemma extract_post_metadata_not_str (i : nat) (text : value) :
  (forall s, text <> VStr s) ->
  extract_post_metadata llm i text = Raise AttributeError.
Proof.
  intros Hns. unfold extract_post_metadata, normalize_metadata,
    get_default_metadata.
  assert (Hl : len_split_newline text = Raise AttributeError).
  { destruct text; try reflexivity. now elim (Hns s). }
  rewrite Hl. now destruct (llm i text).
Qed.

Lemma normalize_metadata_not_dict (answer : value) (s : string) :
  (forall M, answer <> VDict M) ->
  normalize_metadata answer (VStr s) = Raise AttributeError.
Proof.
  intros Hn. unfold normalize_metadata. rewrite len_split_newline_str.
  destruct answer; try reflexivity. now elim (Hn d).
Qed.

(** An item without a non-empty text is skipped. *)
Lemma process_single_post_skipped (i : nat) (post : value) :
  text_of_item post = None ->
  process_single_post llm i post = Ok None.
Proof.
  unfold process_single_post, text_of_item.
  destruct post as [ |b|z|f|s|l|d]; try reflexivity; intros H.
  - cbn [contains bind]. now destruct (str_contains "text" s).
  - cbn [contains bind]. now destruct (str_in_list "text" l).
  - cbn [contains bind getitem]. unfold dict_has.
    destruct (dict_get "text" d) as [text|]; [|reflexivity].
    cbn [negb bind].
    destruct (truthy text) eqn:Et; [|reflexivity].
    cbn [negb bind].
    rewrite extract_post_metadata_not_str; [reflexivity|].
    intros s ->. cbn [truthy] in Et.
    destruct (String.eqb s EmptyString); discriminate.
Qed.

(** An item with a non-empty text gives one record; the bundle is the
    normalized answer of the classifier, or the fallback when the call
    fails or does not answer with an object. *)
Lemma process_single_post_text (i : nat) (post : value) (s : string) :
  text_of_item post = Some s ->
  exists language tags tone audience,
    process_single_post llm i post
    = Ok (Some (post_record s (engagement_of post) language tags tone audience))
    /\ ((forall M, llm i (VStr s) <> Ok (VDict M)) ->
        language = VStr "English" /\ tags = [VStr "General"] /\
        tone = VStr "Professional" /\ audience = VStr "General").
Proof.
  unfold text_of_item.
  destruct post as [ |b|z|f|s0|l|d]; try discriminate.
  destruct (dict_get "text" d) as [[ |b|z|f|s0|l|d']|] eqn:Etext;
    try discriminate.
  destruct (String.eqb s0 EmptyString) eqn:Es; [discriminate|]. intros [= ->].
  unfold process_single_post. cbn [contains bind getitem]. unfold dict_has.
  rewrite Etext. cbn [negb bind truthy]. rewrite Es. cbn [negb bind].
  rewrite get_dict. cbn [bind engagement_of].
  unfold extract_post_metadata.
  assert (Hdefault :
    get_default_metadata (VStr s)
    = Ok [ ("line_count", VInt (line_count_of s));
           ("language", VStr "English");
           ("tags", VList [VStr "General"]);
           ("length", VStr (bucket_name (line_count_of s)));
           ("tone", VStr "Professional");
           ("target_audience", VStr "General") ]).
  { unfold get_default_metadata. now rewrite len_split_newline_str. }
  destruct (llm i (VStr s)) as [answer|e] eqn:Ellm; cbn [bind try_except].
  - destruct answer as [ |b|z|f|s0|l|M];
      try (rewrite normalize_metadata_not_dict by discriminate;
           cbn [try_except]; rewrite Hdefault; cbn [bind];
           exists (VStr "English"), [VStr "General"],
             (VStr "Professional"), (VStr "General");
           split; [reflexivity|]; intros _; repeat split).
    rewrite normalize_metadata_dict. cbn [try_except bind].
    do 4 eexists. split; [reflexivity|].
    intros Hn. now elim (Hn M).
  - rewrite Hdefault. cbn [bind].
    exists (VStr "English"), [VStr "General"],
      (VStr "Professional"), (VStr "General").
    split; [reflexivity|]. intros _. repeat split.
Qed.

Lemma process_posts_from (i : nat) (raw_data : list value) :
  exists out,
    process_posts llm i raw_data = Ok out /\
    map (dict_get "text") out
    = map (fun s => Some (VStr s)) (texts_of raw_data) /\
    forall j post s e,
      nth_error raw_data j = Some post ->
      text_of_item post = Some s ->
      llm (i + j) (VStr s) = Raise e ->
      In (fallback_record s (engagement_of post)) out.
Proof.
  revert i. induction raw_data as [|post raw IH]; intros i.
  - exists []. split; [reflexivity|]. split; [reflexivity|].
    intros [|j] ? ? ? H; discriminate H.
  - destruct (IH (S i)) as [out [Hout [Htexts Hfall]]].
    cbn [process_posts texts_of flat_map]. rewrite Hout.
    destruct (text_of_item post) as [s|] eqn:Etext.
    + destruct (process_single_post_text i post s Etext)
        as (language & tags & tone & audience & Hrec & Hfb).
      rewrite Hrec. cbn [bind truthy post_record].
      eexists. split; [reflexivity|].
      split.
      { cbn [map app dict_get String.eqb Ascii.eqb Bool.eqb].
        f_equal. exact Htexts. }
      intros [|j] p s' e Hnth Hs' Hllm.
      * cbn [nth_error] in Hnth. injection Hnth as <-.
        rewrite Etext in Hs'. injection Hs' as <-.
        rewrite Nat.add_0_r in Hllm.
        destruct Hfb as (-> & -> & -> & ->).
        { intros M HM. rewrite Hllm in HM. discriminate HM. }
        left. reflexivity.
      * right. apply (Hfall j p s' e Hnth Hs').
        now rewrite Nat.add_succ_r in Hllm.
    + rewrite (process_single_post_skipped i post Etext). cbn [bind].
      exists out. split; [reflexivity|].
      split; [exact Htexts|].
      intros [|j] p s' e Hnth Hs' Hllm.
      * cbn [nth_error] in Hnth. injection Hnth as <-. congruence.
      * apply (Hfall j p s' e Hnth Hs').
        now rewrite Nat.add_succ_r in Hllm.
Qed.

End Processing.

(** C6. For every raw list and every behaviour of the classifier, the
    batch runs to its end and gives one record for every item with a
    non-empty text, in the order of the input; the other items are
    skipped.  When the classifier fails for an item with a text, the
    record of that item is the fallback one (English, [General],
    Professional, General). *)
Theorem process_posts_one_record_per_text
    (llm : nat -> value -> result value) (raw_data : list value) :
  exists out,
    process_posts llm 0 raw_data = Ok out /\
    map (dict_get "text") out
    = map (fun s => Some (VStr s)) (texts_of raw_data) /\
    forall i post s e,
      nth_error raw_data i = Some post ->
      text_of_item post = Some s ->
      llm i (VStr s) = Raise e ->
      process_single_post llm i post
      = Ok (Some (fallback_record s (engagement_of post))) /\
      In (fallback_record s (engagement_of post)) out.
Proof.
  destruct (process_posts_from llm 0 raw_data) as [out [Hout [Htexts Hfall]]].
  exists out. split; [exact Hout|]. split; [exact Htexts|].
  intros i post s e Hnth Hs Hllm. split.
  - destruct (process_single_post_text llm i post s Hs)
      as (language & tags & tone & audience & Hrec & Hfb).
    destruct Hfb as (-> & -> & -> & ->); [|exact Hrec].
    intros M HM. rewrite Hllm in HM. discriminate HM.
  - exact (Hfall i post s e Hnth Hs Hllm).
Qed.

Lemma process_posts_one_record_per_text_witness :
  let llm := fun (i : nat) (text : value) =>
    if Nat.eqb i 0 then Raise ServiceError
    else Ok (VDict [("tags", VStr "Career"); ("language", VStr "Hinglish")]) in
  let first := VDict [("text", VStr (join_lines ["line1"; "line2"; "line3"]));
                      ("engagement", VInt 10)] in
  let raw_data :=
    [first;
     VDict [("text", VStr EmptyString); ("engagement", VInt 5)];
     VDict [("text", VStr "second")]] in
  exists out,
    process_posts llm 0 raw_data = Ok out /\
    map (dict_get "text") out
    = [Some (VStr (join_lines ["line1"; "line2"; "line3"]));
       Some (VStr "second")] /\
    In (fallback_record (join_lines ["line1"; "line2"; "line3"]) (VInt 10)) out.
Proof.
  intros llm first raw_data.
  destruct (process_posts_one_record_per_text llm raw_data)
    as [out [Hout [Htexts Hfall]]].
  exists out. split; [exact Hout|]. split; [exact Htexts|].
  apply (Hfall 0%nat first _ ServiceError); reflexivity.
Defined.

(** ** The example selector *)

Import few_shot.

Lemma eq_str_true (v : value) (s : string) :
  eq_str v s = true <-> v = VStr s.
Proof.
  destruct v; cbn [eq_str]; try (split; [discriminate|congruence]).
  split.
  - intros H. apply String.eqb_eq in H. now subst.
  - intros [= ->]. apply String.eqb_refl.
Qed.

Lemma str_in_list_true (s : string) (l : list value) :
  str_in_list s l = true <-> In (VStr s) l.
Proof.
  unfold str_in_list. rewrite existsb_exists. split.
  - intros [v [Hin Heq]]. apply eq_str_true in Heq. now subst.
  - intros Hin. exists (VStr s). split; [exact Hin|now apply eq_str_true].
Qed.

Lemma matchesb_spec (length language tag : string) (r : dict) :
  matchesb length language tag r = true <->
  record_matches length language tag r.
Proof.
  unfold matchesb, record_matches. rewrite !andb_true_iff. split.
  - intros [[Ht Hl] Hn].
    destruct (dict_get "tags" r) as [[ | | | | |l| ]|]; try discriminate.
    destruct (dict_get "language" r) as [vl|]; [|discriminate].
    destruct (dict_get "length" r) as [vn|]; [|discriminate].
    apply eq_str_true in Hl, Hn. subst.
    split; [|split; reflexivity].
    exists l. split; [reflexivity|now apply str_in_list_true].
  - intros [[l [-> Hin]] [-> ->]].
    repeat split; try (now apply eq_str_true). now apply str_in_list_true.
Qed.

Lemma dict_get_record_of (c : string) (cols : list string) (r : dict) :
  dict_get c (pd.record_of cols r) =
  if existsb (String.eqb c) cols then Some (pd.cell c r) else None.
Proof.
  unfold pd.record_of.
  induction cols as [|c' cols IH]; cbn [map dict_get existsb]; [reflexivity|].
  destruct (String.eqb_spec c c') as [->|]; cbn [orb]; [reflexivity|exact IH].
Qed.

Lemma combine_map_same {A B C} (f : A -> B) (g : A -> C) (l : list A) :
  combine (map f l) (map g l) = map (fun x => (f x, g x)) l.
Proof. induction l; cbn; [reflexivity|now f_equal]. Qed.

Lemma select_map (df : pd.DataFrame) (keep : dict -> bool) :
  pd.rows (pd.select df (map keep (pd.rows df))) = filter keep (pd.rows df).
Proof.
  unfold pd.select. cbn [pd.rows].
  induction (pd.rows df) as [|r rs IH]; cbn; [reflexivity|].
  destruct (keep r); cbn; now rewrite IH.
Qed.

Lemma filter_map_comm {A B} (p : B -> bool) (f : A -> B) (l : list A) :
  filter p (map f l) = map f (filter (fun x => p (f x)) l).
Proof.
  induction l as [|x l IH]; cbn; [reflexivity|].
  destruct (p (f x)); cbn; now rewrite IH.
Qed.

Lemma filter_none {A} (p : A -> bool) (l : list A) :
  (forall x, In x l -> p x = false) -> filter p l = [].
Proof.
  induction l as [|x l IH]; cbn; [reflexivity|]. intros H.
  rewrite (H x) by now left. apply IH. intros y Hy. apply H. now right.
Qed.

(** Without one of the three columns no record matches any query. *)
Lemma no_match_without_column (self : FewShotPosts)
    (length language tag c : string) :
  In c ["tags"; "language"; "length"] ->
  pd.has_column (df self) c = false ->
  filter (matchesb length language tag) (records self) = [].
Proof.
  intros Hc Hno. apply filter_none. intros r Hr.
  unfold records, pd.to_dict_records in Hr. apply in_map_iff in Hr.
  destruct Hr as [row [<- _]].
  unfold matchesb, pd.has_column in *.
  cbn in Hc. destruct Hc as [<-|[<-|[<-|[]]]];
    rewrite !dict_get_record_of, Hno;
    repeat (rewrite andb_false_r || cbn [andb]); reflexivity.
Qed.

(** The body of the selector, when it does not raise, is the filter. *)
Lemma get_filtered_posts_filter (self : FewShotPosts)
    (length language tag : string) :
  get_filtered_posts self length language tag
  = Ok (filter (matchesb length language tag) (records self)).
Proof.
  unfold get_filtered_posts, get_filtered_posts_body.
  destruct (pd.empty (df self)) eqn:Eempty.
  { cbn [try_except]. f_equal. symmetry. apply filter_none. intros r Hr.
    unfold records, pd.to_dict_records in Hr. apply in_map_iff in Hr.
    destruct Hr as [row [<- Hrow]]. unfold pd.empty in Eempty.
    destruct (pd.columns (df self)); [reflexivity|].
    destruct (pd.rows (df self)); [destruct Hrow|discriminate]. }
  unfold pd.getitem.
  destruct (pd.has_column (df self) "tags") eqn:Etags; cbn [bind try_except].
  2:{ f_equal. symmetry.
      apply (no_match_without_column self length language tag "tags");
        [cbn; tauto|exact Etags]. }
  destruct (pd.has_column (df self) "language") eqn:Elang;
    cbn [bind try_except].
  2:{ f_equal. symmetry.
      apply (no_match_without_column self length language tag "language");
        [cbn; tauto|exact Elang]. }
  destruct (pd.has_column (df self) "length") eqn:Elen; cbn [bind try_except].
  2:{ f_equal. symmetry.
      apply (no_match_without_column self length language tag "length");
        [cbn; tauto|exact Elen]. }
  f_equal. rewrite !map_map, !combine_map_same, map_map. cbn [fst snd].
  unfold pd.to_dict_records. rewrite select_map.
  unfold records, pd.to_dict_records. cbn [pd.columns pd.select].
  rewrite filter_map_comm. f_equal.
  apply filter_ext. intros row. unfold matchesb, pd.has_column in *.
  rewrite !dict_get_record_of, Etags, Elang, Elen.
  now destruct (pd.cell "tags" row).
Qed.

(** C4. For every corpus and every query the selector returns the records
    of the corpus, in the corpus's own order, for which the tag is an
    entry of [tags] and language and length are the strings of the query,
    compared exactly; no other record is returned. *)
Theorem get_filtered_posts_exact (self : FewShotPosts)
    (length language tag : string) :
  exists selected,
    get_filtered_posts self length language tag = Ok selected /\
    selected = filter (matchesb length language tag) (records self) /\
    forall r, In r selected <->
              In r (records self) /\ record_matches length language tag r.
Proof.
  eexists. split; [apply get_filtered_posts_filter|].
  split; [reflexivity|].
  intros r. rewrite filter_In, matchesb_spec. reflexivity.
Qed.

Lemma get_filtered_posts_exact_witness :
  let corpus :=
    {| df := {| pd.columns := ["text"; "tags"; "language"; "length"];
                pd.rows :=
                  [ [("text", VStr "first"); ("tags", VList [VStr "AI"]);
                     ("language", VStr "English"); ("length", VStr "Short")];
                    [("text", VStr "second"); ("tags", VList [VStr "ai"]);
                     ("language", VStr "English"); ("length", VStr "Short")];
                    [("text", VStr "third"); ("tags", VList [VStr "AI"]);
                     ("language", VStr "english"); ("length", VStr "Short")];
                    [("text", VStr "fourth");
                     ("tags", VList [VStr "Jobs"; VStr "AI"]);
                     ("language", VStr "English"); ("length", VStr "Short")] ]
             |};
       unique_tags := [VStr "AI"; VStr "ai"; VStr "Jobs"] |} in
  exists selected,
    get_filtered_posts corpus "Short" "English" "AI" = Ok selected /\
    map (dict_get "text") selected
    = [Some (VStr "first"); Some (VStr "fourth")].
Proof.
  intros corpus.
  destruct (get_filtered_posts_exact corpus "Short" "English" "AI")
    as [selected [Hsel [Heq _]]].
  exists selected. split; [exact Hsel|]. rewrite Heq. reflexivity.
Defined.

(** C10. The query of the selector is total: for every state of the
    corpus and every query it returns a list and does not raise; the list
    is empty when the corpus is empty and when the filtering raises. *)
Theorem get_filtered_posts_total (self : FewShotPosts)
    (length language tag : string) :
  exists selected,
    get_filtered_posts self length language tag = Ok selected /\
    (pd.empty (df self) = true -> selected = []) /\
    (forall e,
       get_filtered_posts_body self length language tag = Raise e ->
       selected = []).
Proof.
  unfold get_filtered_posts.
  destruct (get_filtered_posts_body self length language tag)
    as [selected|e] eqn:Ebody; cbn [try_except].
  - exists selected. split; [reflexivity|]. split; [|discriminate].
    intros Hempty. unfold get_filtered_posts_body in Ebody.
    rewrite Hempty in Ebody. now injection Ebody as <-.
  - exists []. repeat split.
Qed.

Lemma get_filtered_posts_total_witness :
  let no_language :=
    {| df := {| pd.columns := ["text"; "tags"; "length"];
                pd.rows := [ [("text", VStr "first");
                              ("tags", VList [VStr "AI"]);
                              ("length", VStr "Short")] ] |};
       unique_tags := [VStr "AI"] |} in
  let empty_corpus := {| df := pd.DataFrame_empty; unique_tags := [] |} in
  get_filtered_posts_body no_language "Short" "English" "AI"
  = Raise (KeyError "language") /\
  get_filtered_posts no_language "Short" "English" "AI" = Ok [] /\
  get_filtered_posts empty_corpus "Short" "English" "AI" = Ok [].
Proof.
  intros no_language empty_corpus.
  split; [reflexivity|]. split.
  - destruct (get_filtered_posts_total no_language "Short" "English" "AI")
      as [selected [Hsel [_ Hraise]]].
    rewrite Hsel. f_equal.
    apply (Hraise (KeyError "language")). reflexivity.
  - destruct (get_filtered_posts_total empty_corpus "Short" "English" "AI")
      as [selected [Hsel [Hempty _]]].
    rewrite Hsel. f_equal. apply Hempty. reflexivity.
Defined.

(** ** The corpus store: load *)

Lemma load_posts_returns (file : result value) :
  exists fs, load_posts file = Ok fs.
Proof.
  unfold load_posts.
  match goal with
  | |- exists fs, try_except ?body _ = _ => destruct body as [fs|e]
  end; cbn [try_except]; [now exists fs|].
  destruct e; eexists; reflexivity.
Qed.

(** C1, as the code has it.  For every corpus document [load_posts]
    returns and does not raise.  Malformed JSON text and a JSON scalar
    give the empty corpus; a bare JSON object is loaded as the array that
    holds only this object. *)
Theorem load_posts_never_raises (file : result value) :
  (exists fs, load_posts file = Ok fs) /\
  (file = Raise JSONDecodeError ->
   load_posts file = Ok {| df := pd.DataFrame_empty; unique_tags := [] |}) /\
  (forall v, file = Ok v -> json_scalar v ->
   load_posts file = Ok {| df := pd.DataFrame_empty; unique_tags := [] |}) /\
  (forall d, file = Ok (VDict d) ->
   load_posts file = load_posts (Ok (VList [VDict d]))).
Proof.
  split; [apply load_posts_returns|].
  split; [intros ->; reflexivity|].
  split.
  - intros v -> Hv. destruct v; try reflexivity; destruct Hv.
  - intros d ->. reflexivity.
Qed.

Lemma load_posts_never_raises_witness :
  load_posts (Raise JSONDecodeError)
  = Ok {| df := pd.DataFrame_empty; unique_tags := [] |} /\
  load_posts (Ok (VInt 7))
  = Ok {| df := pd.DataFrame_empty; unique_tags := [] |} /\
  load_posts (Ok (VDict [("text", VStr "hi")]))
  = load_posts (Ok (VList [VDict [("text", VStr "hi")]])).
Proof.
  split; [now apply (load_posts_never_raises (Raise JSONDecodeError))|].
  split.
  - apply (load_posts_never_raises (Ok (VInt 7))) with (v := VInt 7);
      [reflexivity|exact I].
  - now apply (load_posts_never_raises (Ok (VDict [("text", VStr "hi")]))).
Defined.

(** C1 as the specification states it fails.  The first document is
    present and its text is not JSON (a file that stops after [{"text":]
    is one); the second is a bare JSON object.  Neither is a JSON array of
    objects, and [load_posts] raises for neither: it returns the empty
    corpus for the first and a corpus of one record for the second. *)
Lemma load_posts_malformed_counterexample :
  let malformed := Raise JSONDecodeError in
  let bare_object := Ok (VDict [("text", VStr "hi")]) in
  not_array_of_objects malformed /\
  load_posts malformed
  = Ok {| df := pd.DataFrame_empty; unique_tags := [] |} /\
  ~ (exists e, load_posts malformed = Raise e) /\
  not_array_of_objects bare_object /\
  (exists fs, load_posts bare_object = Ok fs /\
              map (dict_get "text") (records fs) = [Some (VStr "hi")]) /\
  ~ (exists e, load_posts bare_object = Raise e).
Proof.
  intros malformed bare_object.
  split; [now left|]. split; [reflexivity|].
  split; [intros [e He]; discriminate He|].
  split.
  { right. eexists. split; [reflexivity|]. intros [l [Hl _]]. discriminate Hl. }
  split; [eexists; split; reflexivity|].
  intros [e He]. discriminate He.
Qed.

(** ** The corpus store: merge *)

Lemma hkey_eqb_eq (a b : hkey) : hkey_eqb a b = true <-> a = b.
Proof.
  destruct a, b; cbn [hkey_eqb];
    try (split; [discriminate|congruence]);
    try (split; reflexivity).
  - rewrite Bool.eqb_true_iff. split; congruence.
  - rewrite andb_true_iff, !Z.eqb_eq. split; [intros []|intros [=]]; now subst.
  - rewrite String.eqb_eq. split; congruence.
Qed.

Lemma hkey_eqb_sym (a b : hkey) : hkey_eqb a b = hkey_eqb b a.
Proof.
  destruct (hkey_eqb a b) eqn:E.
  - apply hkey_eqb_eq in E. subst. symmetry. now apply hkey_eqb_eq.
  - destruct (hkey_eqb b a) eqn:E'; [|reflexivity].
    apply hkey_eqb_eq in E'. subst.
    assert (hkey_eqb a a = true) by now apply hkey_eqb_eq. congruence.
Qed.

Lemma filter_filter_and {A} (p q : A -> bool) (l : list A) :
  filter p (filter q l) = filter (fun x => q x && p x) l.
Proof.
  induction l as [|x l IH]; cbn; [reflexivity|].
  destruct (q x); cbn; [destruct (p x)|]; now rewrite IH.
Qed.

Lemma mapM_map_ok {A B C} (f : B -> result C) (h : A -> B) (g : A -> C)
    (l : list A) :
  (forall x, In x l -> f (h x) = Ok (g x)) ->
  mapM f (map h l) = Ok (map g l).
Proof.
  induction l as [|x l IH]; intros H; cbn [mapM map]; [reflexivity|].
  rewrite (H x) by now left. cbn [bind].
  rewrite IH by (intros y Hy; apply H; now right). reflexivity.
Qed.

Lemma filter_all {A} (l : list A) : filter (fun _ => true) l = l.
Proof. induction l; cbn; [reflexivity|now f_equal]. Qed.

Section FirstOccurrences.

Context {A : Type}.
Variable same : A -> A -> bool.

Lemma nub_by_incl (l : list A) (x : A) : In x (nub_by same l) -> In x l.
Proof.
  revert x. induction l as [|y l IH]; intros x; cbn [nub_by]; [easy|].
  intros [->|Hin]; [now left|].
  apply filter_In in Hin. right. now apply IH.
Qed.

Lemma nub_by_ext (same' : A -> A -> bool) (l : list A) :
  (forall x y, In x l -> In y l -> same x y = same' x y) ->
  nub_by same l = nub_by same' l.
Proof.
  induction l as [|x l IH]; intros H; cbn [nub_by]; [reflexivity|].
  rewrite <- IH by (intros a b Ha Hb; apply H; now right).
  f_equal. apply filter_ext_in. intros y Hy.
  rewrite H; [reflexivity|now left|right; now apply nub_by_incl].
Qed.

Lemma nub_by_app (l1 l2 : list A) :
  nub_by same (l1 ++ l2)
  = (nub_by same l1
     ++ filter (fun y => negb (existsb (fun x => same x y) l1))
               (nub_by same l2))%list.
Proof.
  induction l1 as [|x l1 IH]; cbn [app nub_by existsb].
  - symmetry. rewrite <- (filter_ext (fun _ => true)) by reflexivity.
    induction (nub_by same l2) as [|y l IHl]; cbn; [reflexivity|now f_equal].
  - f_equal. rewrite IH, filter_app. f_equal.
    rewrite filter_filter_and. apply filter_ext. intros y.
    rewrite negb_orb. apply andb_comm.
Qed.

End FirstOccurrences.

Lemma nub_by_map {A B} (same : B -> B -> bool) (f : A -> B) (l : list A) :
  map f (nub_by (fun x y => same (f x) (f y)) l) = nub_by same (map f l).
Proof.
  induction l as [|x l IH]; cbn [nub_by map]; [reflexivity|].
  f_equal. rewrite <- IH. symmetry.
  apply (filter_map_comm (fun y => negb (same (f x) y)) f).
Qed.

(** The scan with the set of keys seen so far keeps the first
    occurrences. *)
Lemma first_seen_nub {A} (key : A -> hkey) (seen : list hkey) (l : list A) :
  first_seen seen (combine (map key l) l)
  = filter (fun x => negb (existsb (hkey_eqb (key x)) seen))
           (nub_by (fun x y => hkey_eqb (key x) (key y)) l).
Proof.
  revert seen. induction l as [|x l IH]; intros seen;
    cbn [map combine first_seen nub_by filter]; [reflexivity|].
  destruct (existsb (hkey_eqb (key x)) seen) eqn:Eseen; cbn [negb].
  - rewrite IH, filter_filter_and. apply filter_ext_in. intros y _.
    destruct (hkey_eqb (key x) (key y)) eqn:E; cbn [negb andb]; [|reflexivity].
    apply hkey_eqb_eq in E. now rewrite <- E, Eseen.
  - f_equal. rewrite IH, filter_filter_and. apply filter_ext. intros y.
    cbn [existsb]. rewrite negb_orb. now rewrite (hkey_eqb_sym (key y)).
Qed.

Lemma same_text_true (r r' : dict) :
  has_text r ->
  (same_text r r' = true <-> dict_get "text" r' = dict_get "text" r).
Proof.
  intros [s Hs]. unfold same_text. rewrite Hs. split.
  - destruct (dict_get "text" r') as [[ | | | |s'| | ]|]; try discriminate.
    intros H. apply String.eqb_eq in H. now subst.
  - intros ->. apply String.eqb_refl.
Qed.

Lemma dedup_by_text_NoDup (l : list dict) :
  Forall has_text l -> NoDup (map (dict_get "text") (dedup_by_text l)).
Proof.
  unfold dedup_by_text.
  induction l as [|r l IH]; intros H; cbn [nub_by map]; [constructor|].
  inversion H as [|? ? Hr Hl]; subst. constructor.
  - intros Hin. apply in_map_iff in Hin. destruct Hin as [r' [Heq Hr']].
    apply filter_In in Hr'. destruct Hr' as [_ Hneq].
    apply (same_text_true r r' Hr) in Heq. rewrite Heq in Hneq. discriminate.
  - specialize (IH Hl). revert IH.
    induction (nub_by same_text l) as [|x xs IHx]; cbn [filter map];
      [constructor|].
    intros Hnd. inversion Hnd as [|? ? Hnotin Hnd']; subst.
    destruct (negb (same_text r x)); [|now apply IHx].
    cbn [map]. constructor; [|now apply IHx].
    intros Hin. apply Hnotin. apply in_map_iff in Hin.
    destruct Hin as [y [Hy Hyin]]. apply filter_In in Hyin.
    apply in_map_iff. exists y. tauto.
Qed.

(** On a conflict between the two parts the record of the first part is
    the one kept. *)
Lemma dedup_by_text_first_part (l1 l2 : list dict) (r : dict) :
  Forall has_text l1 ->
  In r (dedup_by_text (l1 ++ l2)) ->
  In (dict_get "text" r) (map (dict_get "text") l1) ->
  In r l1.
Proof.
  unfold dedup_by_text. intros Hl1 Hin Htext.
  rewrite nub_by_app in Hin. apply in_app_or in Hin.
  destruct Hin as [Hin|Hin]; [now apply nub_by_incl in Hin|].
  apply filter_In in Hin. destruct Hin as [_ Hno].
  apply in_map_iff in Htext. destruct Htext as [x [Hx Hxin]].
  assert (Hsame : same_text x r = true).
  { apply same_text_true; [|now symmetry].
    rewrite Forall_forall in Hl1. now apply Hl1. }
  assert (Hex : existsb (fun x => same_text x r) l1 = true).
  { apply existsb_exists. now exists x. }
  rewrite Hex in Hno. discriminate.
Qed.

Lemma existsb_add_label (c c' : string) (cols : list string) :
  existsb (String.eqb c) (pd.add_label cols c')
  = existsb (String.eqb c) cols || String.eqb c c'.
Proof.
  unfold pd.add_label.
  destruct (existsb (String.eqb c') cols) eqn:E.
  - destruct (String.eqb_spec c c') as [->|]; [|now rewrite orb_false_r].
    now rewrite E.
  - rewrite existsb_app. cbn [existsb]. now rewrite orb_false_r.
Qed.

Lemma existsb_concat_columns (c : string) (bs cols : list string) :
  existsb (String.eqb c) (fold_left pd.add_label bs cols)
  = existsb (String.eqb c) cols || existsb (String.eqb c) bs.
Proof.
  revert cols. induction bs as [|b bs IH]; intros cols; cbn [fold_left existsb].
  - now rewrite orb_false_r.
  - rewrite IH, existsb_add_label. now rewrite orb_assoc.
Qed.

Lemma record_of_extends (cols : list string) (r : dict) :
  (forall c, dict_get c r <> None -> existsb (String.eqb c) cols = true) ->
  extends r (pd.record_of cols r).
Proof.
  intros Hcols c v Hc. rewrite dict_get_record_of.
  rewrite Hcols by congruence. unfold pd.cell. now rewrite Hc.
Qed.

Lemma has_text_cell (r : dict) :
  has_text r -> na_key_text_ok r.
Proof.
  intros [s Hs]. unfold na_key_text_ok, text_hkey, pd.cell. now rewrite Hs.
Qed.

Lemma drop_duplicates_text (cat : pd.DataFrame) :
  pd.empty cat = false ->
  pd.has_column cat "text" = true ->
  Forall has_text (pd.rows cat) ->
  pd.drop_duplicates cat "text"
  = Ok {| pd.columns := pd.columns cat;
          pd.rows := nub_by (fun x y => hkey_eqb (text_hkey x) (text_hkey y))
                            (pd.rows cat) |}.
Proof.
  intros He Hc Hrows. unfold pd.drop_duplicates, pd.getitem.
  rewrite He, Hc. cbn [bind].
  rewrite (mapM_map_ok pd.na_key (pd.cell "text") text_hkey).
  2:{ intros r Hr. apply has_text_cell.
      rewrite Forall_forall in Hrows. now apply Hrows. }
  cbn [bind]. rewrite first_seen_nub. cbn [existsb negb].
  now rewrite filter_all.
Qed.

Lemma records_dedup (cols : list string) (rows : list dict) :
  existsb (String.eqb "text") cols = true ->
  Forall has_text rows ->
  map (pd.record_of cols)
      (nub_by (fun x y => hkey_eqb (text_hkey x) (text_hkey y)) rows)
  = dedup_by_text (map (pd.record_of cols) rows).
Proof.
  intros Hc Hrows. unfold dedup_by_text. rewrite <- nub_by_map. f_equal.
  apply nub_by_ext. intros x y Hx Hy.
  rewrite Forall_forall in Hrows.
  destruct (Hrows x Hx) as [sx Hsx]. destruct (Hrows y Hy) as [sy Hsy].
  unfold same_text. rewrite !dict_get_record_of, Hc.
  unfold text_hkey, pd.cell. now rewrite Hsx, Hsy.
Qed.

(** After a merge that went past the empty test, the frame is the
    deduplicated concatenation whatever happens to the tags. *)
Lemma merge_datasets_df (self other : FewShotPosts)
    (other_file : result value) :
  load_posts other_file = Ok other ->
  pd.empty (df other) = false ->
  Forall has_text (records self) ->
  Forall has_text (records other) ->
  let cat := pd.concat (df self) (df other) in
  pd.has_column cat "text" = true /\
  df (fst (merge_datasets self other_file))
  = {| pd.columns := pd.columns cat;
       pd.rows := nub_by (fun x y => hkey_eqb (text_hkey x) (text_hkey y))
                         (records self ++ records other) |}.
Proof.
  intros Hload Hne Ha Hb cat.
  assert (Htext : pd.has_column cat "text" = true).
  { unfold pd.has_column, cat, pd.concat. cbn [pd.columns].
    rewrite existsb_concat_columns. apply orb_true_iff. right.
    unfold records, pd.to_dict_records in Hb. unfold pd.empty in Hne.
    destruct (pd.rows (df other)) as [|row rows];
      [now destruct (pd.columns (df other))|].
    inversion Hb as [|? ? [s Hs] _]; subst.
    rewrite dict_get_record_of in Hs.
    now destruct (existsb (String.eqb "text") (pd.columns (df other))). }
  split; [exact Htext|].
  assert (Hcat : pd.empty cat = false).
  { unfold pd.empty. unfold pd.has_column in Htext.
    destruct (pd.columns cat); [discriminate|].
    unfold cat, pd.concat. cbn [pd.rows]. unfold pd.empty in Hne.
    unfold pd.to_dict_records at 2.
    destruct (pd.rows (df other));
      [now destruct (pd.columns (df other))|].
    cbn [map]. now destruct (pd.to_dict_records (df self)). }
  assert (Hrows : Forall has_text (pd.rows cat)).
  { unfold cat, pd.concat. cbn [pd.rows]. apply Forall_app. now split. }
  unfold merge_datasets. rewrite Hload, Hne. cbn [negb df unique_tags].
  fold cat. rewrite (drop_duplicates_text cat Hcat Htext Hrows).
  match goal with
  | |- df (fst (match ?tags with Ok _ => _ | Raise _ => _ end)) = _ =>
      destruct tags
  end; reflexivity.
Qed.

Lemma Forall2_map_r {A B} (R : A -> B -> Prop) (f : A -> B) (l : list A) :
  (forall x, In x l -> R x (f x)) -> Forall2 R l (map f l).
Proof.
  induction l as [|x l IH]; intros H; cbn [map]; constructor.
  - apply H. now left.
  - apply IH. intros y Hy. apply H. now right.
Qed.

Lemma records_extend_under (fs : FewShotPosts) (cols : list string) :
  (forall c, pd.has_column (df fs) c = true ->
             existsb (String.eqb c) cols = true) ->
  Forall2 extends (records fs) (under cols (records fs)).
Proof.
  intros Hcols. apply Forall2_map_r. intros r Hr.
  apply record_of_extends. intros c Hc.
  unfold records, pd.to_dict_records in Hr. apply in_map_iff in Hr.
  destruct Hr as [row [<- _]]. rewrite dict_get_record_of in Hc.
  apply Hcols. unfold pd.has_column.
  now destruct (existsb (String.eqb c) (pd.columns (df fs))).
Qed.

Lemma has_text_under (cols : list string) (rs : list dict) :
  Forall2 extends rs (under cols rs) ->
  Forall has_text rs -> Forall has_text (under cols rs).
Proof.
  unfold under. induction rs as [|r rs IH]; cbn [map]; intros H2 H;
    [constructor|].
  inversion H2 as [|? ? ? ? Hext H2']; subst.
  inversion H as [|? ? [s Hs] H']; subst.
  constructor; [|now apply IH].
  exists s. now apply Hext.
Qed.

(** In the model a merge that takes place gives exactly the first
    occurrences of the concatenation. *)
Lemma merge_datasets_dedup (self other : FewShotPosts)
    (other_file : result value) :
  load_posts other_file = Ok other ->
  pd.empty (df other) = false ->
  Forall has_text (records self) ->
  Forall has_text (records other) ->
  let merged := fst (merge_datasets self other_file) in
  let from_a := under (pd.columns (df merged)) (records self) in
  let from_b := under (pd.columns (df merged)) (records other) in
  Forall2 extends (records self) from_a /\
  Forall2 extends (records other) from_b /\
  Forall has_text from_a /\
  records merged = dedup_by_text (from_a ++ from_b)%list.
Proof.
  intros Hload Hne Ha Hb merged from_a from_b.
  destruct (merge_datasets_df self other other_file Hload Hne Ha Hb)
    as [Htext Hdf].
  fold merged in Hdf.
  assert (Hcols : pd.columns (df merged)
                  = pd.columns (pd.concat (df self) (df other)))
    by now rewrite Hdf.
  assert (Hexta : Forall2 extends (records self) from_a).
  { apply records_extend_under. intros c Hc. rewrite Hcols.
    unfold pd.concat. cbn [pd.columns]. rewrite existsb_concat_columns.
    unfold pd.has_column in Hc. now rewrite Hc. }
  assert (Hextb : Forall2 extends (records other) from_b).
  { apply records_extend_under. intros c Hc. rewrite Hcols.
    unfold pd.concat. cbn [pd.columns]. rewrite existsb_concat_columns.
    unfold pd.has_column in Hc. rewrite Hc. apply orb_true_r. }
  assert (Hta : Forall has_text from_a) by now apply has_text_under.
  assert (Htb : Forall has_text from_b) by now apply has_text_under.
  split; [exact Hexta|]. split; [exact Hextb|]. split; [exact Hta|].
  unfold records at 1, pd.to_dict_records. rewrite Hdf.
  cbn [pd.columns pd.rows]. rewrite records_dedup.
  - unfold from_a, from_b, under. now rewrite Hcols, map_app.
  - exact Htext.
  - apply Forall_app. now split.
Qed.

(** C5, as the code has it.  A corpus is a sequence of post records, and
    a post record has a string text (section 3 of the specification).
    When the document of the second corpus is missing, unreadable or an
    empty array, the merge is refused and the first corpus is left as it
    is.  When the second corpus is not empty, the merged corpus is the
    records of the first followed by those of the second, shown under
    the union of the columns, with duplicates removed by exact equality
    of the text and the first occurrence kept: it has the same texts in
    the same order, each record shows the cells of the record that was
    kept as the frame stores them (an integer may come back as the float
    nearest to it, [None] as NaN), no two of its records have the same
    text, and a text that occurs in the first corpus keeps the record of
    the first. *)
Theorem merge_datasets_keeps_first (self : FewShotPosts)
    (other_file : result value) :
  ((exists e, other_file = Raise e) \/ other_file = Ok (VList []) ->
   merge_datasets self other_file = (self, false)) /\
  (forall other,
     load_posts other_file = Ok other ->
     pd.empty (df other) = false ->
     Forall has_text (records self) ->
     Forall has_text (records other) ->
     let merged := fst (merge_datasets self other_file) in
     let from_a := under (pd.columns (df merged)) (records self) in
     let from_b := under (pd.columns (df merged)) (records other) in
     Forall2 extends (records self) from_a /\
     Forall2 extends (records other) from_b /\
     Forall2 stored_record (dedup_by_text (from_a ++ from_b)%list)
             (records merged) /\
     map (dict_get "text") (records merged)
     = map (dict_get "text") (dedup_by_text (from_a ++ from_b)%list) /\
     NoDup (map (dict_get "text") (records merged)) /\
     (forall r,
        In r (records merged) ->
        In (dict_get "text" r) (map (dict_get "text") from_a) ->
        exists r0, In r0 from_a /\ stored_record r0 r)).
Proof.
  split.
  { intros [[e ->]| ->]; [now destruct e|reflexivity]. }
  intros other Hload Hne Ha Hb merged from_a from_b.
  destruct (merge_datasets_dedup self other other_file Hload Hne Ha Hb)
    as (Hexta & Hextb & Hta & Hrec).
  fold merged from_a from_b in Hexta, Hextb, Hta, Hrec.
  assert (Htb : Forall has_text from_b) by now apply has_text_under.
  split; [exact Hexta|]. split; [exact Hextb|].
  split; [rewrite Hrec; apply stored_records_refl|].
  split; [now rewrite Hrec|].
  split.
  - rewrite Hrec. apply dedup_by_text_NoDup. apply Forall_app. now split.
  - intros r Hr Ht. rewrite Hrec in Hr. exists r.
    split; [|apply stored_record_refl].
    now apply (dedup_by_text_first_part from_a from_b r Hta).
Qed.

Lemma merge_datasets_keeps_first_witness :
  let a :=
    {| df := {| pd.columns := ["text"; "source"];
                pd.rows := [ [("text", VStr "x"); ("source", VStr "A")];
                             [("text", VStr "y"); ("source", VStr "A")] ] |};
       unique_tags := [] |} in
  let other_file :=
    Ok (VList [ VDict [("text", VStr "x"); ("source", VStr "B")];
                VDict [("text", VStr "z"); ("source", VStr "B")] ]) in
  let merged := fst (merge_datasets a other_file) in
  map (dict_get "text") (records merged)
  = [Some (VStr "x"); Some (VStr "y"); Some (VStr "z")]
  /\ merge_datasets a (Raise FileNotFoundError) = (a, false)
  /\ merge_datasets a (Ok (VList [])) = (a, false).
Proof.
  intros a other_file merged.
  pose (other :=
          match load_posts other_file with
          | Ok fs => fs
          | Raise _ => {| df := pd.DataFrame_empty; unique_tags := [] |}
          end).
  assert (Hload : load_posts other_file = Ok other) by reflexivity.
  split; [|split].
  - destruct (merge_datasets_keeps_first a other_file) as [_ H].
    assert (Ha : Forall has_text (records a)).
    { repeat constructor; eexists; reflexivity. }
    assert (Hb : Forall has_text (records other)).
    { repeat constructor; eexists; reflexivity. }
    destruct (H other Hload eq_refl Ha Hb) as (_ & _ & _ & Htexts & _).
    fold merged in Htexts. rewrite Htexts. reflexivity.
  - destruct (merge_datasets_keeps_first a (Raise FileNotFoundError))
      as [H _].
    apply H. left. now exists FileNotFoundError.
  - destruct (merge_datasets_keeps_first a (Ok (VList []))) as [H _].
    apply H. now right.
Defined.

(** C5 as the specification states it fails: the corpus [a] below is
    loaded from a document with the same text twice, the second corpus is
    that of a missing document, and the merge leaves both records. *)
Lemma merge_datasets_empty_other_counterexample :
  let document :=
    Ok (VList [VDict [("text", VStr "x")]; VDict [("text", VStr "x")]]) in
  exists a b,
    load_posts document = Ok a /\
    load_posts (Raise FileNotFoundError) = Ok b /\
    let merged := fst (merge_datasets a (Raise FileNotFoundError)) in
    map (dict_get "text") (records merged)
    = [Some (VStr "x"); Some (VStr "x")] /\
    ~ NoDup (map (dict_get "text") (records merged)) /\
    records merged <> dedup_by_text (records a ++ records b)%list.
Proof.
  intros document. eexists. eexists.
  split; [reflexivity|]. split; [reflexivity|].
  split; [reflexivity|]. split.
  - intros H. inversion H as [|? ? Hnotin _]. apply Hnotin. now left.
  - discriminate.
Qed.

(* ===================================================================== *)
(** * Further properties of the code *)
(* ===================================================================== *)

(** ** The two length rules *)

Lemma categorize_length_int (n : Z) :
  categorize_length (VInt n)
  = Ok (if n <? 5 then "Short" else if n <=? 10 then "Medium" else "Long").
Proof.
  unfold categorize_length, lt_int, int_le, le_int. cbn [bind].
  destruct (Z.ltb_spec n 5); [reflexivity|].
  destruct (Z.leb_spec 5 n); [|lia]. cbn [bind].
  now destruct (n <=? 10).
Qed.

(** X1. The load-time rule and the annotation rule give the same bucket
    to a text exactly when the text does not have 5 lines. *)
Theorem length_rules_agree_off_five (M : dict) (T : string) :
  exists out b,
    normalize_metadata (VDict M) (VStr T) = Ok out /\
    categorize_length (VInt (line_count_of T)) = Ok b /\
    (dict_get "length" out = Some (VStr b) <-> line_count_of T <> 5).
Proof.
  eexists. eexists. split; [apply normalize_metadata_dict|].
  split; [apply categorize_length_int|].
  cbn [dict_get String.eqb Ascii.eqb Bool.eqb]. unfold bucket_name.
  destruct (Z.ltb_spec (line_count_of T) 5);
    destruct (Z.leb_spec (line_count_of T) 5);
    destruct (Z.leb_spec (line_count_of T) 10);
    try lia; split; try lia; try reflexivity; try discriminate.
Qed.

(** ** What a load leaves behind *)

Lemma has_column_setitem (df : pd.DataFrame) (c c' : string)
    (series : list value) :
  pd.has_column (pd.setitem df c series) c'
  = pd.has_column df c' || String.eqb c' c.
Proof.
  unfold pd.setitem, pd.has_column. cbn [pd.columns].
  destruct (existsb (String.eqb c) (pd.columns df)) eqn:E.
  - destruct (String.eqb_spec c' c) as [->|]; [|now rewrite orb_false_r].
    now rewrite E.
  - rewrite existsb_app. cbn [existsb]. now rewrite orb_false_r.
Qed.

Lemma has_column_setitem_scalar (df : pd.DataFrame) (c c' : string)
    (v : value) :
  pd.has_column (pd.setitem_scalar df c v) c'
  = pd.has_column df c' || String.eqb c' c.
Proof.
  unfold pd.setitem_scalar, pd.has_column. cbn [pd.columns].
  destruct (existsb (String.eqb c) (pd.columns df)) eqn:E.
  - destruct (String.eqb_spec c' c) as [->|]; [|now rewrite orb_false_r].
    now rewrite E.
  - rewrite existsb_app. cbn [existsb]. now rewrite orb_false_r.
Qed.

Lemma rows_setitem_map (df : pd.DataFrame) (c : string)
    (f : dict -> value) :
  pd.rows (pd.setitem df c (map f (pd.rows df)))
  = map (fun r => dict_set c (f r) r) (pd.rows df).
Proof.
  unfold pd.setitem. cbn [pd.rows].
  rewrite <- (map_id (pd.rows df)) at 1.
  rewrite combine_map_same, map_map. reflexivity.
Qed.

Lemma load_posts_cases (file : result value) :
  loaded_shape (load_posts file).
Proof.
  unfold load_posts.
  destruct file as [posts|e]; cbn [bind try_except];
    [|left; exists e; now destruct e].
  destruct (pd.json_normalize posts) as [df0|e]; cbn [bind try_except];
    [|left; exists e; now destruct e].
  set (step1 := if negb (pd.has_column df0 "line_count") then _ else _).
  assert (H1 : forall df1, step1 = Ok df1 ->
                           pd.has_column df1 "line_count" = true).
  { intros df1. unfold step1.
    destruct (pd.has_column df0 "line_count") eqn:E; cbn [negb].
    - now intros [= <-].
    - destruct (pd.getitem df0 "text"); cbn [bind]; [|discriminate].
      destruct (mapM _ a); cbn [bind]; [|discriminate].
      intros [= <-]. rewrite has_column_setitem. apply orb_true_r. }
  destruct step1 as [df1|e]; cbn [bind try_except];
    [|left; exists e; now destruct e].
  specialize (H1 df1 eq_refl).
  set (step2 := if negb (pd.has_column df1 "length") then _ else _).
  assert (H2 : forall df2, step2 = Ok df2 ->
                           pd.has_column df2 "line_count" = true /\
                           pd.has_column df2 "length" = true).
  { intros df2. unfold step2.
    destruct (pd.has_column df1 "length") eqn:E; cbn [negb].
    - now intros [= <-].
    - destruct (pd.getitem df1 "line_count"); cbn [bind]; [|discriminate].
      destruct (mapM _ a); cbn [bind]; [|discriminate].
      intros [= <-]. rewrite !has_column_setitem, H1, E. split; reflexivity. }
  destruct step2 as [df2|e]; cbn [bind try_except];
    [|left; exists e; now destruct e].
  destruct (H2 df2 eq_refl) as [H2a H2b].
  set (df3 := if negb (pd.has_column df2 "engagement") then _ else _).
  assert (H3 : pd.has_column df3 "line_count" = true /\
               pd.has_column df3 "length" = true /\
               pd.has_column df3 "engagement" = true).
  { unfold df3. destruct (pd.has_column df2 "engagement") eqn:E; cbn [negb].
    - tauto.
    - rewrite !has_column_setitem_scalar, H2a, H2b, E. repeat split. }
  destruct H3 as (H3a & H3b & H3c).
  destruct (pd.has_column df3 "tags") eqn:Etags.
  2:{ right. exists df3. repeat split; try assumption. left. now split. }
  unfold pd.getitem at 1. rewrite Etags. cbn [bind].
  fold (with_tag_lists df3).
  unfold pd.getitem.
  assert (Ht : pd.has_column (with_tag_lists df3) "tags" = true).
  { unfold with_tag_lists. rewrite has_column_setitem. apply orb_true_r. }
  rewrite Ht. cbn [bind].
  destruct (list_set _) as [unique|e] eqn:Eset; cbn [bind try_except];
    [|left; exists e; now destruct e].
  right. exists df3. repeat split; try assumption. right.
  split; [assumption|]. exists unique. split; [exact Eset|reflexivity].
Qed.

Lemma get_tags_unique_tags (fs : FewShotPosts) : get_tags fs = unique_tags fs.
Proof. unfold get_tags. cbn [truthy]. now destruct (unique_tags fs). Qed.

Lemma mapM_hash_key_total (l : list value) (ks : list hkey) :
  mapM hash_key l = Ok ks ->
  ks = map hkey_of l /\ Forall (fun v => hash_key v = Ok (hkey_of v)) l.
Proof.
  revert ks. induction l as [|x l IH]; intros ks; cbn [mapM map].
  - intros [= <-]. split; [reflexivity|constructor].
  - destruct (hash_key x) as [k|e] eqn:Ex; cbn [bind]; [|discriminate].
    destruct (mapM hash_key l) as [ks'|e]; cbn [bind]; [|discriminate].
    intros [= <-]. destruct (IH ks' eq_refl) as [-> Hall].
    assert (Hk : hkey_of x = k) by (unfold hkey_of; now rewrite Ex).
    split; [now rewrite Hk|]. constructor; [now rewrite Hk|exact Hall].
Qed.

Lemma nub_key_complete {A} (key : A -> hkey) (l : list A) (x : A) :
  In x l ->
  exists y, In y (nub_by (fun a b => hkey_eqb (key a) (key b)) l) /\
            key y = key x.
Proof.
  induction l as [|h l IH]; [easy|]. cbn [nub_by]. intros [->|Hin].
  - exists x. split; [now left|reflexivity].
  - destruct (IH Hin) as [y [Hy Hk]].
    destruct (hkey_eqb (key h) (key y)) eqn:E.
    + exists h. split; [now left|]. apply hkey_eqb_eq in E. congruence.
    + exists y. split; [|exact Hk]. right. apply filter_In.
      split; [exact Hy|]. now rewrite E.
Qed.

Lemma hash_key_str (v : value) (s : string) :
  hash_key v = Ok (KStr s) -> v = VStr s.
Proof.
  destruct v as [ |b|z|f|s'|l|d]; cbn [hash_key]; try discriminate.
  - destruct b; discriminate.
  - unfold dyadic. destruct z as [|p|p]; try discriminate;
      destruct (strip_twos p); discriminate.
  - unfold float_key. destruct (Prim2SF f) as [ | | |sg m e];
      try discriminate.
    unfold dyadic. destruct sg; destruct (strip_twos m); discriminate.
  - now intros [= ->].
Qed.

(** [list(set(l))] holds elements of [l] only, and every string of [l]. *)
Lemma list_set_sound_complete (l unique : list value) :
  list_set l = Ok unique ->
  (forall t, In t unique -> In t l) /\
  (forall s, In (VStr s) l -> In (VStr s) unique).
Proof.
  unfold list_set. destruct (mapM hash_key l) as [ks|e] eqn:Eks;
    cbn [bind]; [|discriminate].
  intros [= <-]. destruct (mapM_hash_key_total l ks Eks) as [-> Hall].
  rewrite first_seen_nub. cbn [existsb negb]. rewrite filter_all. split.
  - intros t. apply nub_by_incl.
  - intros s Hin.
    destruct (nub_key_complete hkey_of l (VStr s) Hin) as [y [Hy Hk]].
    assert (Hyl : In y l) by (eapply nub_by_incl; exact Hy).
    rewrite Forall_forall in Hall. specialize (Hall y Hyl).
    rewrite Hk in Hall. cbn in Hall.
    now rewrite (hash_key_str y s Hall) in Hy.
Qed.

Lemma in_all_tags_of (t : value) (series : list value) :
  In t (all_tags_of series) <->
  exists l, In (VList l) series /\ In t l.
Proof.
  unfold all_tags_of. rewrite in_flat_map. split.
  - intros [v [Hv Ht]]. destruct v; try destruct Ht. now exists l.
  - intros [l [Hl Ht]]. now exists (VList l).
Qed.

Lemma ensure_list_is_list (v : value) : is_list (ensure_list v) = true.
Proof. now destruct v. Qed.

(** The tags of the records of a frame whose tags were made lists. *)
Lemma records_with_tag_lists (df3 : pd.DataFrame) :
  pd.has_column df3 "tags" = true ->
  forall r, In r (pd.to_dict_records (with_tag_lists df3)) ->
  exists row,
    In row (pd.rows (with_tag_lists df3)) /\
    dict_get "tags" r = Some (pd.cell "tags" row) /\
    is_list (pd.cell "tags" row) = true.
Proof.
  intros Htags r Hr. unfold pd.to_dict_records in Hr.
  apply in_map_iff in Hr. destruct Hr as [row [<- Hrow]].
  exists row. split; [exact Hrow|].
  rewrite dict_get_record_of.
  assert (Hc : existsb (String.eqb "tags") (pd.columns (with_tag_lists df3))
               = true).
  { change (pd.has_column (with_tag_lists df3) "tags" = true).
    unfold with_tag_lists. rewrite has_column_setitem. apply orb_true_r. }
  rewrite Hc. split; [reflexivity|].
  unfold with_tag_lists in Hrow. rewrite map_map in Hrow.
  rewrite rows_setitem_map in Hrow. apply in_map_iff in Hrow.
  destruct Hrow as [row0 [<- _]].
  unfold pd.cell at 1. rewrite dict_get_set_same.
  apply ensure_list_is_list.
Qed.

(** X2. Whatever the document, the frame that a load leaves behind is
    the empty frame or has the columns [line_count], [length] and
    [engagement], and every [tags] cell of its records is a list. *)
Theorem load_posts_backfilled (file : result value) :
  exists fs,
    load_posts file = Ok fs /\
    (df fs = pd.DataFrame_empty \/
     forall c, In c ["line_count"; "length"; "engagement"] ->
               pd.has_column (df fs) c = true) /\
    (forall r v, In r (records fs) -> dict_get "tags" r = Some v ->
                 is_list v = true).
Proof.
  destruct (load_posts_cases file) as [[e He]|(df3 & H1 & H2 & H3 & Hc)].
  - exists (load_failure e). split; [exact He|]. split.
    + destruct e; try (now left); right; intros c Hc; cbn in Hc;
        intuition (subst; reflexivity).
    + intros r v Hr. destruct e; destruct Hr.
  - assert (Hcols : forall d, (forall c, pd.has_column df3 c = true ->
                                          pd.has_column d c = true) ->
              forall c, In c ["line_count"; "length"; "engagement"] ->
                        pd.has_column d c = true).
    { intros d Hd c Hin. apply Hd. cbn in Hin.
      intuition (subst; assumption). }
    destruct Hc as [[Hno Hl]|[Hyes [unique [_ Hl]]]]; eexists;
      (split; [exact Hl|]); cbn [df]; split.
    + right. now apply Hcols.
    + intros r v Hr Hv. unfold records in Hr. cbn [df] in Hr.
      unfold pd.to_dict_records in Hr. apply in_map_iff in Hr.
      destruct Hr as [row [<- _]]. rewrite dict_get_record_of in Hv.
      unfold pd.has_column in Hno. rewrite Hno in Hv. discriminate.
    + right. apply Hcols. intros c Hcol. unfold with_tag_lists.
      rewrite has_column_setitem, Hcol. reflexivity.
    + intros r v Hr Hv.
      destruct (records_with_tag_lists df3 Hyes r Hr) as [row [_ [Ht Hlist]]].
      congruence.
Qed.

(** X3. After a load the tags that [get_tags] lists are tags of records
    of the corpus, and every tag of a record that is a string is
    listed. *)
Theorem load_posts_tags_listed (file : result value) :
  exists fs,
    load_posts file = Ok fs /\
    (forall t, In t (get_tags fs) ->
       exists r l, In r (records fs) /\
                   dict_get "tags" r = Some (VList l) /\ In t l) /\
    (forall r l s, In r (records fs) ->
       dict_get "tags" r = Some (VList l) -> In (VStr s) l ->
       In (VStr s) (get_tags fs)).
Proof.
  destruct (load_posts_cases file) as [[e He]|(df3 & _ & _ & _ & Hc)].
  - exists (load_failure e). split; [exact He|]. split.
    + intros t Ht. destruct e; destruct Ht.
    + intros r l s Hr. destruct e; destruct Hr.
  - destruct Hc as [[Hno Hl]|[Hyes [unique [Hset Hl]]]]; eexists;
      (split; [exact Hl|]); split.
    + intros t Ht. destruct Ht.
    + intros r l s Hr Hv. unfold records in Hr. cbn [df] in Hr.
      unfold pd.to_dict_records in Hr. apply in_map_iff in Hr.
      destruct Hr as [row [<- _]]. rewrite dict_get_record_of in Hv.
      unfold pd.has_column in Hno. rewrite Hno in Hv. discriminate.
    + intros t Ht. rewrite get_tags_unique_tags in Ht. cbn [unique_tags] in Ht.
      destruct (list_set_sound_complete _ _ Hset) as [Hsound _].
      apply Hsound, in_all_tags_of in Ht. destruct Ht as [l [Hl' Ht]].
      apply in_map_iff in Hl'. destruct Hl' as [row [Hcell Hrow]].
      exists (pd.record_of (pd.columns (with_tag_lists df3)) row), l.
      split; [unfold records; cbn [df]; now apply in_map|].
      split; [|exact Ht]. rewrite dict_get_record_of.
      assert (Hcol : pd.has_column (with_tag_lists df3) "tags" = true).
      { unfold with_tag_lists. rewrite has_column_setitem. apply orb_true_r. }
      unfold pd.has_column in Hcol. now rewrite Hcol, Hcell.
    + intros r l s Hr Hv Hs. rewrite get_tags_unique_tags. cbn [unique_tags].
      destruct (list_set_sound_complete _ _ Hset) as [_ Hcomplete].
      apply Hcomplete, in_all_tags_of. exists l. split; [|exact Hs].
      destruct (records_with_tag_lists df3 Hyes r Hr) as [row [Hrow [Ht _]]].
      apply in_map_iff. exists row. split; [congruence|exact Hrow].
Qed.

(** ** Loading a document of flat objects *)

Lemma dict_get_filter_other (k k' : string) (d : dict) :
  k <> k' ->
  dict_get k (filter (fun kv => negb (String.eqb (fst kv) k')) d)
  = dict_get k d.
Proof.
  intros Hne. induction d as [|[k0 v0] d IH]; [reflexivity|].
  cbn [filter fst dict_get].
  destruct (String.eqb_spec k0 k') as [->|]; cbn [negb dict_get].
  - destruct (String.eqb_spec k k'); [contradiction|exact IH].
  - now rewrite IH.
Qed.

Lemma dict_get_items (k : string) (d : dict) :
  dict_get k (dict_items d) = dict_get k d.
Proof.
  induction d as [|[k' v'] d IH]; [reflexivity|].
  cbn [dict_items dict_get].
  destruct (String.eqb_spec k k'); [reflexivity|].
  now rewrite dict_get_filter_other.
Qed.

Lemma dict_items_incl (d : dict) (kv : string * value) :
  In kv (dict_items d) -> In kv d.
Proof.
  revert kv. induction d as [|[k v] d IH]; intros kv; [easy|].
  cbn [dict_items]. intros [<-|Hin]; [now left|].
  apply filter_In in Hin. right. now apply IH.
Qed.

Lemma existsb_dict_keys (c : string) (d : dict) :
  existsb (String.eqb c) (dict_keys d) = dict_has c d.
Proof.
  unfold dict_keys, dict_has. rewrite <- (dict_get_items c d).
  induction (dict_items d) as [|[k v] l IH]; [reflexivity|].
  cbn [map fst existsb dict_get].
  destruct (String.eqb c k); [reflexivity|exact IH].
Qed.

Lemma normalise_json_ordered_flat (d : dict) :
  flat d -> pd.normalise_json_ordered d = dict_items d.
Proof.
  intros Hflat. unfold pd.normalise_json_ordered.
  assert (Hall : forall kv, In kv (dict_items d) ->
                            pd.is_dict (snd kv) = false).
  { intros kv Hin. apply dict_items_incl in Hin.
    unfold flat in Hflat. rewrite Forall_forall in Hflat. now apply Hflat. }
  rewrite (filter_none (fun kv => pd.is_dict (snd kv))) by exact Hall.
  cbn [pd.normalise_json]. unfold dict_update. cbn [dict_items fold_left].
  rewrite <- (filter_all (dict_items d)) at 2.
  apply filter_ext_in. intros kv Hin. now rewrite Hall.
Qed.

Lemma columns_of_records (c : string) (records : list dict)
    (cols : list string) :
  existsb (String.eqb c)
    (fold_left (fun cols r => fold_left pd.add_label (dict_keys r) cols)
               records cols)
  = existsb (String.eqb c) cols || some_has c records.
Proof.
  revert cols. unfold some_has.
  induction records as [|r rs IH]; intros cols; cbn [fold_left existsb].
  - now rewrite orb_false_r.
  - rewrite IH, existsb_concat_columns, existsb_dict_keys.
    now rewrite orb_assoc.
Qed.

(** The frame that [json_normalize] builds from flat objects. *)
Lemma json_normalize_flat (ds : list dict) :
  ds <> [] -> Forall flat ds ->
  exists df0,
    pd.json_normalize (VList (map VDict ds)) = Ok df0 /\
    pd.rows df0 = map dict_items ds /\
    forall c, pd.has_column df0 c = some_has c (map dict_items ds).
Proof.
  intros Hne Hflat. destruct ds as [|d ds]; [contradiction|].
  assert (HM : mapM (fun x => match x with
                              | VDict d0 => Ok d0
                              | _ => Raise AttributeError
                              end)
                    (map pd.simple_json_normalize (map VDict (d :: ds)))
               = Ok (map pd.normalise_json_ordered (d :: ds))).
  { rewrite map_map. now apply mapM_map_ok. }
  cbn [map] in HM.
  cbn [map pd.json_normalize pd.simple_json_normalize pd.DataFrame_of_list].
  cbn [pd.simple_json_normalize] in HM. rewrite HM.
  cbn [bind]. eexists. split; [reflexivity|]. cbn [pd.rows].
  assert (Hrows : pd.normalise_json_ordered d
                  :: map pd.normalise_json_ordered ds
                  = map dict_items (d :: ds)).
  { change (map pd.normalise_json_ordered (d :: ds)
            = map dict_items (d :: ds)).
    apply map_ext_in. intros x Hx. apply normalise_json_ordered_flat.
    rewrite Forall_forall in Hflat. now apply Hflat. }
  split; [exact Hrows|].
  intros c. unfold pd.has_column. cbn [pd.columns].
  rewrite Hrows. now rewrite columns_of_records.
Qed.

Lemma some_has_items (c : string) (ds : list dict) :
  some_has c (map dict_items ds) = some_has c ds.
Proof.
  unfold some_has. induction ds as [|d ds IH]; [reflexivity|].
  cbn [map existsb]. rewrite IH. f_equal.
  unfold dict_has. now rewrite dict_get_items.
Qed.

Lemma some_has_none (c : string) (ds : list dict) :
  (forall d, In d ds -> dict_get c d = None) -> some_has c ds = false.
Proof.
  intros H. unfold some_has. induction ds as [|d ds IH]; [reflexivity|].
  cbn [existsb]. unfold dict_has at 1. rewrite (H d) by now left.
  apply IH. intros d' Hd'. apply H. now right.
Qed.

Lemma some_has_one (c : string) (ds : list dict) (d : dict) :
  In d ds -> dict_get c d <> None -> some_has c ds = true.
Proof.
  intros Hin Hc. unfold some_has. apply existsb_exists. exists d.
  split; [exact Hin|]. unfold dict_has. now destruct (dict_get c d).
Qed.

Lemma cell_set_same (c : string) (v : value) (r : dict) :
  pd.cell c (dict_set c v r) = v.
Proof. unfold pd.cell. now rewrite dict_get_set_same. Qed.

Lemma cell_set_other (c c' : string) (v : value) (r : dict) :
  c <> c' -> pd.cell c (dict_set c' v r) = pd.cell c r.
Proof. intros H. unfold pd.cell. now rewrite dict_get_set_other. Qed.

Lemma rows_setitem_scalar (df : pd.DataFrame) (c : string) (v : value) :
  pd.rows (pd.setitem_scalar df c v) = map (dict_set c v) (pd.rows df).
Proof. reflexivity. Qed.

Lemma text_string_set (c : string) (v : value) (r : dict) :
  c <> "text" -> text_string (dict_set c v r) = text_string r.
Proof.
  intros H. unfold text_string. rewrite dict_get_set_other; [reflexivity|].
  congruence.
Qed.

Lemma text_string_items (d : dict) : text_string (dict_items d) = text_string d.
Proof. unfold text_string. now rewrite dict_get_items. Qed.

(** X4. A document that is a non-empty array of raw objects (flat, with
    a string text and without [line_count], [length] and [tags]) loads
    into one record per object, in the order of the document.  A record
    shows every field of its object as the frame stores it (an integer
    may come back as the float nearest to it and [None] as NaN), gets
    its line count from the text and its length from the load-time rule.
    The engagement is backfilled by column: 0 when no object has one,
    and otherwise NaN for the objects that have none. *)
Theorem load_posts_raw_document (ds : list dict)
    (Hne : ds <> []) (Hraw : Forall raw_object ds) :
  exists fs,
    load_posts (Ok (VList (map VDict ds))) = Ok fs /\
    unique_tags fs = [] /\
    Forall2 (backfilled ds) ds (records fs).
Proof.
  rewrite Forall_forall in Hraw.
  assert (Hflat : Forall flat ds).
  { apply Forall_forall. intros d Hd. now destruct (Hraw d Hd). }
  destruct (json_normalize_flat ds Hne Hflat) as (df0 & Hjson & Hrows0 & Hc0).
  assert (Hc : forall c, pd.has_column df0 c = some_has c ds)
    by (intros c; rewrite Hc0; apply some_has_items).
  assert (Hlc0 : pd.has_column df0 "line_count" = false).
  { rewrite Hc. apply some_has_none. intros d Hd. now destruct (Hraw d Hd). }
  assert (Hlen0 : pd.has_column df0 "length" = false).
  { rewrite Hc. apply some_has_none. intros d Hd. now destruct (Hraw d Hd). }
  assert (Htags0 : pd.has_column df0 "tags" = false).
  { rewrite Hc. apply some_has_none. intros d Hd. now destruct (Hraw d Hd). }
  assert (Htext0 : pd.has_column df0 "text" = true).
  { rewrite Hc. destruct ds as [|d ds]; [contradiction|].
    apply (some_has_one "text" (d :: ds) d); [now left|].
    destruct (Hraw d (or_introl eq_refl)) as [_ [s Hs] _ _ _]. congruence. }
  pose (g := fun r : dict => VInt (line_count_of (text_string r))).
  pose (h := fun r : dict =>
               VStr (load_bucket (line_count_of (text_string r)))).
  pose (df1 := pd.setitem df0 "line_count" (map g (pd.rows df0))).
  pose (df2 := pd.setitem df1 "length" (map h (pd.rows df1))).
  pose (df3 := if negb (pd.has_column df2 "engagement")
               then pd.setitem_scalar df2 "engagement" (VInt 0) else df2).
  assert (Hrows1 : pd.rows df1
                   = map (fun r => dict_set "line_count" (g r) r)
                         (pd.rows df0)) by apply rows_setitem_map.
  assert (Hrows2 : pd.rows df2
                   = map (fun r => dict_set "length" (h r) r) (pd.rows df1))
    by apply rows_setitem_map.
  assert (Hload : load_posts (Ok (VList (map VDict ds)))
                  = Ok {| df := df3; unique_tags := [] |}).
  { unfold load_posts. cbn [bind]. rewrite Hjson. cbn [bind].
    rewrite Hlc0. cbn [negb]. unfold pd.getitem at 1. rewrite Htext0.
    cbn [bind]. rewrite (mapM_map_ok _ (pd.cell "text") g).
    2:{ intros r Hr. rewrite Hrows0 in Hr. apply in_map_iff in Hr.
        destruct Hr as [d [<- Hd]].
        destruct (Hraw d Hd) as [_ [s Hs] _ _ _].
        unfold g, text_string, pd.cell. rewrite dict_get_items, Hs.
        cbn [len_split_newline bind]. now rewrite length_split_newline. }
    cbn [bind]. fold df1.
    assert (Hlen1 : pd.has_column df1 "length" = false).
    { unfold df1. now rewrite has_column_setitem, Hlen0. }
    rewrite Hlen1. cbn [negb]. unfold pd.getitem at 1.
    assert (Hlc1 : pd.has_column df1 "line_count" = true).
    { unfold df1. rewrite has_column_setitem. apply orb_true_r. }
    rewrite Hlc1. cbn [bind].
    rewrite (mapM_map_ok _ (pd.cell "line_count") h).
    2:{ intros r Hr. rewrite Hrows1 in Hr. apply in_map_iff in Hr.
        destruct Hr as [r0 [<- _]]. rewrite cell_set_same.
        unfold g at 1. rewrite categorize_length_int. cbn [bind].
        unfold h. now rewrite text_string_set by discriminate. }
    cbn [bind]. fold df2. fold df3.
    assert (Htags3 : pd.has_column df3 "tags" = false).
    { unfold df3, df2, df1.
      destruct (pd.has_column _ "engagement"); cbn [negb];
        rewrite ?has_column_setitem_scalar, !has_column_setitem, Htags0;
        reflexivity. }
    rewrite Htags3. reflexivity. }
  eexists. split; [exact Hload|]. split; [reflexivity|].
  assert (Heng : pd.has_column df2 "engagement" = some_has "engagement" ds).
  { unfold df2, df1. rewrite !has_column_setitem, Hc.
    now rewrite !orb_false_r. }
  assert (Hcol3 : forall c, pd.has_column df0 c = true ->
                            pd.has_column df3 c = true).
  { intros c Hcol. unfold df3, df2, df1.
    destruct (pd.has_column _ "engagement"); cbn [negb];
      rewrite ?has_column_setitem_scalar, !has_column_setitem, Hcol;
      reflexivity. }
  pose (row3 := fun r0 : dict =>
          let r2 := dict_set "length" (h (dict_set "line_count" (g r0) r0))
                             (dict_set "line_count" (g r0) r0) in
          if negb (pd.has_column df2 "engagement")
          then dict_set "engagement" (VInt 0) r2 else r2).
  assert (Hrows3 : pd.rows df3 = map row3 (pd.rows df0)).
  { unfold df3, row3. destruct (pd.has_column df2 "engagement"); cbn [negb];
      rewrite ?rows_setitem_scalar, Hrows2, Hrows1, !map_map; reflexivity. }
  unfold records. cbn [df]. unfold pd.to_dict_records.
  rewrite Hrows3, Hrows0, !map_map. apply Forall2_map_r.
  intros d Hd. destruct (Hraw d Hd) as [_ [s Hs] Hnlc Hnlen _].
  assert (Hget : forall c,
            dict_get c (pd.record_of (pd.columns df3) (row3 (dict_items d)))
            = if pd.has_column df3 c
              then Some (pd.cell c (row3 (dict_items d))) else None).
  { intros c. apply dict_get_record_of. }
  assert (Hts : text_string (dict_items d) = text_string d)
    by apply text_string_items.
  constructor.
  - apply extends_shown_as. intros c v Hcv. rewrite Hget.
    rewrite Hcol3 by (rewrite Hc; apply (some_has_one c ds d Hd); congruence).
    f_equal. unfold row3.
    assert (c <> "line_count") by congruence.
    assert (c <> "length") by congruence.
    destruct (pd.has_column df2 "engagement") eqn:E; cbn [negb].
    + rewrite !cell_set_other by assumption.
      unfold pd.cell. now rewrite dict_get_items, Hcv.
    + assert (c <> "engagement").
      { intros ->.
        assert (some_has "engagement" ds = true)
          by (apply (some_has_one _ ds d Hd); congruence).
        congruence. }
      rewrite !cell_set_other by assumption.
      unfold pd.cell. now rewrite dict_get_items, Hcv.
  - rewrite Hget.
    assert (Hl : pd.has_column df3 "line_count" = true).
    { unfold df3, df2, df1.
      destruct (pd.has_column _ "engagement"); cbn [negb];
        rewrite ?has_column_setitem_scalar, !has_column_setitem;
        now rewrite ?orb_true_r. }
    rewrite Hl. f_equal. unfold row3.
    destruct (pd.has_column df2 "engagement"); cbn [negb];
      rewrite !cell_set_other by discriminate;
      rewrite cell_set_same; unfold g; now rewrite Hts.
  - rewrite Hget.
    assert (Hl : pd.has_column df3 "length" = true).
    { unfold df3, df2.
      destruct (pd.has_column _ "engagement"); cbn [negb];
        rewrite ?has_column_setitem_scalar, !has_column_setitem;
        now rewrite ?orb_true_r. }
    rewrite Hl. f_equal. unfold row3.
    destruct (pd.has_column df2 "engagement"); cbn [negb];
      rewrite ?cell_set_other by discriminate;
      rewrite cell_set_same; unfold h;
      now rewrite text_string_set, Hts by discriminate.
  - intros Hnone. rewrite Hget. unfold df3, row3.
    rewrite Heng, Hnone. cbn [negb].
    rewrite has_column_setitem_scalar, orb_true_r.
    now rewrite cell_set_same.
  - intros Hsome Hnot. rewrite Hget. unfold df3, row3.
    rewrite Heng, Hsome. cbn [negb]. rewrite Heng, Hsome.
    rewrite !cell_set_other by discriminate.
    unfold pd.cell. now rewrite dict_get_items, Hnot.
Qed.

Lemma load_posts_raw_document_witness :
  let ds := [ [("text", VStr (join_lines ["a"; "b"])); ("engagement", VInt 3)];
              [("text", VStr "x")] ] in
  exists fs,
    load_posts (Ok (VList (map VDict ds))) = Ok fs /\
    unique_tags fs = [] /\
    Forall2 (backfilled ds) ds (records fs).
Proof.
  intros ds. apply load_posts_raw_document; [discriminate|].
  repeat constructor; try reflexivity; eexists; reflexivity.
Defined.

(** ** More on merging *)

Section KeyedFirstOccurrences.

Context {A : Type}.
Variable key : A -> hkey.

Let same_key (a b : A) : bool := hkey_eqb (key a) (key b).

Lemma nub_key_NoDup (l : list A) : NoDup (map key (nub_by same_key l)).
Proof.
  induction l as [|x l IH]; cbn [nub_by map]; [constructor|].
  constructor.
  - intros Hin. apply in_map_iff in Hin. destruct Hin as [y [Hk Hy]].
    apply filter_In in Hy. destruct Hy as [_ Hne].
    unfold same_key in Hne. rewrite Hk in Hne.
    assert (hkey_eqb (key x) (key x) = true) by now apply hkey_eqb_eq.
    rewrite H in Hne. discriminate.
  - revert IH. induction (nub_by same_key l) as [|y ys IHy];
      cbn [filter map]; [constructor|].
    intros Hnd. inversion Hnd as [|? ? Hnotin Hnd']; subst.
    destruct (negb (same_key x y)); [|now apply IHy].
    cbn [map]. constructor; [|now apply IHy].
    intros Hin. apply Hnotin. apply in_map_iff in Hin.
    destruct Hin as [z [Hz Hzin]]. apply filter_In in Hzin.
    apply in_map_iff. exists z. tauto.
Qed.

Lemma nub_key_id (l : list A) :
  NoDup (map key l) -> nub_by same_key l = l.
Proof.
  induction l as [|x l IH]; cbn [nub_by map]; [reflexivity|].
  intros Hnd. inversion Hnd as [|? ? Hnotin Hnd']; subst.
  rewrite IH by assumption. f_equal.
  rewrite <- (filter_all l) at 2. apply filter_ext_in. intros y Hy.
  unfold same_key. destruct (hkey_eqb (key x) (key y)) eqn:E; [|reflexivity].
  apply hkey_eqb_eq in E. exfalso. apply Hnotin. rewrite E.
  now apply in_map.
Qed.

End KeyedFirstOccurrences.

Lemma record_of_idem (cols : list string) (r : dict) :
  pd.record_of cols (pd.record_of cols r) = pd.record_of cols r.
Proof.
  unfold pd.record_of at 1 3. apply map_ext_in. intros c Hc. f_equal.
  unfold pd.cell at 1. rewrite dict_get_record_of.
  assert (existsb (String.eqb c) cols = true) as ->
    by (apply existsb_exists; exists c; split;
        [exact Hc|apply String.eqb_refl]).
  reflexivity.
Qed.

Lemma fold_add_label_present (bs cols : list string) :
  (forall c, In c bs -> existsb (String.eqb c) cols = true) ->
  fold_left pd.add_label bs cols = cols.
Proof.
  induction bs as [|b bs IH]; intros H; cbn [fold_left]; [reflexivity|].
  unfold pd.add_label at 2. rewrite (H b) by now left.
  apply IH. intros c Hc. apply H. now right.
Qed.

Lemma text_hkey_record_of (cols : list string) (r : dict) :
  existsb (String.eqb "text") cols = true ->
  text_hkey (pd.record_of cols r) = text_hkey r.
Proof.
  intros Hc. unfold text_hkey. unfold pd.cell at 1.
  now rewrite dict_get_record_of, Hc.
Qed.

Lemma has_text_record_of (cols : list string) (r : dict) :
  existsb (String.eqb "text") cols = true ->
  has_text r -> has_text (pd.record_of cols r).
Proof.
  intros Hc [s Hs]. exists s. rewrite dict_get_record_of, Hc.
  unfold pd.cell. now rewrite Hs.
Qed.

Lemma text_of_hkey (r r' : dict) :
  has_text r -> has_text r' -> text_hkey r = text_hkey r' ->
  dict_get "text" r = dict_get "text" r'.
Proof.
  intros [s Hs] [s' Hs']. unfold text_hkey, pd.cell. rewrite Hs, Hs'.
  now intros [= ->].
Qed.

Lemma text_record_of (cols : list string) (r : dict) :
  existsb (String.eqb "text") cols = true ->
  has_text r ->
  dict_get "text" (pd.record_of cols r) = dict_get "text" r.
Proof.
  intros Hc [s Hs]. rewrite dict_get_record_of, Hc.
  unfold pd.cell. now rewrite Hs.
Qed.

(** X5. A merge with a non-empty second corpus loses no text and invents
    none: the texts of the merged corpus are exactly the texts of the two
    corpora. *)
Theorem merge_datasets_texts (self other : FewShotPosts)
    (other_file : result value)
    (Hload : load_posts other_file = Ok other)
    (Hne : pd.empty (df other) = false)
    (Ha : Forall has_text (records self))
    (Hb : Forall has_text (records other)) :
  forall t,
    In t (map (dict_get "text")
              (records (fst (merge_datasets self other_file))))
    <-> In t (map (dict_get "text") (records self ++ records other)%list).
Proof.
  destruct (merge_datasets_df self other other_file Hload Hne Ha Hb)
    as [Htext Hdf].
  set (merged := fst (merge_datasets self other_file)) in *.
  set (L := (records self ++ records other)%list) in *.
  assert (HL : Forall has_text L) by (apply Forall_app; now split).
  rewrite Forall_forall in HL.
  unfold pd.has_column in Htext.
  intros t. unfold records at 1, pd.to_dict_records. rewrite Hdf.
  cbn [pd.columns pd.rows]. rewrite map_map. rewrite !in_map_iff. split.
  - intros [y [<- Hy]]. apply nub_by_incl in Hy.
    exists y. split; [|exact Hy]. symmetry.
    apply text_record_of; [exact Htext|now apply HL].
  - intros [r [<- Hr]].
    destruct (nub_key_complete text_hkey L r Hr) as [y [Hy Hk]].
    exists y. split; [|exact Hy].
    assert (Hyl : In y L) by (eapply nub_by_incl; exact Hy).
    rewrite text_record_of; [|exact Htext|now apply HL].
    apply text_of_hkey; [now apply HL|now apply HL|exact Hk].
Qed.

Lemma merge_datasets_texts_witness :
  let a :=
    {| df := {| pd.columns := ["text"];
                pd.rows := [ [("text", VStr "x")]; [("text", VStr "y")] ] |};
       unique_tags := [] |} in
  let other_file :=
    Ok (VList [ VDict [("text", VStr "x")]; VDict [("text", VStr "z")] ]) in
  In (Some (VStr "z"))
     (map (dict_get "text") (records (fst (merge_datasets a other_file)))).
Proof.
  intros a other_file.
  pose (other :=
          match load_posts other_file with
          | Ok fs => fs
          | Raise _ => {| df := pd.DataFrame_empty; unique_tags := [] |}
          end).
  assert (Hload : load_posts other_file = Ok other) by reflexivity.
  apply (merge_datasets_texts a other other_file Hload).
  - reflexivity.
  - repeat constructor; eexists; reflexivity.
  - repeat constructor; eexists; reflexivity.
  - cbn. tauto.
Defined.

(** X6. When the second corpus is not empty and the records of both
    corpora have a string text, merging the same document a second time
    changes no record: the merge is idempotent on the records of the
    corpus. *)
Theorem merge_datasets_twice (self other : FewShotPosts)
    (other_file : result value)
    (Hload : load_posts other_file = Ok other)
    (Hne : pd.empty (df other) = false)
    (Ha : Forall has_text (records self))
    (Hb : Forall has_text (records other)) :
  let once := fst (merge_datasets self other_file) in
  let twice := fst (merge_datasets once other_file) in
  records twice = records once.
Proof.
  intros once twice.
  destruct (merge_datasets_df self other other_file Hload Hne Ha Hb)
    as [Htext Hdf].
  fold once in Hdf.
  set (L := (records self ++ records other)%list) in *.
  set (cols := pd.columns (pd.concat (df self) (df other))) in *.
  set (N := nub_by (fun x y => hkey_eqb (text_hkey x) (text_hkey y)) L) in *.
  assert (HL : Forall has_text L) by (apply Forall_app; now split).
  unfold pd.has_column in Htext. fold cols in Htext.
  assert (Honce : records once = map (pd.record_of cols) N).
  { unfold records, pd.to_dict_records. now rewrite Hdf. }
  assert (HN : forall y, In y N -> has_text y).
  { intros y Hy. apply nub_by_incl in Hy.
    rewrite Forall_forall in HL. now apply HL. }
  assert (Ha' : Forall has_text (records once)).
  { rewrite Honce. apply Forall_forall. intros r Hr.
    apply in_map_iff in Hr. destruct Hr as [y [<- Hy]].
    apply has_text_record_of; [exact Htext|now apply HN]. }
  destruct (merge_datasets_df once other other_file Hload Hne Ha' Hb)
    as [_ Hdf2].
  fold twice in Hdf2.
  assert (Hcols2 : pd.columns (pd.concat (df once) (df other)) = cols).
  { unfold pd.concat. cbn [pd.columns]. rewrite Hdf. cbn [pd.columns].
    apply fold_add_label_present. intros c Hc. unfold cols, pd.concat.
    cbn [pd.columns]. rewrite existsb_concat_columns.
    apply orb_true_iff. right. apply existsb_exists. exists c.
    split; [exact Hc|apply String.eqb_refl]. }
  unfold records at 1, pd.to_dict_records. rewrite Hdf2.
  cbn [pd.columns pd.rows]. rewrite Hcols2, Honce.
  rewrite nub_by_app.
  assert (Hkeys : map text_hkey (map (pd.record_of cols) N) = map text_hkey N).
  { rewrite map_map. apply map_ext. intros y.
    now apply text_hkey_record_of. }
  rewrite (nub_key_id text_hkey (map (pd.record_of cols) N)).
  2:{ rewrite Hkeys. apply nub_key_NoDup. }
  rewrite filter_none.
  2:{ intros y Hy. apply nub_by_incl in Hy.
      assert (HyL : In y L) by (apply in_or_app; now right).
      destruct (nub_key_complete text_hkey L y HyL) as [z [Hz Hk]].
      fold N in Hz. apply negb_false_iff. apply existsb_exists.
      exists (pd.record_of cols z). split; [now apply in_map|].
      apply hkey_eqb_eq. now rewrite text_hkey_record_of. }
  rewrite app_nil_r, map_map. apply map_ext. intros y.
  apply record_of_idem.
Qed.

Lemma merge_datasets_twice_witness :
  let a :=
    {| df := {| pd.columns := ["text"];
                pd.rows := [ [("text", VStr "x")]; [("text", VStr "y")] ] |};
       unique_tags := [] |} in
  let other_file :=
    Ok (VList [ VDict [("text", VStr "x")]; VDict [("text", VStr "z")] ]) in
  records (fst (merge_datasets (fst (merge_datasets a other_file)) other_file))
  = records (fst (merge_datasets a other_file)).
Proof.
  intros a other_file.
  pose (other :=
          match load_posts other_file with
          | Ok fs => fs
          | Raise _ => {| df := pd.DataFrame_empty; unique_tags := [] |}
          end).
  assert (Hload : load_posts other_file = Ok other) by reflexivity.
  apply (merge_datasets_twice a other other_file Hload).
  - reflexivity.
  - repeat constructor; eexists; reflexivity.
  - repeat constructor; eexists; reflexivity.
Defined.

(** ** Adding posts *)

Lemma mapM_length {A B} (f : A -> result B) (l : list A) (l' : list B) :
  mapM f l = Ok l' -> List.length l' = List.length l.
Proof.
  revert l'. induction l as [|x l IH]; intros l'; cbn [mapM].
  - now intros [= <-].
  - destruct (f x); cbn [bind]; [|discriminate].
    destruct (mapM f l); cbn [bind]; [|discriminate].
    intros [= <-]. cbn [List.length]. f_equal. now apply IH.
Qed.

(** [json_normalize] gives one row for every element of an array. *)
Lemma json_normalize_rows_length (l : list value) (d : pd.DataFrame) :
  pd.json_normalize (VList l) = Ok d ->
  List.length (pd.rows d) = List.length l.
Proof.
  destruct l as [|x l]; [now intros [= <-]|].
  cbn [pd.json_normalize]. unfold pd.DataFrame_of_list.
  set (data := map pd.simple_json_normalize (x :: l)).
  assert (Hdata : List.length data = List.length (x :: l))
    by apply length_map.
  destruct data as [|y data'] eqn:E; [discriminate Hdata|].
  assert (Hrecords :
    (let* records :=
       mapM (fun x => match x with
                      | VDict d0 => Ok d0
                      | _ => Raise AttributeError
                      end) (y :: data') in
     Ok {| pd.columns :=
             fold_left (fun cols r => fold_left pd.add_label (dict_keys r) cols)
                       records [];
           pd.rows := records |}) = Ok d ->
    List.length (pd.rows d) = List.length (y :: data')).
  { destruct (mapM _ (y :: data')) as [recs|e] eqn:EM; cbn [bind];
      [|discriminate].
    intros [= <-]. cbn [pd.rows]. exact (mapM_length _ _ _ EM). }
  rewrite <- Hdata.
  destruct y as [ |b|z|f|s|l0|d0]; try exact Hrecords.
  intros [= <-]. cbn [pd.rows List.length]. f_equal.
  exact (length_map (fun _ : value => ([] : dict)) _).
Qed.

Lemma records_under_own (fs : FewShotPosts) :
  under (pd.columns (df fs)) (records fs) = records fs.
Proof.
  unfold under, records, pd.to_dict_records. rewrite map_map.
  apply map_ext. intros r. apply record_of_idem.
Qed.

Lemma records_concat (a b : pd.DataFrame) :
  pd.to_dict_records (pd.concat a b)
  = (under (pd.columns (pd.concat a b)) (pd.to_dict_records a)
     ++ under (pd.columns (pd.concat a b)) (pd.to_dict_records b))%list.
Proof.
  unfold under. rewrite <- map_app. reflexivity.
Qed.

(** In the model the records after [add_posts] start with the very
    records of the corpus. *)
Lemma add_posts_records (self : FewShotPosts)
    (new_posts : list value) :
  let after := fst (add_posts self new_posts) in
  exists added,
    records after
    = (under (pd.columns (df after)) (records self) ++ added)%list /\
    Forall2 extends (records self)
            (under (pd.columns (df after)) (records self)) /\
    (snd (add_posts self new_posts) = true ->
     List.length added = List.length new_posts).
Proof.
  unfold add_posts.
  destruct (mapM fill_post new_posts) as [posts|e] eqn:Efill; cbn [bind].
  2:{ cbn [fst snd]. exists []. rewrite app_nil_r, records_under_own.
      split; [reflexivity|]. split; [|discriminate].
      rewrite <- (records_under_own self) at 2.
      apply records_extend_under. unfold pd.has_column. tauto. }
  destruct (pd.json_normalize (VList posts)) as [new_df|e] eqn:Ejson.
  2:{ cbn [fst snd]. exists []. rewrite app_nil_r, records_under_own.
      split; [reflexivity|]. split; [|discriminate].
      rewrite <- (records_under_own self) at 2.
      apply records_extend_under. unfold pd.has_column. tauto. }
  cbn [df unique_tags].
  assert (Hafter : forall fs ok,
            df fs = pd.concat (df self) new_df ->
            exists added,
              records fs
              = (under (pd.columns (df fs)) (records self) ++ added)%list /\
              Forall2 extends (records self)
                      (under (pd.columns (df fs)) (records self)) /\
              (ok = true -> List.length added = List.length new_posts)).
  { intros fs ok Hdf.
    exists (under (pd.columns (df fs)) (pd.to_dict_records new_df)).
    split; [unfold records at 1; rewrite Hdf; apply records_concat|].
    split.
    - apply records_extend_under. intros c Hc. rewrite Hdf.
      unfold pd.concat. cbn [pd.columns]. rewrite existsb_concat_columns.
      unfold pd.has_column in Hc. now rewrite Hc.
    - intros _. unfold under, pd.to_dict_records. rewrite !length_map.
      rewrite (json_normalize_rows_length posts new_df Ejson).
      now apply mapM_length in Efill. }
  destruct (bind _ _) as [unique|e]; cbn [fst snd]; now apply Hafter.
Qed.

(** X7. [add_posts] never drops or reorders a record of the corpus: in
    every case the records after the call start with the records before
    it, shown under the columns of the new frame with their cells as the
    frame stores them (an integer may come back as the float nearest to
    it, [None] as NaN), and when the call returns [True] one record for
    every new post follows them. *)
Theorem add_posts_keeps_records (self : FewShotPosts)
    (new_posts : list value) :
  let after := fst (add_posts self new_posts) in
  exists kept added,
    records after = (kept ++ added)%list /\
    Forall2 stored_record
            (under (pd.columns (df after)) (records self)) kept /\
    Forall2 extends (records self)
            (under (pd.columns (df after)) (records self)) /\
    (snd (add_posts self new_posts) = true ->
     List.length added = List.length new_posts).
Proof.
  intros after.
  destruct (add_posts_records self new_posts) as (added & Hrec & Hext & Hn).
  fold after in Hrec, Hext.
  exists (under (pd.columns (df after)) (records self)), added.
  split; [exact Hrec|]. split; [apply stored_records_refl|].
  split; [exact Hext|exact Hn].
Qed.

Lemma flat_set (k : string) (v : value) (d : dict) :
  pd.is_dict v = false -> flat d -> flat (dict_set k v d).
Proof.
  intros Hv. unfold flat. induction d as [|[k' v'] d IH]; intros H;
    cbn [dict_set].
  - now repeat constructor.
  - inversion H as [|? ? Hkv Hd]; subst.
    destruct (String.eqb k k'); constructor; auto.
Qed.

Lemma extends_set (k : string) (v : value) (d : dict) :
  dict_get k d = None -> extends d (dict_set k v d).
Proof.
  intros Hk c w Hc. rewrite dict_get_set_other; [exact Hc|]. congruence.
Qed.

Lemma extends_trans (a b c : dict) : extends a b -> extends b c -> extends a c.
Proof. unfold extends. auto. Qed.

Lemma dict_has_get (k : string) (d : dict) (v : value) :
  dict_get k d = Some v -> dict_has k d = true.
Proof. unfold dict_has. now intros ->. Qed.

(** A post that has a text, a length and tags goes through the loop of
    [add_posts]; only missing fields are added. *)
Lemma fill_post_complete (d : dict) :
  flat d -> has_text d ->
  dict_get "length" d <> None -> dict_get "tags" d <> None ->
  exists d',
    fill_post (VDict d) = Ok (VDict d') /\ flat d' /\ extends d d'.
Proof.
  intros Hflat [s Hs] Hlen Htags. unfold fill_post.
  cbn [contains bind].
  assert (Hstep1 : exists d1,
    (if negb (dict_has "line_count" d)
     then let* text := get (VDict d) "text" (VStr EmptyString) in
          let* n := len_split_newline text in
          setitem (VDict d) "line_count" (VInt n)
     else Ok (VDict d)) = Ok (VDict d1) /\ flat d1 /\ extends d d1).
  { unfold dict_has. destruct (dict_get "line_count" d) eqn:E; cbn [negb].
    - exists d. repeat split; [assumption|]. now intros c w.
    - rewrite get_dict, Hs. cbn [bind len_split_newline setitem].
      eexists. split; [reflexivity|].
      split; [now apply flat_set|now apply extends_set]. }
  destruct Hstep1 as (d1 & -> & Hflat1 & Hext1). cbn [bind contains].
  assert (Hlen1 : dict_has "length" d1 = true).
  { destruct (dict_get "length" d) eqn:E; [|congruence].
    eapply dict_has_get. apply Hext1. exact E. }
  rewrite Hlen1. cbn [negb bind contains].
  assert (Hstep3 : exists d3,
    (if negb (dict_has "engagement" d1)
     then setitem (VDict d1) "engagement" (VInt 0)
     else Ok (VDict d1)) = Ok (VDict d3) /\ flat d3 /\ extends d1 d3).
  { unfold dict_has. destruct (dict_get "engagement" d1) eqn:E; cbn [negb].
    - exists d1. repeat split; [assumption|]. now intros c w.
    - cbn [setitem]. eexists. split; [reflexivity|].
      split; [now apply flat_set|now apply extends_set]. }
  destruct Hstep3 as (d3 & -> & Hflat3 & Hext3). cbn [bind contains].
  assert (Htags3 : dict_has "tags" d3 = true).
  { destruct (dict_get "tags" d) eqn:E; [|congruence].
    eapply dict_has_get. apply Hext3, Hext1. exact E. }
  rewrite Htags3. cbn [negb]. exists d3. split; [reflexivity|].
  split; [assumption|]. eapply extends_trans; eassumption.
Qed.

(** X8. A post that is added can be selected: after [add_posts] of one
    flat post with a text, tags, a language and a length, the selector
    returns, for a tag of the post and its language and length, a record
    that shows every field of the post as the frame stores it (an
    integer may come back as the float nearest to it, [None] as NaN),
    whatever [add_posts] answered. *)
Theorem add_posts_then_select (self : FewShotPosts) (d : dict)
    (l : list value) (length language tag : string)
    (Hflat : flat d) (Htext : has_text d)
    (Htags : dict_get "tags" d = Some (VList l))
    (Htag : In (VStr tag) l)
    (Hlanguage : dict_get "language" d = Some (VStr language))
    (Hlength : dict_get "length" d = Some (VStr length)) :
  exists selected r,
    get_filtered_posts (fst (add_posts self [VDict d])) length language tag
    = Ok selected /\
    In r selected /\ shown_as d r.
Proof.
  destruct (fill_post_complete d Hflat Htext) as (d' & Hfill & Hflat' & Hext);
    [congruence|congruence|].
  destruct (json_normalize_flat [d']) as (df0 & Hjson & Hrows0 & Hc0);
    [discriminate|now constructor|].
  set (after := fst (add_posts self [VDict d])).
  assert (Hdf : df after = pd.concat (df self) df0).
  { unfold after, add_posts. cbn [mapM]. rewrite Hfill. cbn [bind map] in *.
    rewrite Hjson. cbn [df unique_tags].
    now destruct (bind _ _). }
  set (r := pd.record_of (pd.columns (df after))
                         (pd.record_of (pd.columns df0) (dict_items d'))).
  assert (Hr : In r (records after)).
  { unfold records. rewrite Hdf, records_concat. apply in_or_app. right.
    unfold under, pd.to_dict_records. rewrite Hrows0. cbn [map].
    left. unfold r. now rewrite Hdf. }
  assert (Hextr : extends d r).
  { eapply extends_trans; [exact Hext|].
    intros c v Hc. unfold r.
    assert (Hcol0 : existsb (String.eqb c) (pd.columns df0) = true).
    { change (pd.has_column df0 c = true). rewrite Hc0.
      cbn [map some_has existsb]. unfold dict_has.
      now rewrite dict_get_items, Hc. }
    rewrite dict_get_record_of.
    assert (Hcol : existsb (String.eqb c) (pd.columns (df after)) = true).
    { rewrite Hdf. unfold pd.concat. cbn [pd.columns].
      rewrite existsb_concat_columns, Hcol0. apply orb_true_r. }
    rewrite Hcol. f_equal. unfold pd.cell at 1.
    rewrite dict_get_record_of, Hcol0. unfold pd.cell.
    now rewrite dict_get_items, Hc. }
  exists (filter (matchesb length language tag) (records after)), r.
  split; [apply get_filtered_posts_filter|].
  split; [|now apply extends_shown_as].
  apply filter_In. split; [exact Hr|]. apply matchesb_spec.
  split; [exists l; split; [now apply Hextr|exact Htag]|].
  split; now apply Hextr.
Qed.

Lemma add_posts_then_select_witness :
  let empty_corpus := {| df := pd.DataFrame_empty; unique_tags := [] |} in
  let post := [ ("text", VStr "Hired!"); ("tags", VList [VStr "Jobs"]);
                ("language", VStr "English"); ("length", VStr "Short") ] in
  exists selected r,
    get_filtered_posts (fst (add_posts empty_corpus [VDict post]))
                       "Short" "English" "Jobs" = Ok selected /\
    In r selected /\ shown_as post r.
Proof.
  intros empty_corpus post.
  apply (add_posts_then_select empty_corpus post [VStr "Jobs"]).
  - repeat constructor.
  - eexists. reflexivity.
  - reflexivity.
  - now left.
  - reflexivity.
  - reflexivity.
Defined.

(** ** The registry: validation, listings and the current dataset *)

(** A document the registry calls processed is a non-empty array whose
    first element contains ["text"]. *)
Lemma processed_first_has_text (file : result value) :
  _is_processed_dataset file = Ok true ->
  exists x rest,
    file = Ok (VList (x :: rest)) /\ contains x "text" = Ok true.
Proof.
  unfold _is_processed_dataset.
  destruct file as [data|e]; [|discriminate].
  cbn [bind].
  destruct data as [ |b|z|f|s|l|d];
    try (cbn [is_list negb]; rewrite orb_true_r; discriminate).
  destruct l as [|x rest]; [discriminate|].
  cbn [truthy is_list negb orb getitem0 bind missing_field].
  intros H. exists x, rest. split; [reflexivity|].
  destruct (contains x "text") as [[|]|e]; [reflexivity|discriminate..].
Qed.

(** [validate_dataset] accepts exactly the non-empty arrays whose first
    element contains ["text"], and then with one message. *)
Lemma validate_dataset_accepts (str_exn : exn -> string)
    (file : result value) :
  fst (validate_dataset str_exn file) = true <->
  exists x rest,
    file = Ok (VList (x :: rest)) /\ contains x "text" = Ok true.
Proof.
  unfold validate_dataset. split.
  - destruct file as [data|e]; [|destruct e; discriminate].
    cbn [dataset_exists negb bind].
    destruct data as [ |b|z|f|s|l|d]; try discriminate.
    destruct l as [|x rest]; [discriminate|].
    cbn [is_list truthy negb getitem0 bind].
    intros H. exists x, rest. split; [reflexivity|].
    destruct (contains x "text") as [[|]|e];
      [reflexivity|discriminate|destruct e; discriminate].
  - intros (x & rest & -> & H).
    cbn [dataset_exists negb bind is_list truthy getitem0].
    now rewrite H.
Qed.

Lemma validate_dataset_message (str_exn : exn -> string)
    (file : result value) :
  fst (validate_dataset str_exn file) = true ->
  validate_dataset str_exn file = (true, "Dataset is valid").
Proof.
  intros H. apply validate_dataset_accepts in H.
  destruct H as (x & rest & -> & H). unfold validate_dataset.
  cbn [dataset_exists negb bind is_list truthy getitem0].
  now rewrite H.
Qed.

(** X9. A document that the registry classifies as processed passes
    [validate_dataset].  What [validate_dataset] accepts is any non-empty
    array whose first element contains ["text"]: as a key when it is an
    object, but also as a substring when it is a string and as an entry
    when it is an array. *)
Theorem processed_dataset_is_valid (str_exn : exn -> string)
    (file : result value) :
  (_is_processed_dataset file = Ok true ->
   validate_dataset str_exn file = (true, "Dataset is valid")) /\
  (fst (validate_dataset str_exn file) = true <->
   exists x rest,
     file = Ok (VList (x :: rest)) /\ contains x "text" = Ok true).
Proof.
  split; [|apply validate_dataset_accepts].
  intros H. apply validate_dataset_message, validate_dataset_accepts.
  now apply processed_first_has_text.
Qed.

Lemma processed_dataset_is_valid_witness :
  let file :=
    Ok (VList [VDict [("text", VStr "hi"); ("tags", VList [VStr "AI"])]]) in
  validate_dataset (fun _ => EmptyString) file = (true, "Dataset is valid")
  /\ fst (validate_dataset (fun _ => EmptyString)
                           (Ok (VList [VStr "plain text"]))) = true.
Proof.
  intros file. split.
  - now apply (processed_dataset_is_valid (fun _ => EmptyString) file).
  - apply (processed_dataset_is_valid (fun _ => EmptyString)).
    exists (VStr "plain text"), []. now split.
Defined.

Lemma store_chosen_sound {A : Type} (chosen : A -> bool) (key : A -> string)
    (val : A -> value) (entries : list A) (datasets : dict)
    (k : string) (v : value) :
  dict_get k (store_chosen chosen key val entries datasets) = Some v ->
  dict_get k datasets = Some v \/
  exists entry,
    In entry entries /\ chosen entry = true /\
    key entry = k /\ val entry = v.
Proof.
  unfold store_chosen. revert datasets.
  induction entries as [|entry entries IH]; intros datasets H;
    cbn [fold_left] in H; [now left|].
  apply IH in H. destruct H as [H|(x & Hin & Hx)].
  - destruct (chosen entry) eqn:Ec; [|now left].
    destruct (String.eqb_spec k (key entry)) as [->|Hne].
    + rewrite dict_get_set_same in H. injection H as <-.
      right. exists entry. split; [now left|]. now repeat split.
    + rewrite dict_get_set_other in H by exact Hne. now left.
  - right. exists x. split; [now right|exact Hx].
Qed.

Lemma store_chosen_keeps {A : Type} (chosen : A -> bool) (key : A -> string)
    (val : A -> value) (entries : list A) (datasets : dict) (k : string) :
  dict_get k datasets <> None ->
  dict_get k (store_chosen chosen key val entries datasets) <> None.
Proof.
  unfold store_chosen. revert datasets.
  induction entries as [|entry entries IH]; intros datasets H;
    cbn [fold_left]; [exact H|].
  apply IH. destruct (chosen entry); [|exact H].
  destruct (String.eqb_spec k (key entry)) as [->|Hne].
  - rewrite dict_get_set_same. discriminate.
  - now rewrite dict_get_set_other.
Qed.

Lemma store_chosen_complete {A : Type} (chosen : A -> bool)
    (key : A -> string) (val : A -> value) (entries : list A)
    (datasets : dict) (entry : A) :
  In entry entries -> chosen entry = true ->
  dict_get (key entry) (store_chosen chosen key val entries datasets)
  <> None.
Proof.
  revert datasets.
  induction entries as [|x entries IH]; intros datasets Hin Hc; [easy|].
  destruct Hin as [->|Hin].
  - unfold store_chosen. cbn [fold_left]. rewrite Hc.
    apply (store_chosen_keeps chosen key val).
    rewrite dict_get_set_same. discriminate.
  - unfold store_chosen. cbn [fold_left]. now apply IH.
Qed.

Lemma get_available_datasets_store (title : string -> string)
    (files : list (string * result value)) :
  get_available_datasets title (Some files)
  = store_chosen
      (fun entry => is_dataset_file (fst entry) && is_processed (snd entry))
      (fun entry => _create_display_name title (fst entry) false)
      (fun entry => VStr (file_path (fst entry)))
      files [].
Proof.
  unfold get_available_datasets, store_chosen.
  generalize ([] : dict) as datasets.
  induction files as [|entry files IH]; intros datasets; [reflexivity|].
  cbn [fold_left]. rewrite IH. f_equal. unfold is_processed.
  destruct (is_dataset_file (fst entry)); [|reflexivity].
  now destruct (_is_processed_dataset (snd entry)) as [[|]|e].
Qed.

Lemma get_raw_datasets_store (title : string -> string)
    (files : list (string * result value)) :
  get_raw_datasets title (Some files)
  = store_chosen
      (fun entry =>
         is_dataset_file (fst entry) && negb (is_processed (snd entry)))
      (fun entry => _create_display_name title (fst entry) true)
      (fun entry => VStr (file_path (fst entry)))
      files [].
Proof.
  unfold get_raw_datasets, store_chosen.
  generalize ([] : dict) as raw_datasets.
  induction files as [|entry files IH]; intros raw_datasets; [reflexivity|].
  cbn [fold_left]. rewrite IH. f_equal. unfold is_processed.
  destruct (is_dataset_file (fst entry)); [|reflexivity].
  now destruct (_is_processed_dataset (snd entry)) as [[|]|e].
Qed.

Lemma available_listed (title : string -> string)
    (files : list (string * result value)) (name : string) (v : value) :
  dict_get name (get_available_datasets title (Some files)) = Some v ->
  exists file,
    v = VStr (file_path file) /\
    name = _create_display_name title file false /\
    listed_as files true file.
Proof.
  rewrite get_available_datasets_store. intros H.
  apply store_chosen_sound in H.
  destruct H as [H|([file content] & Hin & Hc & Hk & Hv)]; [discriminate|].
  cbn [fst snd] in *. apply andb_true_iff in Hc. destruct Hc as [Hf Hp].
  exists file. split; [now symmetry|]. split; [now symmetry|].
  now exists content.
Qed.

Lemma raw_listed (title : string -> string)
    (files : list (string * result value)) (name : string) (v : value) :
  dict_get name (get_raw_datasets title (Some files)) = Some v ->
  exists file,
    v = VStr (file_path file) /\
    name = _create_display_name title file true /\
    listed_as files false file.
Proof.
  rewrite get_raw_datasets_store. intros H.
  apply store_chosen_sound in H.
  destruct H as [H|([file content] & Hin & Hc & Hk & Hv)]; [discriminate|].
  cbn [fst snd] in *. apply andb_true_iff in Hc. destruct Hc as [Hf Hp].
  apply negb_true_iff in Hp.
  exists file. split; [now symmetry|]. split; [now symmetry|].
  now exists content.
Qed.

(** X10. Every entry of the listing of processed datasets is the display
    name and the path of a file of the data directory whose name passes
    the test on names and whose content is processed, and every such
    file has its display name among the keys; the listing of raw
    datasets is the same with the contents that are not processed.
    Nothing is listed when the directory does not exist. *)
Theorem listings_show_dataset_files (title : string -> string)
    (files : list (string * result value)) :
  (forall name v,
     dict_get name (get_available_datasets title (Some files)) = Some v ->
     exists file,
       v = VStr (file_path file) /\
       name = _create_display_name title file false /\
       listed_as files true file) /\
  (forall file,
     listed_as files true file ->
     dict_get (_create_display_name title file false)
              (get_available_datasets title (Some files)) <> None) /\
  (forall name v,
     dict_get name (get_raw_datasets title (Some files)) = Some v ->
     exists file,
       v = VStr (file_path file) /\
       name = _create_display_name title file true /\
       listed_as files false file) /\
  (forall file,
     listed_as files false file ->
     dict_get (_create_display_name title file true)
              (get_raw_datasets title (Some files)) <> None) /\
  get_available_datasets title None = [] /\
  get_raw_datasets title None = [].
Proof.
  split; [apply available_listed|].
  split.
  { intros file (content & Hin & Hf & Hp).
    rewrite get_available_datasets_store.
    apply (store_chosen_complete _
             (fun entry => _create_display_name title (fst entry) false)
             _ files [] (file, content) Hin).
    cbn [fst snd]. now rewrite Hf, Hp. }
  split; [apply raw_listed|].
  split; [|now split].
  intros file (content & Hin & Hf & Hp).
  rewrite get_raw_datasets_store.
  apply (store_chosen_complete _
           (fun entry => _create_display_name title (fst entry) true)
           _ files [] (file, content) Hin).
  cbn [fst snd]. now rewrite Hf, Hp.
Qed.

Lemma listings_show_dataset_files_witness :
  let files :=
    [ ("raw_x.json", Ok (VList [VDict [("text", VStr "hi")]]));
      ("processed_raw_x.json",
       Ok (VList [VDict [("text", VStr "hi");
                         ("tags", VList [VStr "AI"])]])) ] in
  dict_get "x" (get_available_datasets (fun s => s) (Some files)) <> None /\
  dict_get "x (Raw)" (get_raw_datasets (fun s => s) (Some files)) <> None.
Proof.
  intros files.
  destruct (listings_show_dataset_files (fun s => s) files)
    as (_ & Hprocessed & _ & Hraw & _).
  split.
  - apply (Hprocessed "processed_raw_x.json").
    eexists. split; [right; left; reflexivity|]. now split.
  - apply (Hraw "raw_x.json").
    eexists. split; [left; reflexivity|]. now split.
Defined.

Lemma file_path_inj (file1 file2 : string) :
  file_path file1 = file_path file2 -> file1 = file2.
Proof. unfold file_path. cbn. now intros [= ->]. Qed.

Lemma NoDup_fst_functional {A B : Type} (l : list (A * B)) (a : A)
    (b1 b2 : B) :
  NoDup (map fst l) -> In (a, b1) l -> In (a, b2) l -> b1 = b2.
Proof.
  induction l as [|[a' b'] l IH]; cbn [map fst]; [easy|].
  intros Hnd H1 H2. inversion Hnd as [|? ? Hnot Hnd']; subst.
  destruct H1 as [H1|H1], H2 as [H2|H2].
  - congruence.
  - injection H1 as -> _. exfalso. apply Hnot.
    now apply (in_map fst) in H2.
  - injection H2 as -> _. exfalso. apply Hnot.
    now apply (in_map fst) in H1.
  - now apply IH.
Qed.

(** X11. The names of a directory being distinct, no path is shown by
    both listings: a path of the listing of processed datasets is the
    value of no entry of the listing of raw datasets. *)
Theorem listings_disjoint (title : string -> string)
    (files : list (string * result value)) (name : string) (v : value)
    (Hnames : NoDup (map fst files))
    (Hprocessed :
       dict_get name (get_available_datasets title (Some files)) = Some v) :
  forall raw_name,
    dict_get raw_name (get_raw_datasets title (Some files)) <> Some v.
Proof.
  intros raw_name Hraw.
  apply available_listed in Hprocessed.
  apply raw_listed in Hraw.
  destruct Hprocessed as (file1 & -> & _ & content1 & Hin1 & _ & Hp1).
  destruct Hraw as (file2 & E & _ & content2 & Hin2 & _ & Hp2).
  assert (file1 = file2) by (apply file_path_inj; congruence).
  subst file2.
  rewrite (NoDup_fst_functional files file1 content1 content2) in Hp1
    by assumption.
  congruence.
Qed.

Lemma listings_disjoint_witness :
  let files :=
    [ ("raw_x.json", Ok (VList [VDict [("text", VStr "hi")]]));
      ("processed_raw_x.json",
       Ok (VList [VDict [("text", VStr "hi");
                         ("tags", VList [VStr "AI"])]])) ] in
  dict_get "x (Raw)" (get_raw_datasets (fun s => s) (Some files))
  <> Some (VStr "data/processed_raw_x.json").
Proof.
  intros files.
  apply (listings_disjoint (fun s => s) files "x").
  - repeat constructor; cbn; intuition discriminate.
  - reflexivity.
Defined.

Lemma endswith_app (s suffix : string) :
  endswith (s ++ suffix) suffix = true.
Proof.
  induction s as [|c s IH]; cbn [String.append].
  - destruct suffix; cbn [endswith]; now rewrite String.eqb_refl.
  - cbn [endswith]. rewrite IH. apply orb_true_r.
Qed.

(** X12. The files that the processor and the application write beside
    the datasets are never listed: neither listing holds the path of a
    name that ends in ["_metadata.json"] or in ["_history.json"], or of
    one of the four system files, whatever the file contains. *)
Theorem side_files_not_listed (title : string -> string)
    (data_dir : directory) (stem name : string) (wanted : bool) :
  let listing :=
    if wanted then get_available_datasets title data_dir
    else get_raw_datasets title data_dir in
  dict_get name listing
  <> Some (VStr (file_path (stem ++ "_metadata.json"))) /\
  dict_get name listing
  <> Some (VStr (file_path (stem ++ "_history.json"))) /\
  forall file,
    In file system_files ->
    dict_get name listing <> Some (VStr (file_path file)).
Proof.
  assert (Hshown : forall v,
    dict_get name
      (if wanted then get_available_datasets title data_dir
       else get_raw_datasets title data_dir) = Some v ->
    exists file, v = VStr (file_path file) /\ is_dataset_file file = true).
  { intros v H. destruct data_dir as [files|];
      [|destruct wanted; discriminate].
    destruct wanted.
    - apply available_listed in H.
      destruct H as (file & -> & _ & content & _ & Hf & _). now exists file.
    - apply raw_listed in H.
      destruct H as (file & -> & _ & content & _ & Hf & _). now exists file. }
  cbv zeta. repeat split.
  - intros H. apply Hshown in H. destruct H as (file & E & Hf).
    assert (stem ++ "_metadata.json" = file)
      by (apply file_path_inj; congruence).
    subst file. unfold is_dataset_file in Hf.
    rewrite (endswith_app stem "_metadata.json") in Hf.
    cbn [negb] in Hf. now rewrite andb_false_r in Hf.
  - intros H. apply Hshown in H. destruct H as (file & E & Hf).
    assert (stem ++ "_history.json" = file)
      by (apply file_path_inj; congruence).
    subst file. unfold is_dataset_file in Hf.
    rewrite (endswith_app stem "_history.json") in Hf.
    cbn [negb] in Hf. now rewrite andb_false_r in Hf.
  - intros file Hsys H. apply Hshown in H.
    destruct H as (file' & E & Hf).
    assert (file = file') by (apply file_path_inj; congruence).
    subst file'. unfold is_dataset_file in Hf.
    assert (Hex : existsb (String.eqb file) system_files = true).
    { apply existsb_exists. exists file. split; [exact Hsys|].
      apply String.eqb_refl. }
    rewrite Hex in Hf. cbn [negb] in Hf. now rewrite andb_false_r in Hf.
Qed.

Lemma first_available_listed (title : string -> string)
    (data_dir : directory) :
  (get_available_datasets title data_dir = [] /\
   first_available title data_dir = "data/processed_posts.json") \/
  (exists name rest files file,
     get_available_datasets title data_dir
     = (name, VStr (file_path file)) :: rest /\
     data_dir = Some files /\
     first_available title data_dir = file_path file /\
     listed_as files true file).
Proof.
  unfold first_available.
  destruct (get_available_datasets title data_dir) as [|[name v] rest]
    eqn:Eavailable; [now left|].
  right. destruct data_dir as [files|]; [|discriminate].
  assert (H : dict_get name (get_available_datasets title (Some files))
              = Some v).
  { rewrite Eavailable. cbn [dict_get]. now rewrite String.eqb_refl. }
  apply available_listed in H. destruct H as (file & -> & _ & Hlisted).
  exists name, rest, files, file. now repeat split.
Qed.

(** X13. When no selection is held (no session, or no current dataset in
    it), the current dataset is the path of the first entry of the
    listing of processed datasets, which is the path of a processed
    dataset file of the directory; when that listing is empty it is the
    fixed path ["data/processed_posts.json"].  With a session the answer
    is stored in it; without one the state is untouched. *)
Theorem default_dataset_is_listed (title : string -> string)
    (streamlit_available : bool) (st : session_state)
    (data_dir : directory)
    (Hfree : streamlit_available = false \/ current_dataset st = None) :
  let answer := get_current_dataset title streamlit_available st data_dir in
  ((get_available_datasets title data_dir = [] /\
    fst answer = "data/processed_posts.json") \/
   (exists name rest files file,
      get_available_datasets title data_dir
      = (name, VStr (file_path file)) :: rest /\
      data_dir = Some files /\
      fst answer = file_path file /\
      listed_as files true file)) /\
  current_dataset (snd answer)
  = (if streamlit_available then Some (fst answer) else current_dataset st)
  /\ dataset_changed (snd answer) = dataset_changed st.
Proof.
  cbv zeta. unfold get_current_dataset.
  destruct streamlit_available.
  - destruct Hfree as [Hfree|Hfree]; [discriminate|]. rewrite Hfree.
    cbn [fst snd current_dataset dataset_changed].
    split; [apply first_available_listed|now split].
  - cbn [fst snd]. split; [apply first_available_listed|now split].
Qed.

Lemma default_dataset_is_listed_witness :
  let files :=
    [ ("raw_x.json", Ok (VList [VDict [("text", VStr "hi")]]));
      ("processed_raw_x.json",
       Ok (VList [VDict [("text", VStr "hi");
                         ("tags", VList [VStr "AI"])]])) ] in
  let st := {| current_dataset := None; dataset_changed := None |} in
  current_dataset
    (snd (get_current_dataset (fun s => s) true st (Some files)))
  = Some (fst (get_current_dataset (fun s => s) true st (Some files))).
Proof.
  intros files st.
  apply (default_dataset_is_listed (fun s => s) true st (Some files)).
  now right.
Defined.

(** X14. With a session, a selection is kept: after
    [set_current_dataset p] the current dataset is [p] whatever the data
    directory holds, also when [p] is the path of no file, reading it
    changes nothing, and the change counter went up by one, from 0 when
    it was not set.  Without a session [set_current_dataset] does
    nothing, and the current dataset does not depend on what was set. *)
Theorem set_current_dataset_kept (title : string -> string)
    (dataset_path : string) (st : session_state) (data_dir : directory) :
  let selected := set_current_dataset true dataset_path st in
  get_current_dataset title true selected data_dir
  = (dataset_path, selected) /\
  dataset_changed selected
  = Some (match dataset_changed st with Some n => n | None => 0 end + 1) /\
  set_current_dataset false dataset_path st = st /\
  fst (get_current_dataset title false
         (set_current_dataset false dataset_path st) data_dir)
  = fst (get_current_dataset title false st data_dir).
Proof.
  cbv zeta. unfold get_current_dataset, set_current_dataset.
  cbn [current_dataset dataset_changed fst].
  repeat split. now destruct (dataset_changed st).
Qed.

(** X15. Reading the current dataset twice gives the same path and the
    same state the second time, also when the data directory has changed
    in between, provided there is a session: the first answer is then
    held in it. *)
Theorem get_current_dataset_sticky (title : string -> string)
    (st : session_state) (before after : directory) :
  let first := get_current_dataset title true st before in
  get_current_dataset title true (snd first) after = first.
Proof.
  cbv zeta. unfold get_current_dataset.
  destruct (current_dataset st) as [path|] eqn:E; cbn [snd].
  - now rewrite E.
  - reflexivity.
Qed.

(** ** The output of the processor *)

Section ProcessorOutput.

Variable llm : nat -> value -> result value.

Lemma process_single_post_annotate (i : nat) (post : value) (s : string) :
  text_of_item post = Some s ->
  process_single_post llm i post
  = Ok (Some (annotate (llm i (VStr s)) s (engagement_of post))).
Proof.
  unfold text_of_item.
  destruct post as [ |b|z|f|s0|l|d]; try discriminate.
  destruct (dict_get "text" d) as [[ |b|z|f|s0|l|d']|] eqn:Etext;
    try discriminate.
  destruct (String.eqb s0 EmptyString) eqn:Es; [discriminate|]. intros [= ->].
  unfold process_single_post. cbn [contains bind getitem]. unfold dict_has.
  rewrite Etext. cbn [negb bind truthy]. rewrite Es. cbn [negb bind].
  rewrite get_dict. cbn [bind engagement_of].
  unfold extract_post_metadata.
  assert (Hdefault :
    get_default_metadata (VStr s)
    = Ok [ ("line_count", VInt (line_count_of s));
           ("language", VStr "English");
           ("tags", VList [VStr "General"]);
           ("length", VStr (bucket_name (line_count_of s)));
           ("tone", VStr "Professional");
           ("target_audience", VStr "General") ]).
  { unfold get_default_metadata. now rewrite len_split_newline_str. }
  destruct (llm i (VStr s)) as [answer|e] eqn:Ellm; cbn [bind try_except].
  - destruct answer as [ |b|z|f|s0|l|M];
      try (rewrite normalize_metadata_not_dict by discriminate;
           cbn [try_except]; rewrite Hdefault; reflexivity).
    rewrite normalize_metadata_dict. reflexivity.
  - rewrite Hdefault. reflexivity.
Qed.

Lemma process_posts_is_annotated (i : nat) (raw_data : list value) :
  process_posts llm i raw_data = Ok (annotated llm i raw_data).
Proof.
  revert i. induction raw_data as [|post raw IH]; intros i; [reflexivity|].
  cbn [process_posts annotated]. rewrite IH.
  destruct (text_of_item post) as [s|] eqn:Etext.
  - rewrite (process_single_post_annotate i post s Etext). cbn [bind].
    now destruct (llm i (VStr s)) as [[ | | | | | |M]|e].
  - now rewrite (process_single_post_skipped llm i post Etext).
Qed.

(** X16. The processor is total, and its output is determined by the
    answers of the classifier: one record for every item with a
    non-empty string text, in order, made of the text, the engagement of
    the item (0 when it has none) and the checked answer of the
    classifier, or the fallback bundle when the classifier fails or
    answers something that is no object.  Every other item (no text, an
    empty text, a text that is no string, an item that is no object) is
    dropped without an error. *)
Theorem process_posts_annotated (i : nat) (raw_data : list value) :
  process_posts llm i raw_data = Ok (annotated llm i raw_data) /\
  map text_string (annotated llm i raw_data) = texts_of raw_data.
Proof.
  split; [apply process_posts_is_annotated|].
  revert i. induction raw_data as [|post raw IH]; intros i; [reflexivity|].
  cbn [annotated texts_of flat_map].
  destruct (text_of_item post) as [s|]; [|apply IH].
  cbn [map app]. f_equal; [|apply IH].
  now destruct (llm i (VStr s)) as [[ | | | | | |M]|e].
Qed.

End ProcessorOutput.

Lemma annotate_record (answer : result value) (s : string) (e : value) :
  exists language tags tone audience,
    annotate answer s e
    = post_record s e (VStr language) tags (VStr tone) (VStr audience) /\
    (forall M, answer = Ok (VDict M) ->
               tags = firstn 4 (tags_sequence (dict_get "tags" M))) /\
    ((forall M, answer <> Ok (VDict M)) -> tags = [VStr "General"]).
Proof.
  assert (Hchecked : forall enum default field,
            exists c, checked enum default field = VStr c).
  { intros enum default [[ | | | |c| | ]|]; cbn [checked];
      try (now exists default).
    destruct (existsb (String.eqb c) enum); eauto. }
  destruct answer as [[ | | | | | |M]|x];
    try (exists "English", [VStr "General"], "Professional", "General";
         split; [reflexivity|]; split; [discriminate|reflexivity]).
  cbn [annotate].
  destruct (Hchecked languages "English" (dict_get "language" M)) as [l ->].
  destruct (Hchecked tones "Professional" (dict_get "tone" M)) as [t ->].
  destruct (Hchecked audiences "General" (dict_get "target_audience" M))
    as [a ->].
  exists l, (firstn 4 (tags_sequence (dict_get "tags" M))), t, a.
  split; [reflexivity|]. split.
  - now intros M' [= <-].
  - intros H. now elim (H M).
Qed.

Lemma annotated_length (llm : nat -> value -> result value) (i : nat)
    (raw_data : list value) :
  List.length (annotated llm i raw_data) = List.length (texts_of raw_data).
Proof.
  revert i. induction raw_data as [|post raw IH]; intros i; [reflexivity|].
  cbn [annotated texts_of flat_map].
  destruct (text_of_item post); cbn [app List.length]; now rewrite IH.
Qed.

Lemma annotated_head (llm : nat -> value -> result value) (i : nat)
    (raw_data : list value) (r : dict) (rest : list dict) :
  annotated llm i raw_data = r :: rest ->
  exists answer s e, r = annotate answer s e.
Proof.
  revert i. induction raw_data as [|post raw IH]; intros i; [discriminate|].
  cbn [annotated]. destruct (text_of_item post) as [s|].
  - intros [= <- _]. eauto.
  - apply IH.
Qed.

Lemma is_processed_post_record (s : string)
    (e language : value) (tags : list value) (tone audience : value)
    (rest : list value) :
  _is_processed_dataset
    (Ok (VList (VDict (post_record s e language tags tone audience)
                :: rest)))
  = Ok (match tags with [] => false | _ => true end).
Proof. now destruct tags. Qed.

(** X17. The registry and the output of the processor.  The file that
    the processor writes is classified as processed exactly when its
    first record has a tag, so an output whose first answer came with no
    tags is listed among the raw datasets; [validate_dataset] accepts
    the file exactly when some raw item had a text. *)
Theorem processor_output_registry (str_exn : exn -> string)
    (llm : nat -> value -> result value) (raw_data : list value) :
  exists out,
    process_posts llm 0 raw_data = Ok out /\
    (_is_processed_dataset (Ok (VList (map VDict out))) = Ok true <->
     exists r rest, out = r :: rest /\ tags_of_record r <> []) /\
    (fst (validate_dataset str_exn (Ok (VList (map VDict out)))) = true <->
     texts_of raw_data <> []).
Proof.
  exists (annotated llm 0 raw_data).
  split; [apply process_posts_is_annotated|].
  pose proof (annotated_length llm 0 raw_data) as Hlen.
  destruct (annotated llm 0 raw_data) as [|r rest] eqn:Eout.
  - split.
    + split; [discriminate|]. intros (r & rest & H & _). discriminate H.
    + split; [discriminate|]. intros H. elim H.
      now destruct (texts_of raw_data).
  - destruct (annotated_head llm 0 raw_data r rest Eout)
      as (answer & s & e & ->).
    destruct (annotate_record answer s e)
      as (language & tags & tone & audience & -> & _).
    cbn [map]. split.
    + rewrite is_processed_post_record. split.
      * intros H. eexists. eexists. split; [reflexivity|].
        cbn. destruct tags; [discriminate|discriminate].
      * intros (r' & rest' & [= <- <-] & Htags).
        cbn in Htags. now destruct tags.
    + split.
      * intros _ H. rewrite H in Hlen. discriminate Hlen.
      * intros _. reflexivity.
Qed.

(** ** Loading what the processor wrote *)

Lemma Forall_firstn {A} (P : A -> Prop) (n : nat) (l : list A) :
  Forall P l -> Forall P (firstn n l).
Proof.
  intros H. revert n. induction H as [|x l Hx Hl IH]; intros [|n];
    cbn [firstn]; constructor; [exact Hx|apply IH].
Qed.

Lemma annotate_shape (answer : result value) (s : string) (n : Z) :
  tags_hashable answer -> annotated_record (annotate answer s (VInt n)).
Proof.
  intros Htags.
  assert (Hfallback : annotated_record (fallback_record s (VInt n))).
  { exists s, n, "English", [VStr "General"], "Professional", "General".
    split; [reflexivity|]. repeat constructor. }
  destruct (annotate_record answer s (VInt n))
    as (language & tags & tone & audience & E & Hdict & _).
  destruct answer as [[ | | | | | |M]|x]; try exact Hfallback.
  rewrite E. exists s, n, language, tags, tone, audience.
  split; [reflexivity|]. rewrite (Hdict M eq_refl).
  now apply Forall_firstn.
Qed.

Lemma annotated_shape (llm : nat -> value -> result value) (i : nat)
    (raw_data : list value) :
  Forall integer_engagement raw_data ->
  (forall j text, tags_hashable (llm j text)) ->
  Forall annotated_record (annotated llm i raw_data).
Proof.
  intros Heng Htags. revert i.
  induction Heng as [|post raw [n Hn] Hraw IH]; intros i;
    cbn [annotated]; [constructor|].
  destruct (text_of_item post) as [s|]; [|apply IH].
  constructor; [|apply IH]. rewrite Hn. apply annotate_shape, Htags.
Qed.

Lemma shaped_record_flat (r : dict) : shaped_record r -> flat r.
Proof.
  intros (s & n & language & tags & tone & audience & ->).
  repeat constructor.
Qed.

Lemma shaped_record_items (r : dict) :
  shaped_record r -> dict_items r = r.
Proof.
  intros (s & n & language & tags & tone & audience & ->). reflexivity.
Qed.

Lemma shaped_record_columns (out : list dict) :
  Forall shaped_record out ->
  fold_left (fun cols r => fold_left pd.add_label (dict_keys r) cols)
            out record_fields
  = record_fields.
Proof.
  induction 1 as [|r out Hr Hout IH]; [reflexivity|].
  cbn [fold_left].
  destruct Hr as (s & n & language & tags & tone & audience & ->).
  exact IH.
Qed.

Lemma json_normalize_shaped (out : list dict) :
  out <> [] -> Forall shaped_record out ->
  pd.json_normalize (VList (map VDict out))
  = Ok {| pd.columns := record_fields; pd.rows := out |}.
Proof.
  intros Hne Hall. destruct out as [|r out]; [contradiction|].
  assert (HM : mapM (fun x => match x with
                              | VDict d0 => Ok d0
                              | _ => Raise AttributeError
                              end)
                    (map pd.simple_json_normalize (map VDict (r :: out)))
               = Ok (r :: out)).
  { rewrite map_map.
    rewrite (mapM_map_ok _ _ (fun d => d)); [now rewrite map_id|].
    intros d Hd. cbn [pd.simple_json_normalize]. f_equal.
    rewrite Forall_forall in Hall.
    rewrite normalise_json_ordered_flat
      by (apply shaped_record_flat; now apply Hall).
    apply shaped_record_items. now apply Hall. }
  cbn [map] in HM.
  cbn [map pd.json_normalize pd.simple_json_normalize pd.DataFrame_of_list].
  cbn [pd.simple_json_normalize] in HM. rewrite HM. cbn [bind].
  f_equal. f_equal. inversion Hall as [|? ? Hr Hout]; subst.
  cbn [fold_left].
  destruct Hr as (s & n & language & tags & tone & audience & ->).
  exact (shaped_record_columns out Hout).
Qed.

Lemma list_set_hashable (l : list value) :
  Forall hashable l -> exists unique, list_set l = Ok unique.
Proof.
  intros H. unfold list_set.
  assert (Hks : exists ks, mapM hash_key l = Ok ks).
  { induction H as [|x l Hx Hl [ks IH]]; [now exists []|].
    cbn [mapM]. rewrite IH.
    destruct x; cbn in Hx; try contradiction; cbn [hash_key bind]; eauto. }
  destruct Hks as [ks ->]. cbn [bind]. eauto.
Qed.

Lemma annotated_tags_hashable (out : list dict) :
  Forall annotated_record out ->
  Forall hashable (all_tags_of (map (pd.cell "tags") out)).
Proof.
  induction 1 as [|r out Hr Hout IH]; [constructor|].
  destruct Hr as (s & n & language & tags & tone & audience & -> & Htags).
  cbn [map all_tags_of flat_map]. apply Forall_app. split; [exact Htags|].
  exact IH.
Qed.

Lemma setitem_tags_shaped (out : list dict) :
  Forall shaped_record out ->
  pd.setitem {| pd.columns := record_fields; pd.rows := out |} "tags"
             (map ensure_list (map (pd.cell "tags") out))
  = {| pd.columns := record_fields; pd.rows := out |}.
Proof.
  intros Hall. unfold pd.setitem. cbn [pd.rows pd.columns]. f_equal.
  induction Hall as [|r out Hr Hout IH]; [reflexivity|].
  cbn [map combine]. rewrite IH. f_equal.
  now destruct Hr as (s & n & language & tags & tone & audience & ->).
Qed.

Lemma records_shaped (out : list dict) (unique : list value) :
  Forall shaped_record out ->
  records {| df := {| pd.columns := record_fields; pd.rows := out |};
             unique_tags := unique |}
  = out.
Proof.
  intros Hall. unfold records, pd.to_dict_records. cbn [df pd.columns pd.rows].
  induction Hall as [|r out Hr Hout IH]; [reflexivity|].
  cbn [map]. rewrite IH. f_equal.
  now destruct Hr as (s & n & language & tags & tone & audience & ->).
Qed.

Lemma annotated_shaped (out : list dict) :
  Forall annotated_record out -> Forall shaped_record out.
Proof.
  apply Forall_impl.
  intros r (s & n & language & tags & tone & audience & -> & _).
  now exists s, n, language, tags, tone, audience.
Qed.

Lemma load_posts_annotated (out : list dict) :
  out <> [] -> Forall annotated_record out ->
  exists unique,
    load_posts (Ok (VList (map VDict out)))
    = Ok {| df := {| pd.columns := record_fields; pd.rows := out |};
            unique_tags := unique |}.
Proof.
  intros Hne Hall.
  destruct (list_set_hashable _ (annotated_tags_hashable out Hall))
    as [unique Hunique].
  pose proof (annotated_shaped out Hall) as Hshaped.
  exists unique. unfold load_posts. cbn [bind].
  rewrite (json_normalize_shaped out Hne Hshaped). cbn [bind].
  change (pd.has_column {| pd.columns := record_fields; pd.rows := out |}
                        "line_count") with true.
  cbn [negb bind].
  change (pd.has_column {| pd.columns := record_fields; pd.rows := out |}
                        "length") with true.
  cbn [negb bind].
  change (pd.has_column {| pd.columns := record_fields; pd.rows := out |}
                        "engagement") with true.
  cbn [negb].
  change (pd.has_column {| pd.columns := record_fields; pd.rows := out |}
                        "tags") with true.
  cbv iota.
  assert (Hget : pd.getitem {| pd.columns := record_fields; pd.rows := out |}
                            "tags"
                 = Ok (map (pd.cell "tags") out)) by reflexivity.
  rewrite Hget. cbn [bind].
  rewrite (setitem_tags_shaped out Hshaped), Hget. cbn [bind].
  rewrite Hunique. reflexivity.
Qed.

(** X18. What the processor writes can be loaded again.  When some raw
    item has a text, the engagement of every item is an integer or is
    missing, and the tags that the classifier answers can be hashed,
    loading the document that holds the output of the processor
    succeeds, the frame has exactly the eight fields of a post record as
    its columns, and its records are the records that the processor
    wrote, in order: nothing is backfilled and no tags cell is
    changed. *)
Theorem processed_output_reloads (llm : nat -> value -> result value)
    (raw_data : list value)
    (Hne : texts_of raw_data <> [])
    (Heng : Forall integer_engagement raw_data)
    (Htags : forall j text, tags_hashable (llm j text)) :
  exists out fs,
    process_posts llm 0 raw_data = Ok out /\
    load_posts (Ok (VList (map VDict out))) = Ok fs /\
    pd.columns (df fs) = record_fields /\
    records fs = out.
Proof.
  exists (annotated llm 0 raw_data).
  pose proof (annotated_shape llm 0 raw_data Heng Htags) as Hall.
  assert (Hout : annotated llm 0 raw_data <> []).
  { intros E. apply Hne.
    pose proof (annotated_length llm 0 raw_data) as Hlen.
    rewrite E in Hlen. now destruct (texts_of raw_data). }
  destruct (load_posts_annotated _ Hout Hall) as [unique Hload].
  eexists. split; [apply process_posts_is_annotated|].
  split; [exact Hload|]. split; [reflexivity|].
  now apply records_shaped, annotated_shaped.
Qed.

Lemma processed_output_reloads_witness :
  let llm := fun (i : nat) (_ : value) =>
    match i with
    | O => Ok (VDict [("tags", VList [VStr "AI"; VStr "Jobs"]);
                      ("language", VStr "Hinglish")])
    | _ => Raise ServiceError
    end in
  let raw_data :=
    [ VDict [("text", VStr "Hired!"); ("engagement", VInt 45)];
      VDict [("title", VStr "no text")];
      VDict [("text", VStr "Day one")] ] in
  exists out fs,
    process_posts llm 0 raw_data = Ok out /\
    load_posts (Ok (VList (map VDict out))) = Ok fs /\
    pd.columns (df fs) = record_fields /\
    records fs = out.
Proof.
  intros llm raw_data.
  apply (processed_output_reloads llm raw_data).
  - discriminate.
  - repeat constructor; eexists; reflexivity.
  - intros [|j] text; cbn; [|exact I]. repeat constructor.
Defined.

Lemma annotated_shaped_records (llm : nat -> value -> result value)
    (i : nat) (raw_data : list value) :
  Forall integer_engagement raw_data ->
  Forall shaped_record (annotated llm i raw_data).
Proof.
  intros Heng. revert i.
  induction Heng as [|post raw [n Hn] Hraw IH]; intros i;
    cbn [annotated]; [constructor|].
  destruct (text_of_item post) as [s|]; [|apply IH].
  constructor; [|apply IH]. rewrite Hn.
  destruct (annotate_record (llm i (VStr s)) s (VInt n))
    as (language & tags & tone & audience & -> & _).
  now exists s, n, language, tags, tone, audience.
Qed.

Lemma annotated_in (llm : nat -> value -> result value) (i j : nat)
    (raw_data : list value) (post : value) (s : string) :
  nth_error raw_data j = Some post ->
  text_of_item post = Some s ->
  In (annotate (llm (i + j)%nat (VStr s)) s (engagement_of post))
     (annotated llm i raw_data).
Proof.
  revert i j. induction raw_data as [|p raw IH]; intros i [|j] Hnth Htext;
    try discriminate; cbn [nth_error] in Hnth; cbn [annotated].
  - injection Hnth as ->. rewrite Htext, Nat.add_0_r. now left.
  - rewrite Nat.add_succ_r.
    destruct (text_of_item p); [right|]; now apply (IH (S i) j).
Qed.

Lemma list_set_unhashable (l : list value) (t : value) :
  In t l -> ~ hashable t -> list_set l = Raise TypeError.
Proof.
  intros Hin Ht. unfold list_set.
  assert (H : mapM hash_key l = Raise TypeError).
  { induction l as [|x l IH]; [easy|]. cbn [mapM].
    destruct (hash_key x) as [k|e] eqn:Ex; cbn [bind].
    - destruct Hin as [->|Hin].
      + destruct t; cbn in Ht; try (now elim Ht); discriminate Ex.
      + now rewrite IH.
    - destruct x; try discriminate Ex; cbn in Ex; congruence. }
  now rewrite H.
Qed.

Lemma all_tags_of_in (out : list dict) (r : dict) (tags : list value)
    (t : value) :
  In r out -> dict_get "tags" r = Some (VList tags) -> In t tags ->
  In t (all_tags_of (map (pd.cell "tags") out)).
Proof.
  intros Hr Htags Ht. unfold all_tags_of. apply in_flat_map.
  exists (VList tags). split; [|exact Ht].
  apply in_map_iff. exists r. split; [|exact Hr].
  unfold pd.cell. now rewrite Htags.
Qed.

Lemma load_posts_unhashable (out : list dict) (t : value) :
  out <> [] -> Forall shaped_record out ->
  In t (all_tags_of (map (pd.cell "tags") out)) -> ~ hashable t ->
  load_posts (Ok (VList (map VDict out)))
  = Ok {| df := pd.DataFrame_empty; unique_tags := [] |}.
Proof.
  intros Hne Hshaped Hin Ht.
  unfold load_posts. cbn [bind].
  rewrite (json_normalize_shaped out Hne Hshaped). cbn [bind].
  change (pd.has_column {| pd.columns := record_fields; pd.rows := out |}
                        "line_count") with true.
  cbn [negb bind].
  change (pd.has_column {| pd.columns := record_fields; pd.rows := out |}
                        "length") with true.
  cbn [negb bind].
  change (pd.has_column {| pd.columns := record_fields; pd.rows := out |}
                        "engagement") with true.
  cbn [negb].
  change (pd.has_column {| pd.columns := record_fields; pd.rows := out |}
                        "tags") with true.
  cbv iota.
  assert (Hget : pd.getitem {| pd.columns := record_fields; pd.rows := out |}
                            "tags"
                 = Ok (map (pd.cell "tags") out)) by reflexivity.
  rewrite Hget. cbn [bind].
  rewrite (setitem_tags_shaped out Hshaped), Hget. cbn [bind].
  rewrite (list_set_unhashable _ t Hin Ht). reflexivity.
Qed.

(** X19. One tag that cannot be hashed empties the corpus.  When the
    engagement of every raw item is an integer or is missing and the
    classifier answers, for some item with a text, an object with an
    array or an object among the first four of its tags, the processor
    still writes its records, but loading that document gives the empty
    corpus with no tags: the collection of the tags into a set fails and
    the catch-all handler of the load takes over. *)
Theorem unhashable_tag_empties_load (llm : nat -> value -> result value)
    (raw_data : list value) (j : nat) (post : value) (s : string)
    (M : dict) (t : value)
    (Heng : Forall integer_engagement raw_data)
    (Hpost : nth_error raw_data j = Some post)
    (Htext : text_of_item post = Some s)
    (Hanswer : llm j (VStr s) = Ok (VDict M))
    (Htag : In t (firstn 4 (tags_sequence (dict_get "tags" M))))
    (Hunhashable : ~ hashable t) :
  exists out,
    process_posts llm 0 raw_data = Ok out /\
    List.length out = List.length (texts_of raw_data) /\
    out <> [] /\
    load_posts (Ok (VList (map VDict out)))
    = Ok {| df := pd.DataFrame_empty; unique_tags := [] |}.
Proof.
  exists (annotated llm 0 raw_data).
  split; [apply process_posts_is_annotated|].
  split; [apply annotated_length|].
  pose proof (annotated_in llm 0 j raw_data post s Hpost Htext) as Hin.
  cbn [Nat.add] in Hin. rewrite Hanswer in Hin. cbn [annotate] in Hin.
  assert (Hne : annotated llm 0 raw_data <> []).
  { intros E. rewrite E in Hin. exact Hin. }
  split; [exact Hne|].
  apply (load_posts_unhashable _ t Hne).
  - now apply annotated_shaped_records.
  - eapply all_tags_of_in; [exact Hin|reflexivity|exact Htag].
  - exact Hunhashable.
Qed.

Lemma unhashable_tag_empties_load_witness :
  let llm := fun (_ : nat) (_ : value) =>
    Ok (VDict [("tags", VList [VStr "AI"; VList [VStr "Jobs"]])]) in
  let raw_data := [ VDict [("text", VStr "Hired!")] ] in
  exists out,
    process_posts llm 0 raw_data = Ok out /\
    List.length out = List.length (texts_of raw_data) /\
    out <> [] /\
    load_posts (Ok (VList (map VDict out)))
    = Ok {| df := pd.DataFrame_empty; unique_tags := [] |}.
Proof.
  intros llm raw_data.
  apply (unhashable_tag_empties_load llm raw_data 0
           (VDict [("text", VStr "Hired!")]) "Hired!"
           [("tags", VList [VStr "AI"; VList [VStr "Jobs"]])]
           (VList [VStr "Jobs"])).
  - repeat constructor. eexists. reflexivity.
  - reflexivity.
  - reflexivity.
  - reflexivity.
  - right. now left.
  - intros H. exact H.
Defined.

(** ** The names of an upload *)

Lemma str_prefix_app (p s : string) :
  str_prefix p s = true -> exists rest, s = p ++ rest.
Proof.
  revert s. induction p as [|a p IH]; intros s H; [now exists s|].
  destruct s as [|b s]; [discriminate|]. cbn [str_prefix] in H.
  apply andb_true_iff in H. destruct H as [Hab Hp].
  apply Ascii.eqb_eq in Hab. subst b.
  destruct (IH s Hp) as [rest ->]. now exists rest.
Qed.

Lemma length_app_string (s x : string) :
  String.length (s ++ x) = (String.length s + String.length x)%nat.
Proof. induction s as [|c s IH]; cbn; [reflexivity|now rewrite IH]. Qed.

Lemma endswith_length (s suffix : string) :
  endswith s suffix = true ->
  (String.length suffix <= String.length s)%nat.
Proof.
  induction s as [|c s IH]; cbn [endswith]; intros H;
    apply orb_true_iff in H; destruct H as [H|H]; try discriminate.
  - apply String.eqb_eq in H. subst. apply Nat.le_refl.
  - apply String.eqb_eq in H. subst. apply Nat.le_refl.
  - cbn [String.length]. apply IH in H. now apply Nat.le_le_succ_r.
Qed.

Lemma app_string_inj_l (s t x : string) : s ++ x = t ++ x -> s = t.
Proof.
  revert t. induction s as [|c s IH]; intros [|d t] H; cbn in H.
  - reflexivity.
  - exfalso. apply (f_equal String.length) in H.
    cbn [String.length] in H. rewrite length_app_string in H. lia.
  - exfalso. apply (f_equal String.length) in H.
    cbn [String.length] in H. rewrite length_app_string in H. lia.
  - injection H as -> H. f_equal. now apply IH.
Qed.

Lemma eqb_app_r (s t x : string) :
  String.eqb (s ++ x) (t ++ x) = String.eqb s t.
Proof.
  destruct (String.eqb_spec s t) as [->|Hne]; [apply String.eqb_refl|].
  apply String.eqb_neq. intros H. apply Hne. now apply app_string_inj_l in H.
Qed.

Lemma endswith_app_r (s t x : string) :
  endswith (s ++ x) (t ++ x) = endswith s t.
Proof.
  induction s as [|c s IH].
  - cbn [String.append]. destruct t as [|d t].
    + cbn [String.append endswith]. rewrite String.eqb_refl.
      now destruct x; cbn [endswith]; rewrite String.eqb_refl.
    + cbn [endswith String.eqb orb].
      destruct (endswith x (String d t ++ x)) eqn:E; [|reflexivity].
      apply endswith_length in E. cbn [String.append String.length] in E.
      rewrite length_app_string in E. lia.
  - change (String c s ++ x) with (String c (s ++ x)). cbn [endswith].
    rewrite IH. f_equal.
    exact (eqb_app_r (String c s) t x).
Qed.

Lemma is_dataset_file_json (stem : string) :
  existsb (String.eqb (stem ++ ".json")) system_files = false ->
  is_dataset_file (stem ++ ".json")
  = negb (endswith stem "_metadata") && negb (endswith stem "_history").
Proof.
  intros Hsys. unfold is_dataset_file.
  rewrite endswith_app, Hsys.
  rewrite <- (endswith_app_r stem "_metadata" ".json").
  rewrite <- (endswith_app_r stem "_history" ".json").
  cbn [negb andb]. now rewrite andb_true_r.
Qed.

Lemma upload_names_listed (rest : string) :
  let stem := "raw_" ++ rest in
  is_dataset_file (stem ++ ".json")
  = negb (endswith stem "_metadata") && negb (endswith stem "_history") /\
  is_dataset_file ("processed_" ++ stem ++ ".json")
  = negb (endswith stem "_metadata") && negb (endswith stem "_history").
Proof.
  intros stem. split.
  - now apply is_dataset_file_json.
  - change ("processed_" ++ stem ++ ".json")
      with (("processed_" ++ stem) ++ ".json").
    rewrite is_dataset_file_json by reflexivity.
    reflexivity.
Qed.

(** X20. The two files of an upload.  For every dataset name there is a
    stem that starts with ["raw_"], the name itself or the name after
    ["raw_"], such that the raw copy is written to [data/<stem>.json]
    and the processed dataset to [data/processed_<stem>.json]; the two
    paths differ.  Each of the two files passes the name test of the
    listings exactly when the stem does not end in ["_metadata"] or in
    ["_history"]: a dataset named ["metadata"] or ["x_history"] is
    written and never listed. *)
Theorem upload_file_names (dataset_name : string) :
  exists stem,
    str_prefix "raw_" stem = true /\
    (stem = dataset_name \/ stem = "raw_" ++ dataset_name) /\
    raw_filename dataset_name = file_path (stem ++ ".json") /\
    processed_filename dataset_name
    = file_path ("processed_" ++ stem ++ ".json") /\
    raw_filename dataset_name <> processed_filename dataset_name /\
    is_dataset_file (stem ++ ".json")
    = negb (endswith stem "_metadata") && negb (endswith stem "_history") /\
    is_dataset_file ("processed_" ++ stem ++ ".json")
    = negb (endswith stem "_metadata") && negb (endswith stem "_history").
Proof.
  unfold raw_filename, processed_filename.
  destruct (str_prefix "raw_" dataset_name) eqn:Eraw; cbn [negb].
  - exists dataset_name. split; [exact Eraw|]. split; [now left|].
    destruct (str_prefix_app _ _ Eraw) as [rest ->].
    split; [reflexivity|]. split; [reflexivity|].
    split; [discriminate|]. apply upload_names_listed.
  - exists ("raw_" ++ dataset_name). split; [reflexivity|].
    split; [now right|].
    split; [reflexivity|]. split; [reflexivity|].
    split; [discriminate|]. apply upload_names_listed.
Qed.

Lemma app_string_nil_r (s : string) : s ++ EmptyString = s.
Proof. induction s as [|c s IH]; cbn; [reflexivity|now rewrite IH]. Qed.

Lemma replace_from_absent (a : ascii) (old new s : string) :
  str_contains (String a old) s = false ->
  replace_from (String a old) new 0 s = s.
Proof.
  induction s as [|c s IH]; [reflexivity|].
  intros H. cbn [str_contains] in H. apply orb_false_iff in H.
  destruct H as [Hprefix Hrest].
  cbn [replace_from]. rewrite Hprefix. f_equal. now apply IH.
Qed.

Lemma replace_json_suffix (s new : string) :
  str_contains "." s = false ->
  replace_from ".json" new 0 (s ++ ".json") = s ++ new.
Proof.
  induction s as [|c s IH]; intros H.
  - cbn. now rewrite app_string_nil_r.
  - cbn [str_contains] in H. apply orb_false_iff in H.
    destruct H as [Hprefix Hrest].
    cbn [str_prefix] in Hprefix. rewrite andb_true_r in Hprefix.
    change (String c s ++ ".json") with (String c (s ++ ".json")).
    cbn [replace_from str_prefix]. rewrite Hprefix. cbn [andb].
    change (String c s ++ new) with (String c (s ++ new)).
    f_equal. now apply IH.
Qed.

(** X21. The display names of an upload.  For a dataset name without a
    dot that does not start with ["raw_"], the raw copy is shown as the
    title of the name, ["raw_"] removed everywhere and underscores
    turned into spaces, followed by [" (Raw)"], and the processed
    dataset as the title of the name with ["processed_raw_"] removed
    everywhere; the two agree, up to the suffix, when ["raw_"] does not
    occur in the name.  The side file of the processed dataset gets the
    suffix ["_metadata.json"], which keeps it out of both listings. *)
Theorem upload_display_names (title : string -> string)
    (dataset_name : string)
    (Hdot : str_contains "." dataset_name = false)
    (Hplain : str_prefix "raw_" dataset_name = false) :
  let raw_file := "raw_" ++ dataset_name ++ ".json" in
  let processed_file := "processed_raw_" ++ dataset_name ++ ".json" in
  raw_filename dataset_name = file_path raw_file /\
  processed_filename dataset_name = file_path processed_file /\
  _create_display_name title raw_file true
  = title (replace (replace dataset_name "raw_" EmptyString) "_" " ")
    ++ " (Raw)" /\
  _create_display_name title processed_file false
  = title (replace (replace dataset_name "processed_raw_" EmptyString)
                   "_" " ") /\
  (str_contains "raw_" dataset_name = false ->
   _create_display_name title raw_file true
   = _create_display_name title processed_file false ++ " (Raw)") /\
  metadata_filename (processed_filename dataset_name)
  = file_path ("processed_raw_" ++ dataset_name ++ "_metadata.json").
Proof.
  cbv zeta.
  assert (Hraw_name :
    _create_display_name title ("raw_" ++ dataset_name ++ ".json") true
    = title (replace (replace dataset_name "raw_" EmptyString) "_" " ")
      ++ " (Raw)").
  { unfold _create_display_name.
    assert (replace ("raw_" ++ dataset_name ++ ".json") ".json" EmptyString
            = "raw_" ++ dataset_name) as ->.
    { cbn. rewrite (replace_json_suffix dataset_name EmptyString Hdot).
      now rewrite app_string_nil_r. }
    reflexivity. }
  assert (Hprocessed_name :
    _create_display_name title
      ("processed_raw_" ++ dataset_name ++ ".json") false
    = title (replace (replace dataset_name "processed_raw_" EmptyString)
                     "_" " ")).
  { unfold _create_display_name.
    assert (replace ("processed_raw_" ++ dataset_name ++ ".json") ".json"
                    EmptyString
            = "processed_raw_" ++ dataset_name) as ->.
    { cbn. rewrite (replace_json_suffix dataset_name EmptyString Hdot).
      now rewrite app_string_nil_r. }
    reflexivity. }
  unfold raw_filename, processed_filename. rewrite Hplain. cbn [negb].
  split; [reflexivity|]. split; [reflexivity|].
  split; [exact Hraw_name|]. split; [exact Hprocessed_name|]. split.
  - intros Hraw. rewrite Hraw_name, Hprocessed_name.
    assert (Hlong : str_contains "processed_raw_" dataset_name = false).
    { clear -Hraw. induction dataset_name as [|c s IH]; [reflexivity|].
      cbn [str_contains] in Hraw |- *.
      apply orb_false_iff in Hraw. destruct Hraw as [_ Hraw].
      rewrite (IH Hraw), orb_false_r.
      destruct (str_prefix "processed_raw_" (String c s)) eqn:E;
        [|reflexivity].
      apply str_prefix_app in E. destruct E as [rest E].
      injection E as -> ->.
      exfalso. revert Hraw. clear.
      cbn. discriminate. }
    unfold replace at 2 4.
    now rewrite (replace_from_absent _ _ _ _ Hraw),
                (replace_from_absent _ _ _ _ Hlong).
  - unfold metadata_filename. cbn.
    now rewrite (replace_json_suffix dataset_name "_metadata.json" Hdot).
Qed.

Lemma upload_display_names_witness :
  _create_display_name (fun s => s) "raw_tech_students.json" true
  = _create_display_name (fun s => s) "processed_raw_tech_students.json"
                         false ++ " (Raw)".
Proof.
  apply (upload_display_names (fun s => s) "tech_students");
    reflexivity.
Defined.

(** ** The prompt and its examples *)

Import post_generator.

Lemma app_string_assoc (a b c : string) : (a ++ b) ++ c = a ++ (b ++ c).
Proof. induction a as [|x a IH]; cbn; [reflexivity|now rewrite IH]. Qed.

Lemma getitem_text (r : dict) :
  has_text r -> getitem (VDict r) "text" = Ok (VStr (text_string r)).
Proof.
  intros [s Hs]. unfold text_string. cbn [getitem]. now rewrite Hs.
Qed.

(** X22. The prompt shows the first two matching records and no other.
    When the first two records of the corpus that match the query have a
    string text, [get_prompt] returns the head of the prompt followed by
    nothing when no record matches, and else by the style line and the
    texts of the first two matching records at most, in the order of the
    corpus and numbered 1 and 2; a third match changes nothing. *)
Theorem get_prompt_first_two (str_value : value -> string)
    (length language tag tone : string)
    (include_hashtags include_emojis add_cta professional : bool)
    (fs : FewShotPosts)
    (Htext : Forall has_text
               (firstn 2 (filter (matchesb length language tag)
                                 (records fs)))) :
  get_prompt str_value length language tag tone include_hashtags
             include_emojis add_cta professional fs
  = Ok (prompt_head (get_length_str length) language tag tone
                    include_hashtags include_emojis add_cta professional
        ++ shown_examples
             (map text_string
                  (filter (matchesb length language tag) (records fs)))).
Proof.
  unfold get_prompt. rewrite get_filtered_posts_filter. cbn [bind].
  destruct (filter (matchesb length language tag) (records fs))
    as [|r1 [|r2 rest]].
  - cbn. now rewrite app_string_nil_r.
  - inversion Htext as [|? ? H1 _]; subst.
    cbn [List.length Z.of_nat Z.ltb Z.compare examples_loop map
         shown_examples].
    rewrite (getitem_text r1 H1). cbn [bind format_value Nat.eqb Nat.add].
    change (str_nat 1) with "1".
    now rewrite app_string_assoc.
  - cbn [firstn] in Htext.
    inversion Htext as [|? ? H1 Htext']; subst.
    inversion Htext' as [|? ? H2 _]; subst.
    cbn [examples_loop map shown_examples].
    rewrite (getitem_text r1 H1). cbn [bind format_value Nat.eqb Nat.add].
    rewrite (getitem_text r2 H2). cbn [bind format_value Nat.eqb Nat.add].
    change (str_nat 1) with "1". change (str_nat 2) with "2".
    assert ((0 <? Z.of_nat (List.length (r1 :: r2 :: rest))) = true) as ->.
    { apply Z.ltb_lt. cbn [List.length]. lia. }
    now rewrite !app_string_assoc.
Qed.

Lemma get_prompt_first_two_witness :
  let post := fun text =>
    [ ("text", VStr text); ("tags", VList [VStr "Jobs"]);
      ("language", VStr "English"); ("length", VStr "Short") ] in
  let fs :=
    {| df := {| pd.columns := ["text"; "tags"; "language"; "length"];
                pd.rows := [post "one"; post "two"; post "three"] |};
       unique_tags := [VStr "Jobs"] |} in
  get_prompt (fun _ => EmptyString) "Short" "English" "Jobs" "Casual"
             true true false false fs
  = Ok (prompt_head "1 to 5 lines" "English" "Jobs" "Casual"
                    true true false false
        ++ style_line ++ example_block "1" "one" ++ example_block "2" "two").
Proof.
  intros post fs.
  apply (get_prompt_first_two (fun _ => EmptyString) "Short" "English"
           "Jobs" "Casual" true true false false fs).
  repeat constructor; eexists; reflexivity.
Defined.
